(** * Sales-forecast pipeline: a shallow embedding of [app.py]

    The development follows the script top to bottom: the loader and the
    daily aggregation ([load_data], [filter_by_product]), the label sort
    ([sort_by_code]), the three categorical filters, the sidebar control
    flow that chooses the daily series, the training-series construction,
    the horizon arithmetic and the three forecasting branches with their
    clamp, and finally the result table. The rest of the script follows:
    the date normalisation of [parse_date], the date and window widgets,
    the accuracy level, the summary metrics and the tags of the chart
    titles.

    Modelling conventions.
    - A calendar day (a midnight [pd.Timestamp] or a [datetime.date]) is its
      proleptic Gregorian ordinal in [Z]; [NaT] is [None].
    - A [float64] cell is an exact rational in [Q]: rounding, infinities and
      not-a-number values are not represented. A missing cell (the [NaN] a
      left merge produces) is [None] until [fillna] replaces it.
    - A data frame is the list of its rows, in index order.
    - Python exceptions are values of [exn] carried by the [result] monad.
    - Library functions whose behaviour is not in the script ([str.strip],
      [float], [pd.to_datetime], the fitted models) are fields of the
      classes [PyLib], [PyDates] and [Backends]; concrete instances are
      given for evaluation.
    - A text is the list of the bytes of its UTF-8 encoding. Replacing a
      whole character, as [parse_date] does, gives the same text on bytes
      as on characters.
    - Every code and name cell is a text: an upload with a missing code or
      name cell is not represented.
    - Statements that depend on the exact value of a sum are made for
      columns that pandas adds up exactly ([exact_sums]). *)

From Stdlib Require Import ZArith QArith Qabs Qminmax Qround String Ascii Lia.
From stdpp Require Import base tactics option list numbers strings sorting pretty.

Local Open Scope Z_scope.

(* ===================================================================== *)
(** * Exceptions                                                          *)
(* ===================================================================== *)

Inductive exn : Set :=
| ValueError
| OverflowError
| IndexError.

Inductive result (A : Type) : Type :=
| Ok (a : A)
| Raise (e : exn).
Arguments Ok {A} a.
Arguments Raise {A} e.

#[global] Instance result_ret : MRet result := fun A a => Ok a.
#[global] Instance result_bind : MBind result := fun A B f m =>
  match m with
  | Ok a => f a
  | Raise e => Raise e
  end.

(* ===================================================================== *)
(** * Calendar days                                                       *)
(* ===================================================================== *)

Module Dates.

Definition date := Z.

(** [date.toordinal] of the standard library, used to name concrete days. *)
Definition is_leap (year : Z) : bool :=
  (year mod 4 =? 0) && (negb (year mod 100 =? 0) || (year mod 400 =? 0)).

Definition days_before_year (year : Z) : Z :=
  let y := year - 1 in y * 365 + y / 4 - y / 100 + y / 400.

Definition days_before_month (year month : Z) : Z :=
  nth (Z.to_nat month) [0; 0; 31; 59; 90; 120; 151; 181; 212; 243; 273; 304; 334] 0
  + (if (2 <? month) && is_leap year then 1 else 0).

Definition ymd (year month day : Z) : date :=
  days_before_year year + days_before_month year month + day.

(** [(a - b).days] *)
Definition days_between (a b : date) : Z := a - b.

(** [pd.date_range(start=lo, end=hi, freq='D')] on two proper days: every
    day from [lo] to [hi], both included; empty when [hi < lo]. *)
Definition date_range (lo hi : date) : list date := seqZ lo (hi - lo + 1).

(** The same call when an end point may be [NaT]: pandas refuses it. *)
Definition pd_date_range (lo hi : option date) : result (list date) :=
  match lo, hi with
  | Some a, Some b => Ok (date_range a b)
  | _, _ => Raise ValueError
  end.

(** [Series.min()] and [Series.max()] of a date column; [NaT] when empty. *)
Definition col_min (ds : list date) : option date :=
  match ds with
  | [] => None
  | d :: ds' => Some (foldr Z.min d ds')
  end.

Definition col_max (ds : list date) : option date :=
  match ds with
  | [] => None
  | d :: ds' => Some (foldr Z.max d ds')
  end.

End Dates.
Import Dates.

(* ===================================================================== *)
(** * Stable sorting by an integer key                                    *)
(* ===================================================================== *)

(** Both [sorted(items, key=...)] and [sort_values] on a column of distinct
    keys order by the key and leave rows of equal key in input order. *)
Section StableSort.
Context {A : Type} (key : A -> Z).

Fixpoint insert_by (x : A) (l : list A) : list A :=
  match l with
  | [] => [x]
  | y :: l' => if decide (key x <= key y) then x :: y :: l' else y :: insert_by x l'
  end.

Definition stable_sort (l : list A) : list A := foldr insert_by [] l.
End StableSort.

(* ===================================================================== *)
(** * Frames                                                              *)
(* ===================================================================== *)

(** One row of the uploaded table. The amount cell is text in the upload
    ([row string]) and a number once [load_data] has converted it
    ([row Q]); [sale_date] holds the value [parse_date] gave for the row.
    The three code and name columns hold the text [astype(str)] gives. *)
Record row (A : Type) : Type := mk_row {
  sale_date : option date;      (* 売上日付_datetime *)
  quantity : Q;                 (* 売上数量 *)
  net_amount : A;               (* 税抜売上金額, 税抜売上金額_数値 *)
  department_code : string;     (* 部門コード *)
  department_name : string;     (* 部門名 *)
  order_method_code : string;   (* 受注方法コード *)
  order_method_name : string;   (* 受注方法名 *)
  product_code : string;        (* 商品コード *)
  product_name : string         (* 商品名 *)
}.
Arguments mk_row {A}.
Arguments sale_date {A}.
Arguments quantity {A}.
Arguments net_amount {A}.
Arguments department_code {A}.
Arguments department_name {A}.
Arguments order_method_code {A}.
Arguments order_method_name {A}.
Arguments product_code {A}.
Arguments product_name {A}.

Abbreviation record := (row Q).

(** A frame: its rows and, per axis, whether both the code and the name
    column are present (so that the combined label column exists). *)
Record frame (A : Type) : Type := mk_frame {
  frame_rows : list (row A);
  has_department : bool;
  has_order_method : bool;
  has_product : bool
}.
Arguments mk_frame {A}.
Arguments frame_rows {A}.
Arguments has_department {A}.
Arguments has_order_method {A}.
Arguments has_product {A}.

(** One row of a daily series: 日付, 売上数量, 税抜売上金額. *)
Record daily_row : Type := mk_daily {
  day : date;
  qty : Q;
  amt : Q
}.

(** A row of a left merge before [fillna]: value cells may be missing. *)
Record merged_row : Type := mk_merged {
  m_day : date;
  m_qty : option Q;
  m_amt : option Q
}.

Abbreviation daily_series := (list daily_row).

(* ===================================================================== *)
(** * The daily aggregation                                               *)
(* ===================================================================== *)

Module Aggregator.

(** Group keys of [groupby]: the distinct days, ascending; [NaT] keys are
    dropped. *)
Fixpoint insert_key (d : date) (ks : list date) : list date :=
  match ks with
  | [] => [d]
  | k :: ks' =>
      if decide (d < k) then d :: k :: ks'
      else if decide (d = k) then k :: ks'
      else k :: insert_key d ks'
  end.

Definition group_keys (rows : list record) : list date :=
  foldr insert_key [] (omap sale_date rows).

Definition group_of (d : date) (rows : list record) : list record :=
  filter (fun r => sale_date r = Some d) rows.

(** ['sum'] of a value column. *)
Definition col_sum (f : record -> Q) (rows : list record) : Q :=
  foldr Qplus 0%Q (f <$> rows).

(** [df.groupby('売上日付_datetime').agg({... 'sum'}).reset_index()] with the
    columns renamed to 日付, 売上数量, 税抜売上金額. *)
Definition groupby_sum (rows : list record) : daily_series :=
  (fun d => mk_daily d (col_sum quantity (group_of d rows))
                       (col_sum net_amount (group_of d rows)))
  <$> group_keys rows.

(** [sort_values('日付').reset_index(drop=True)]: ascending by day, rows of
    one day keep their order. *)
Definition sort_values (l : daily_series) : daily_series := stable_sort day l.

(** [date_df.merge(daily, on='日付', how='left')]: one output row per match
    of a left day, or one row with missing cells when nothing matches. *)
Definition merge_left (all_dates : list date) (daily : daily_series) : list merged_row :=
  all_dates ≫= fun d =>
    match filter (fun e => day e = d) daily with
    | [] => [mk_merged d None None]
    | ms => (fun e => mk_merged d (Some (qty e)) (Some (amt e))) <$> ms
    end.

(** [fillna(0)] on both value columns. *)
Definition fillna (l : list merged_row) : daily_series :=
  (fun m => mk_daily (m_day m) (default 0%Q (m_qty m)) (default 0%Q (m_amt m))) <$> l.

(** Lines 116-126, 203-213, 295-305 and 429-439: build the day range, merge,
    fill and sort. *)
Definition zero_fill (min_date max_date : option date) (daily : daily_series)
  : result daily_series :=
  all_dates ← pd_date_range min_date max_date;
  mret (sort_values (fillna (merge_left all_dates daily))).

(** The guarded block [if len(daily_data) > 0: ...]. *)
Definition fill_missing_days (daily : daily_series) : result daily_series :=
  if decide (0 < length daily)%nat
  then zero_fill (col_min (day <$> daily)) (col_max (day <$> daily)) daily
  else mret daily.

(** Grouping, sorting and gap filling of a record set: the body shared by
    [load_data] (lines 105-126) and [filter_by_product] (lines 198-213). *)
Definition aggregate (rows : list record) : result daily_series :=
  fill_missing_days (sort_values (groupby_sum rows)).

End Aggregator.
Import Aggregator.

(* ===================================================================== *)
(** * Text                                                                *)
(* ===================================================================== *)

(** Library functions on text whose definition is outside the script.
    - [str_strip] is [str.strip()].
    - [to_float] is the conversion of one cell by [astype(float)]; [None]
      stands for the [ValueError] of a cell that is not numeric.
    - [int_of_float] is [int(float(s))]: it raises [ValueError] when [s] is
      not numeric and [OverflowError] when [s] denotes an infinity. *)
Class PyLib : Type := {
  str_strip : string -> string;
  to_float : string -> option Q;
  int_of_float : string -> result Z
}.

Module Text.

(** [s.split(sep)[0]] for a non-empty [sep]: the text before the first
    occurrence of [sep], or all of [s] when there is none. *)
Fixpoint split_head (sep s : string) : string :=
  match s with
  | EmptyString => EmptyString
  | String c s' => if String.prefix sep s then EmptyString else String c (split_head sep s')
  end.

(** [s.replace(c, '')] for a one-character [c]. *)
Fixpoint remove_char (c : ascii) (s : string) : string :=
  match s with
  | EmptyString => EmptyString
  | String x s' => if decide (x = c) then remove_char c s' else String x (remove_char c s')
  end.

(** [Series.unique().tolist()]: distinct values in order of first
    appearance. *)
Fixpoint unique_from (seen : list string) (l : list string) : list string :=
  match l with
  | [] => []
  | x :: l' => if decide (x ∈ seen) then unique_from seen l' else x :: unique_from (x :: seen) l'
  end.

Definition unique (l : list string) : list string := unique_from [] l.

End Text.
Import Text.

(* ===================================================================== *)
(** * Category labels and their sort                                      *)
(* ===================================================================== *)

Inductive axis : Set := Department | OrderMethod | Product.

Definition sentinel (a : axis) : string :=
  match a with
  | Department => "全ての部門"
  | OrderMethod => "全ての受注方法"
  | Product => "全ての商品"
  end.

Definition code_of {A} (a : axis) (r : row A) : string :=
  match a with
  | Department => department_code r
  | OrderMethod => order_method_code r
  | Product => product_code r
  end.

Definition name_of {A} (a : axis) (r : row A) : string :=
  match a with
  | Department => department_name r
  | OrderMethod => order_method_name r
  | Product => product_name r
  end.

Section Labels.
Context `{PyLib}.

(** Lines 95, 99 and 103: [code.strip() + ' - ' + name.strip()]. *)
Definition make_label (code name : string) : string :=
  str_strip code +:+ " - " +:+ str_strip name.

Definition label_of {A} (a : axis) (r : row A) : string :=
  make_label (code_of a r) (name_of a r).

(** [extract_code] of [sort_by_code]: the handler catches [ValueError] and
    [IndexError] only. *)
Definition extract_code (item : string) : result Z :=
  match int_of_float (str_strip (split_head " - " item)) with
  | Ok z => Ok z
  | Raise ValueError => Ok 0
  | Raise IndexError => Ok 0
  | Raise e => Raise e
  end.

(** The keys [sorted] computes, one per item, left to right. *)
Fixpoint keyed (items : list string) : result (list (Z * string)) :=
  match items with
  | [] => mret []
  | item :: rest =>
      k ← extract_code item;
      ks ← keyed rest;
      mret ((k, item) :: ks)
  end.

(** [sorted(code_items, key=extract_code)] *)
Definition sorted_by_code (code_items : list string) : result (list string) :=
  ks ← keyed code_items;
  mret (snd <$> stable_sort fst ks).

Definition sort_by_code (item_list : list string) (is_first_item_all : bool)
  : result (list string) :=
  let all_item := if is_first_item_all then hd ""%string item_list else ""%string in
  let code_items :=
    if is_first_item_all
    then (if decide (1 < length item_list)%nat then drop 1 item_list else [])
    else item_list in
  sorted_code_items ← sorted_by_code code_items;
  mret (if is_first_item_all then all_item :: sorted_code_items else sorted_code_items).

(** The menu of one axis: lines 229-230, 248-249, 266-267. *)
Definition menu {A} (a : axis) (rows : list (row A)) : result (list string) :=
  sort_by_code (sentinel a :: unique (label_of a <$> rows)) true.

End Labels.

(* ===================================================================== *)
(** * The three filters                                                   *)
(* ===================================================================== *)

Section Filters.
Context `{PyLib}.

(** [not selected or len(selected) == 0 or "全ての..." in selected] *)
Definition no_filter (a : axis) (selected : list string) : bool :=
  bool_decide (selected = []) || bool_decide (length selected = 0%nat)
  || bool_decide (sentinel a ∈ selected).

(** [[s.split(' - ')[0] for s in selected]] *)
Definition selected_codes (selected : list string) : list string :=
  split_head " - " <$> selected.

(** [df[df[code].astype(str).str.strip().isin(codes)]] *)
Definition isin_rows {A} (a : axis) (codes : list string) (df : list (row A))
  : list (row A) :=
  filter (fun r => str_strip (code_of a r) ∈ codes) df.

Definition filter_by_department (df : list record) (selected_departments : list string)
  : list record :=
  if no_filter Department selected_departments then df
  else
    let department_codes := selected_codes selected_departments in
    isin_rows Department department_codes df.

Definition filter_by_order_method (df : list record) (selected_order_methods : list string)
  : list record :=
  if no_filter OrderMethod selected_order_methods then df
  else
    let order_method_codes := selected_codes selected_order_methods in
    isin_rows OrderMethod order_method_codes df.

Definition filter_by_product (df : list record) (selected_products : list string)
  : result daily_series :=
  let daily_data :=
    if no_filter Product selected_products then groupby_sum df
    else
      let product_codes := selected_codes selected_products in
      groupby_sum (isin_rows Product product_codes df) in
  fill_missing_days (sort_values daily_data).

End Filters.

(* ===================================================================== *)
(** * Loading                                                             *)
(* ===================================================================== *)

(** What the page shows besides charts and tables. *)
Inductive message : Set :=
| ErrLoad (e : exn)       (* st.error("データの読み込みエラー: ...") *)
| InfoNoDepartment        (* 部門コード・部門名が見つかりません。 *)
| InfoNoOrderMethod       (* 受注方法コード・受注方法名が見つかりません。 *)
| InfoNoProduct           (* 商品コード・商品名が見つかりません。 *)
| WarnNoData              (* 選択された条件にデータがありません。 *)
| InfoUpload              (* サイドバーからCSVファイルをアップロードしてください。 *)
| InfoPressRun.           (* サイドバーで予測モデルと期間を設定し... *)

Section Loading.
Context `{PyLib}.

(** Line 91 on one cell: drop the commas, convert to a number. *)
Definition convert_amount (r : row string) : result record :=
  match to_float (remove_char "," (net_amount r)) with
  | Some x =>
      Ok (mk_row (sale_date r) (quantity r) x
            (department_code r) (department_name r)
            (order_method_code r) (order_method_name r)
            (product_code r) (product_name r))
  | None => Raise ValueError
  end.

(** Line 91 on the column: the first bad cell aborts the conversion. *)
Fixpoint convert_amounts (rs : list (row string)) : result (list record) :=
  match rs with
  | [] => mret []
  | r :: rs' =>
      x ← convert_amount r;
      xs ← convert_amounts rs';
      mret (x :: xs)
  end.

(** The body of the [try] block of [load_data]. *)
Definition load_body (csv : frame string) : result (daily_series * frame Q) :=
  rows ← convert_amounts (frame_rows csv);
  daily_data_all ← aggregate rows;
  mret (daily_data_all,
        mk_frame rows (has_department csv) (has_order_method csv) (has_product csv)).

(** [load_data]: any exception becomes an error message and [(None, None)]. *)
Definition load_data (csv : frame string)
  : option (daily_series * frame Q) * list message :=
  match load_body csv with
  | Ok p => (Some p, [])
  | Raise e => (None, [ErrLoad e])
  end.

End Loading.

(* ===================================================================== *)
(** * The sidebar: from the loaded frame to the daily series              *)
(* ===================================================================== *)

(** What the operator leaves selected in the three multiselects. *)
Record selections : Type := mk_selections {
  ui_departments : list string;
  ui_order_methods : list string;
  ui_products : list string
}.

Section Sidebar.
Context `{PyLib}.

(** Lines 225-308. The result is the value of [daily_data] at line 310
    ([None] for Python's [None]) and the messages shown on the way. *)
Definition choose_series (raw_data : frame Q) (ui : selections)
  : result (option daily_series * list message) :=
  '(selected_departments, raw_data_filtered, m1) ←
    (if has_department raw_data then
       _ ← menu Department (frame_rows raw_data);
       mret (ui_departments ui,
             filter_by_department (frame_rows raw_data) (ui_departments ui),
             [])
     else mret ([sentinel Department], frame_rows raw_data, [InfoNoDepartment]));
  '(raw_data_filtered, m2) ←
    (if has_order_method raw_data then
       _ ← menu OrderMethod raw_data_filtered;
       mret (filter_by_order_method raw_data_filtered (ui_order_methods ui), [])
     else mret (raw_data_filtered, [InfoNoOrderMethod]));
  if has_product raw_data then
    _ ← menu Product raw_data_filtered;
    daily_data_filtered ← filter_by_product raw_data_filtered (ui_products ui);
    if decide (0 < length daily_data_filtered)%nat
    then mret (Some daily_data_filtered, m1 ++ m2)
    else mret (None, m1 ++ m2 ++ [WarnNoData])
  else
    daily_data ←
      (if no_filter Department selected_departments
       then aggregate raw_data_filtered
       else filter_by_product raw_data_filtered [sentinel Product]);
    mret (Some daily_data, m1 ++ m2 ++ [InfoNoProduct]).

End Sidebar.

(* ===================================================================== *)
(** * The timeline: training series, horizon                              *)
(* ===================================================================== *)

Module Timeline.

Definition on_or_before (last : option date) (e : daily_row) : Prop :=
  match last with
  | Some l => day e <= l
  | None => False
  end.

#[global] Instance on_or_before_dec last e : Decision (on_or_before last e).
Proof. destruct last; simpl; apply _. Defined.

(** Lines 387-439: [daily_data_for_forecast]. *)
Definition daily_data_for_forecast (daily_data : daily_series) (data_end_date : date)
  : result daily_series :=
  let original_last_date := col_max (day <$> daily_data) in
  let original_min_date := col_min (day <$> daily_data) in
  let up_to_last := filter (on_or_before original_last_date) daily_data in
  if decide (0 < length up_to_last)%nat
  then zero_fill original_min_date (Some data_end_date) up_to_last
  else mret up_to_last.

(** Line 482 *)
Definition forecast_days (start_date end_date : date) : Z :=
  days_between end_date start_date + 1.

(** Lines 587-591 *)
Definition days_to_forecast_end (end_date last_data_date : date) (forecast_days : Z) : Z :=
  let d := days_between end_date last_data_date in
  if decide (d < 0) then forecast_days else d.

End Timeline.
Import Timeline.

(* ===================================================================== *)
(** * The forecasting branches                                            *)
(* ===================================================================== *)

(** The fitted models, seen through the values the script reads from them
    once [fit] has accepted the training series (see [fit] below).
    - [prophet_yhat series ds] is the [yhat] cell of the row dated [ds] in
      [Prophet(...).fit(series).predict(future)].
    - [arima_step y k] is entry [k] (from 0) of
      [auto_arima(y, ...).predict(n_periods)], which has [n_periods] entries.
    - [linear_predict y x] is the prediction at index [x] of
      [LinearRegression().fit(arange(len(y)), y)]. *)
Class Backends : Type := {
  prophet_yhat : list (date * Q) -> date -> Q;
  arima_step : list Q -> nat -> Q;
  linear_predict : list Q -> Z -> Q
}.

Inductive model : Set := Prophet | ARIMA | LinearRegression.

Inductive branch : Set := UseProphet | UseArima | UseLinear.

#[global] Instance branch_eq_dec : EqDecision branch.
Proof. solve_decision. Defined.

(** What is asked of a backend. *)
Inductive backend_call : Type :=
| ProphetCall (series : list (date * Q)) (periods : Z)
| ArimaCall (y : list Q) (n_periods : Z)
| LinearCall (y : list Q) (X_future : list Z).

Definition requested_periods (c : backend_call) : Z :=
  match c with
  | ProphetCall _ periods => periods
  | ArimaCall _ n_periods => n_periods
  | LinearCall _ X_future => Z.of_nat (length X_future)
  end.

Module Forecast.

(** The [if / elif / else] on [selected_model] and the import flags. *)
Definition dispatch (selected_model : model) (PROPHET_AVAILABLE ARIMA_AVAILABLE : bool)
  : branch :=
  match selected_model with
  | Prophet => if PROPHET_AVAILABLE then UseProphet else UseLinear
  | ARIMA => if ARIMA_AVAILABLE then UseArima else UseLinear
  | LinearRegression => UseLinear
  end.

(** The options of the model selectbox, lines 314-319. *)
Definition model_options (PROPHET_AVAILABLE ARIMA_AVAILABLE : bool) : list model :=
  (if PROPHET_AVAILABLE then [Prophet] else [])
  ++ (if ARIMA_AVAILABLE then [ARIMA] else [])
  ++ [LinearRegression].

(** The call each branch makes: lines 609, 639 and 649. *)
Definition backend_call_of (b : branch) (series : list (date * Q))
    (days_to_forecast_end forecast_days : Z) : backend_call :=
  match b with
  | UseProphet => ProphetCall series days_to_forecast_end
  | UseArima => ArimaCall (snd <$> series) forecast_days
  | UseLinear =>
      LinearCall (snd <$> series)
        (seqZ (Z.of_nat (length series)) forecast_days)
  end.

(** The fewest training rows a model's [fit] accepts. Prophet's raises a
    ValueError on a frame with fewer than 2 rows that are not NaN
    (lines 607 and 668); the other two need one sample. What [auto_arima]
    refuses beyond that is not represented. *)
Definition min_training_rows (b : branch) : nat :=
  match b with
  | UseProphet => 2
  | UseArima => 1
  | UseLinear => 1
  end.

(** [model.fit(series)], lines 607, 621, 648 and 668, 682, 709, as far as
    it can fail. *)
Definition fit (b : branch) (series : list (date * Q)) : result () :=
  if decide (length series < min_training_rows b)%nat
  then Raise ValueError
  else mret ().

(** [l[:n]] *)
Definition py_prefix {A} (n : Z) (l : list A) : list A :=
  if decide (0 <= n) then take (Z.to_nat n) l
  else take (length l - Z.to_nat (- n)) l.

(** [np.maximum(a, c)] *)
Definition np_maximum (a : list Q) (c : Q) : list Q := (fun x => Qmax x c) <$> a.

(** [make_future_dataframe(periods)]: the history days, then [periods]
    further days. *)
Definition make_future_dataframe (history : list date) (periods : Z) : list date :=
  match col_max history with
  | Some last => history ++ seqZ (last + 1) periods
  | None => history
  end.

Section Run.
Context `{Backends}.

(** The values a call returns, before any post-processing. *)
Definition raw_forecast (c : backend_call) (start_date : date) (forecast_days : Z)
  : list Q :=
  match c with
  | ProphetCall series periods =>
      let future := make_future_dataframe (fst <$> series) periods in
      let forecast := (fun ds => (ds, prophet_yhat series ds)) <$> future in
      let forecast_filtered :=
        snd <$> filter (fun p => start_date <= fst p) forecast in
      if decide (forecast_days <= Z.of_nat (length forecast_filtered))
      then py_prefix forecast_days forecast_filtered
      else forecast_filtered
  | ArimaCall y n_periods => arima_step y <$> seq 0 (Z.to_nat n_periods)
  | LinearCall y X_future => linear_predict y <$> X_future
  end.

(** One univariate forecast: lines 597-652 for the quantity, 658-713 for
    the amount. *)
Definition forecast (b : branch) (series : list (date * Q))
    (start_date : date) (days_to_forecast_end forecast_days : Z) : list Q :=
  np_maximum
    (raw_forecast (backend_call_of b series days_to_forecast_end forecast_days)
       start_date forecast_days)
    0%Q.

Definition quantity_series (training : daily_series) : list (date * Q) :=
  (fun e => (day e, qty e)) <$> training.

Definition amount_series (training : daily_series) : list (date * Q) :=
  (fun e => (day e, amt e)) <$> training.

Definition forecast_quantity (b : branch) (training : daily_series)
    (start_date : date) (days_to_forecast_end forecast_days : Z) : list Q :=
  forecast b (quantity_series training) start_date days_to_forecast_end forecast_days.

Definition forecast_amount (b : branch) (training : daily_series)
    (start_date : date) (days_to_forecast_end forecast_days : Z) : list Q :=
  forecast b (amount_series training) start_date days_to_forecast_end forecast_days.

End Run.

End Forecast.
Import Forecast.

(* ===================================================================== *)
(** * The result table and the page                                       *)
(* ===================================================================== *)

(** One row of [forecast_df], before the cells are formatted as text. *)
Record forecast_row : Type := mk_forecast_row {
  f_day : date;          (* 日付 *)
  f_qty : Q;             (* 売上数量（予測） *)
  f_amt : Q              (* 税抜売上金額（予測） *)
}.

(** Round half to even, as [numpy.rint]. *)
Definition rint (x : Q) : Z :=
  let f := Qfloor x in
  match Qcompare (x - inject_Z f) (1 # 2) with
  | Lt => f
  | Gt => f + 1
  | Eq => if Z.even f then f else f + 1
  end.

(** [a.round(decimals)] on one cell. *)
Definition np_round (decimals : nat) (x : Q) : Q :=
  let scale := inject_Z (10 ^ Z.of_nat decimals) in
  (inject_Z (rint (x * scale)) / scale)%Q.

(** Lines 803-808 *)
Definition forecast_df (forecast_dates : list date) (forecast_quantity forecast_amount : list Q)
  : list forecast_row :=
  let min_length :=
    Nat.min (length forecast_dates)
      (Nat.min (length forecast_quantity) (length forecast_amount)) in
  zip_with (fun d qa => mk_forecast_row d (fst qa) (snd qa))
    (take min_length forecast_dates)
    (zip (np_round 2 <$> take min_length forecast_quantity)
         (np_round 0 <$> take min_length forecast_amount)).

(** The operator's remaining inputs and the two import flags. *)
Record controls : Type := mk_controls {
  selected_model : model;
  PROPHET_AVAILABLE : bool;
  ARIMA_AVAILABLE : bool;
  data_end_date : date;
  start_date : date;
  end_date : date;
  run_forecast : bool
}.

Section Page.
Context `{PyLib} `{Backends}.

(** Lines 383-808 for a daily series with at least one row: the table when
  the run button was pressed, nothing otherwise. The [None] case of the
  last day is not reached on such a series. A [fit] that refuses the
  training series raises before anything is predicted. *)
Definition forecast_section (daily_data : daily_series) (c : controls)
: result (option (list forecast_row)) :=
training ← daily_data_for_forecast daily_data (data_end_date c);
let forecast_days := forecast_days (start_date c) (end_date c) in
let forecast_dates_quantity := date_range (start_date c) (end_date c) in
if run_forecast c then
  match col_max (day <$> daily_data) with
  | Some last_data_date =>
      let days_to_forecast_end :=
        days_to_forecast_end (end_date c) last_data_date forecast_days in
      let b := dispatch (selected_model c) (PROPHET_AVAILABLE c) (ARIMA_AVAILABLE c) in
      _ ← fit b (quantity_series training);
      let forecast_quantity :=
        forecast_quantity b training (start_date c)
          days_to_forecast_end forecast_days in
      _ ← fit b (amount_series training);
      let forecast_amount :=
        forecast_amount b training (start_date c)
          days_to_forecast_end forecast_days in
      mret (Some (forecast_df forecast_dates_quantity forecast_quantity forecast_amount))
  | None => Raise ValueError
  end
else mret None.

(** The whole script for one rerun: the messages shown and the forecast
  table, if one was produced. [Raise] is an exception that reaches the
  top of the script. *)
Definition app (uploaded_file : option (frame string)) (ui : selections) (c : controls)
: result (list message * option (list forecast_row)) :=
let '(loaded, m0) :=
  match uploaded_file with
  | Some csv => load_data csv
  | None => (None, [])
  end in
match loaded with
| Some (daily_data_all, raw_data) =>
    if decide (0 < length daily_data_all)%nat then
      '(daily_data, m1) ← choose_series raw_data ui;
      match daily_data with
      | Some d =>
          if decide (0 < length d)%nat then
            table ← forecast_section d c;
            mret (m0 ++ m1 ++ (if table is Some _ then [] else [InfoPressRun]), table)
          else mret (m0 ++ m1, None)
      | None => mret (m0 ++ m1, None)
      end
    else mret (m0 ++ [InfoUpload], None)
| None => mret (m0 ++ [InfoUpload], None)
end.

End Page.

(* ===================================================================== *)
(** * Concrete library instances for evaluation                           *)
(* ===================================================================== *)

Module Concrete.

(** The ASCII characters [str.strip()] removes. *)
Definition is_py_space (c : ascii) : bool :=
  let n := N_of_ascii c in
  ((9 <=? n) && (n <=? 13) || (28 <=? n) && (n <=? 32))%N.

Fixpoint lstrip (s : string) : string :=
  match s with
  | EmptyString => EmptyString
  | String c s' => if is_py_space c then lstrip s' else s
  end.

Definition ascii_strip (s : string) : string :=
  String.rev (lstrip (String.rev (lstrip s))).

Definition digit_of (c : ascii) : option Z :=
  let n := N_of_ascii c in
  if ((48 <=? n) && (n <=? 57))%N then Some (Z.of_N n - 48) else None.

Fixpoint digits_value (acc : Z) (s : string) : option Z :=
  match s with
  | EmptyString => Some acc
  | String c s' => d ← digit_of c; digits_value (10 * acc + d) s'
  end.

(** The text after the first ".", if there is one. *)
Fixpoint after_point (s : string) : option string :=
  match s with
  | EmptyString => None
  | String c s' => if decide (c = "."%char) then Some s' else after_point s'
  end.

(** Plain decimal literals: digits with an optional fraction. *)
Definition parse_unsigned (s : string) : option Q :=
  let ip := split_head "." s in
  let fp := default EmptyString (after_point s) in
  if decide (String.length ip + String.length fp = 0)%nat then None
  else
    i ← digits_value 0 ip;
    f ← digits_value 0 fp;
    let scale := 10 ^ Z.of_nat (String.length fp) in
    Some (Qred (Qmake (i * scale + f) (Z.to_pos scale))).

Definition parse_decimal (s : string) : option Q :=
  match s with
  | String "-" s' => Qopp <$> parse_unsigned s'
  | String "+" s' => parse_unsigned s'
  | _ => parse_unsigned s
  end.

Definition infinity_names : list string :=
  ["inf"; "+inf"; "-inf"; "Infinity"; "+Infinity"; "-Infinity"]%string.

(** [int(x)] truncates toward zero. *)
Definition Qtrunc (x : Q) : Z := Z.quot (Qnum x) (Zpos (Qden x)).

(** A small [float] for evaluation: decimal literals and the spellings of
    infinity; every other text is not numeric. *)
#[global] Instance ascii_lib : PyLib := {|
  str_strip := ascii_strip;
  to_float := parse_decimal;
  int_of_float s :=
    if decide (s ∈ infinity_names) then Raise OverflowError
    else match parse_decimal s with
         | Some x => Ok (Qtrunc x)
         | None => Raise ValueError
         end
|}.

Definition Qsum (l : list Q) : Q := foldr Qplus 0%Q l.

Definition Qmean (l : list Q) : Q := (Qsum l / inject_Z (Z.of_nat (length l)))%Q.

(** Ordinary least squares of [y] against the index 0, 1, ...; a single
    point gives the constant fit. *)
Definition ols_predict (y : list Q) (x : Z) : Q :=
  let xs := inject_Z <$> seqZ 0 (Z.of_nat (length y)) in
  let xbar := Qmean xs in
  let ybar := Qmean y in
  let sxx := Qsum ((fun a => (a - xbar) * (a - xbar))%Q <$> xs) in
  let sxy := Qsum (zip_with (fun a b => (a - xbar) * (b - ybar))%Q xs y) in
  let slope := if Qeq_bool sxx 0 then 0%Q else (sxy / sxx)%Q in
  Qred (ybar + slope * (inject_Z x - xbar))%Q.

(** Stand-ins for the fitted models: the least-squares line for the linear
    branch and, for the two library models, the line through the training
    days and the last observed value. *)
#[global] Instance demo_backends : Backends := {|
  prophet_yhat series ds :=
    ols_predict (snd <$> series) (ds - default 0 (head (fst <$> series)));
  arima_step y _ := default 0%Q (last y);
  linear_predict := ols_predict
|}.

End Concrete.

(* ===================================================================== *)
(** * Vocabulary of the statements                                        *)
(* ===================================================================== *)

Module Spec.

(** The days of the records whose date was parsed. *)
Definition dated_days (rows : list record) : list date := omap sale_date rows.

(** The totals of one calendar day over a record set. *)
Definition day_total (rows : list record) (d : date) : daily_row :=
  mk_daily d (col_sum quantity (group_of d rows)) (col_sum net_amount (group_of d rows)).

(** The entry a daily series has for a day, or a zero entry. *)
Definition cell_at (daily : daily_series) (d : date) : daily_row :=
  match filter (fun e => day e = d) daily with
  | e :: _ => mk_daily d (qty e) (amt e)
  | [] => mk_daily d 0%Q 0%Q
  end.

(** Adjacent entries are one day apart. *)
Definition contiguous (s : daily_series) : Prop :=
  forall (i : nat) a b, s !! i = Some a -> s !! S i = Some b -> day b = day a + 1.

End Spec.
Import Spec.

Module Claims.

(** The gap-filling property of a daily series [s] built from [rows] over
    the span from [lo] to [hi]: the right number of entries, every day of
    the span once and in order, neighbours one day apart, and no sales on
    the days without a record. *)
Definition gap_filled (rows : list record) (s : daily_series) (lo hi : date) : Prop :=
  Z.of_nat (length s) = days_between hi lo + 1
  /\ day <$> s = date_range lo hi
  /\ contiguous s
  /\ forall e, e ∈ s -> group_of (day e) rows = [] -> qty e = 0%Q /\ amt e = 0%Q.

(** A record whose date text could not be parsed. *)
Definition undated_row : record :=
  mk_row None 1%Q 100%Q "1" "A" "1" "W" "1" "P".

(** Five sales between 2025-01-01 and 2025-01-10. *)
Definition january_rows : list record :=
  (fun '(d, q) => mk_row (Some (ymd 2025 1 d)) q (100 * q)%Q "1" "A" "1" "W" "1" "P")
  <$> [(1, 5%Q); (3, 3%Q); (6, 8%Q); (7, 2%Q); (10, 6%Q)].

(** What a filter stage hands on: the department and order-method stages
    a record set, the product stage the aggregated series. *)
Inductive stage_output : Type :=
| Rows (l : list record)
| Series (s : result daily_series).

(** A record with a separator inside its department code. *)
Definition dashed_row : record :=
  mk_row (Some (ymd 2025 1 1)) 1%Q 100%Q "A - 1" "X" "1" "W" "1" "P".

Definition plain_row : record :=
  mk_row (Some (ymd 2025 1 2)) 2%Q 250%Q "12" "Tokyo - East" "1" "W" "7" "P".

Section FilterVocabulary.
Context `{PyLib}.

(** The record set a filter stage lets through. *)
Definition filter_rows (a : axis) (df : list record) (selected : list string)
  : list record :=
  if no_filter a selected then df else isin_rows a (selected_codes selected) df.

(** The three filter functions by axis. *)
Definition filter_stage (a : axis) (df : list record) (selected : list string)
  : stage_output :=
  match a with
  | Department => Rows (filter_by_department df selected)
  | OrderMethod => Rows (filter_by_order_method df selected)
  | Product => Series (filter_by_product df selected)
  end.

(** The stage output that lets a record set through. *)
Definition passed_on (a : axis) (rows : list record) : stage_output :=
  match a with
  | Department | OrderMethod => Rows rows
  | Product => Series (aggregate rows)
  end.

(** The full label set of an axis: every label of the menu but the
    sentinel. *)
Definition full_labels (a : axis) (df : list record) : list string :=
  unique (label_of a <$> df).

(** Splitting the label of a record gives back its stripped code. *)
Definition code_recoverable (a : axis) (r : record) : Prop :=
  split_head " - " (label_of a r) = str_strip (code_of a r).

End FilterVocabulary.

Section SortVocabulary.
Context `{PyLib}.

(** The code text of a label as [extract_code] reads it. *)
Definition code_text (item : string) : string := str_strip (split_head " - " item).

(** The sort key of a label: the integer its code converts to, 0 when the
    conversion raises an exception that [extract_code] catches. *)
Definition code_key (item : string) : Z :=
  match int_of_float (code_text item) with
  | Ok z => z
  | Raise _ => 0
  end.

(** The numeric value of the code of a label, 0 when it is not numeric. *)
Definition code_value (item : string) : Q := default 0%Q (to_float (code_text item)).

(** The conversion of the code raises the exception that is not caught. *)
Definition overflows (item : string) : Prop :=
  int_of_float (code_text item) = Raise OverflowError.

(** The cell of a row converts to a number. *)
Definition amount_numeric (r : row string) : Prop :=
  is_Some (to_float (remove_char "," (net_amount r))).

End SortVocabulary.

(** An upload of two rows; the amount of the second is not numeric. *)
Definition upload_with_bad_amount : frame string :=
  mk_frame
    [mk_row (Some (ymd 2025 1 1)) 5%Q "1,234"%string "1" "A" "1" "W" "1" "P";
     mk_row (Some (ymd 2025 1 2)) 3%Q "abc"%string "1" "A" "1" "W" "1" "P"]
    true true true.

(** An upload without product columns whose only department code contains
    the separator. *)
Definition upload_without_products : frame string :=
  mk_frame
    [mk_row (Some (ymd 2025 1 1)) 5%Q "1,234"%string "A - 1" "X" "" "" "" ""]
    true false false.

(** The same rows with product columns. *)
Definition upload_with_products : frame string :=
  mk_frame
    [mk_row (Some (ymd 2025 1 1)) 5%Q "1,234"%string "A - 1" "X" "" "" "7" "P"]
    true false true.

Definition select_dashed_department : selections :=
  mk_selections ["A - 1 - X"%string] [] [].

Definition some_controls (m : model) (cutoff start stop : date) : controls :=
  mk_controls m true true cutoff start stop true.

(** The horizon the timeline resolves: the days from the last data day to
    the end of the window, or the length of the window when that is
    negative. *)
Definition resolved_horizon (start_date end_date last_data_date : date) : Z :=
  if decide (days_between end_date last_data_date < 0)
  then forecast_days start_date end_date
  else days_between end_date last_data_date.

(** The number of periods a branch asks of its backend in a run. *)
Definition periods_asked (b : branch) (series : list (date * Q))
    (start_date end_date last_data_date : date) : Z :=
  requested_periods
    (backend_call_of b series
       (days_to_forecast_end end_date last_data_date (forecast_days start_date end_date))
       (forecast_days start_date end_date)).

(** A daily series covering December 2024. *)
Definition december_daily : daily_series :=
  (fun d => mk_daily d 1%Q 100%Q) <$> date_range (ymd 2024 12 1) (ymd 2024 12 31).

(** The window 2025-01-01 to 2025-01-30 with the cutoff on 2024-12-21, ten
    days before the last data day, and with the cutoff on that last day. *)
Definition january_window_early_cutoff (m : model) : controls :=
  some_controls m (ymd 2024 12 21) (ymd 2025 1 1) (ymd 2025 1 30).

Definition january_window (m : model) : controls :=
  some_controls m (ymd 2024 12 31) (ymd 2025 1 1) (ymd 2025 1 30).

(** The branch a run takes. *)
Definition branch_of (c : controls) : branch :=
  dispatch (selected_model c) (PROPHET_AVAILABLE c) (ARIMA_AVAILABLE c).

(** The periods the Prophet branch asks for in a run. *)
Definition prophet_periods (c : controls) (last_data_date : date) : Z :=
  days_to_forecast_end (end_date c) last_data_date
    (forecast_days (start_date c) (end_date c)).

End Claims.
Import Claims.

(* ===================================================================== *)
(** * The rest of the script                                              *)
(* ===================================================================== *)

(** [pd.to_datetime(s, format='%Y-%m-%d')], a library function: the day
    the text denotes, or an exception. *)
Class PyDates : Type := {
  to_datetime : string -> result date
}.

Module DateText.

(** [s.replace(old, new)] for a non-empty [old]: every occurrence of [old],
    found left to right without overlap, becomes [new]. [skip] counts the
    characters of a matched occurrence still to be passed over. *)
Fixpoint replace_from (old new : string) (skip : nat) (s : string) : string :=
  match s with
  | EmptyString => EmptyString
  | String c s' =>
      match skip with
      | S k => replace_from old new k s'
      | O =>
          if String.prefix old s
          then new +:+ replace_from old new (String.length old - 1) s'
          else String c (replace_from old new 0 s')
      end
  end.

Definition py_replace (old new s : string) : string := replace_from old new 0 s.

(** Line 83 *)
Definition normalise_date (date_str : string) : string :=
  py_replace "日" "" (py_replace "月" "-" (py_replace "年" "-" date_str)).

(** [parse_date], lines 79-86: any exception gives [NaT]. *)
Definition parse_date `{PyDates} (date_str : string) : option date :=
  match to_datetime (normalise_date date_str) with
  | Ok d => Some d
  | Raise _ => None
  end.

(** Text whose characters are all below 128. *)
Definition ascii_text (s : string) : Prop :=
  Forall (fun c => (N_of_ascii c < 128)%N) (list_ascii_of_string s).

(** The text after the first "-", if there is one. *)
Fixpoint after_dash (s : string) : option string :=
  match s with
  | EmptyString => None
  | String c s' => if decide (c = "-"%char) then Some s' else after_dash s'
  end.

Definition days_in_month (year month : Z) : Z :=
  if decide (month = 12) then 31
  else days_before_month year (month + 1) - days_before_month year month.

(** A small [to_datetime] for evaluation: year, month and day in digits,
    separated by "-", naming a day of the calendar. *)
Definition iso_to_datetime (s : string) : result date :=
  match after_dash s with
  | Some rest =>
      match after_dash rest with
      | Some d =>
          match Concrete.digits_value 0 (split_head "-" s),
                Concrete.digits_value 0 (split_head "-" rest),
                Concrete.digits_value 0 d with
          | Some year, Some month, Some day =>
              if decide (1 <= year /\ 1 <= month <= 12
                         /\ 1 <= day <= days_in_month year month)
              then Ok (ymd year month day)
              else Raise ValueError
          | _, _, _ => Raise ValueError
          end
      | None => Raise ValueError
      end
  | None => Raise ValueError
  end.

#[global] Instance iso_dates : PyDates := {| to_datetime := iso_to_datetime |}.

End DateText.
Import DateText.

Module Controls.

(** Lines 396-406: the value the cutoff picker starts with. *)
Definition max_selectable_date (original_last_date : date) : date :=
  original_last_date + 365.

Definition default_value (original_first_date original_last_date yesterday : date) : date :=
  if decide (original_first_date <= yesterday
             /\ yesterday <= max_selectable_date original_last_date)
  then yesterday
  else original_last_date.

(** Lines 445-471: the two ways to give the start of the window. *)
Inductive start_method : Type :=
| DaysAfterLast (days_after_last : Z)
| ByDate (picked : date).

Definition start_date_of (data_end_date : date) (m : start_method) : date :=
  match m with
  | DaysAfterLast days_after_last => data_end_date + days_after_last
  | ByDate picked => picked
  end.

(** What the widgets accept: [number_input(min_value=0, max_value=365)],
    [date_input] between the day after the cutoff and 365 days later. *)
Definition start_accepted (data_end_date : date) (m : start_method) : Prop :=
  match m with
  | DaysAfterLast days_after_last => 0 <= days_after_last <= 365
  | ByDate picked => data_end_date + 1 <= picked <= data_end_date + 1 + 365
  end.

(** Lines 474-479: the end picker starts at [start_date + 30] and accepts
    [start_date] to [start_date + 365]. *)
Definition default_end_date (start_date : date) : date := start_date + 30.

Definition end_accepted (start_date end_date : date) : Prop :=
  start_date <= end_date <= start_date + 365.

(** Lines 532-552: what the amount of training data is said to allow. *)
Inductive accuracy : Set :=
| DataShort          (* データ不足 *)
| BasicTrend         (* 基本的な予測が可能 *)
| WeeklyPattern      (* 週次パターンの検出が可能 *)
| Seasonal           (* 季節性の検出が可能（推奨） *)
| HighPrecision.     (* より高精度な予測が可能 *)

Inductive color : Set := Red | Orange | Blue | Green.

Definition accuracy_level (forecast_data_days : Z) : accuracy :=
  if decide (forecast_data_days < 30) then DataShort
  else if decide (forecast_data_days < 60) then BasicTrend
  else if decide (forecast_data_days < 90) then WeeklyPattern
  else if decide (forecast_data_days < 180) then Seasonal
  else HighPrecision.

Definition accuracy_color (a : accuracy) : color :=
  match a with
  | DataShort => Red
  | BasicTrend => Orange
  | WeeklyPattern => Blue
  | Seasonal => Green
  | HighPrecision => Green
  end.

(** The position of a level in the order of the branches. *)
Definition accuracy_rank (a : accuracy) : Z :=
  match a with
  | DataShort => 0
  | BasicTrend => 1
  | WeeklyPattern => 2
  | Seasonal => 3
  | HighPrecision => 4
  end.

#[global] Instance model_eq_dec : EqDecision model.
Proof. solve_decision. Defined.

(** The branch a menu entry stands for. *)
Definition branch_for (m : model) : branch :=
  match m with
  | Prophet => UseProphet
  | ARIMA => UseArima
  | LinearRegression => UseLinear
  end.

End Controls.
Import Controls.

Module Summary.

(** [np.sum] *)
Definition np_sum (a : list Q) : Q := foldr Qplus 0%Q a.

(** [np.mean] of an array with at least one element. *)
Definition np_mean (a : list Q) : Q := (np_sum a / inject_Z (Z.of_nat (length a)))%Q.

(** [np.max]: an empty array has no maximum. *)
Definition np_max (a : list Q) : result Q :=
  match a with
  | [] => Raise ValueError
  | x :: a' => Ok (foldr Qmax x a')
  end.

(** The numbers under the chart, lines 781-796 and 833-839, before they
    are formatted. *)
Record summary : Type := mk_summary {
  forecast_period_days : Z;     (* 予測期間 *)
  total_quantity : Q;           (* 合計売上数量 *)
  total_amount : Q;             (* 合計税抜売上金額 *)
  amount_per_day : Q;           (* 平均1日あたり *)
  mean_quantity : Q;            (* 予測期間の平均売上数量 *)
  mean_amount : Q;              (* 予測期間の平均税抜売上金額 *)
  max_amount : Q                (* 最大1日あたり金額 *)
}.

Definition summarise (forecast_days : Z) (forecast_quantity forecast_amount : list Q)
  : result summary :=
  let total_quantity := np_sum forecast_quantity in
  let total_amount := np_sum forecast_amount in
  m ← np_max forecast_amount;
  mret (mk_summary forecast_days total_quantity total_amount
          (total_amount / inject_Z forecast_days)%Q
          (np_mean forecast_quantity) (np_mean forecast_amount) m).

Section SummaryPage.
Context `{Backends}.

(** Lines 577-713 and 781-839 for a daily series with at least one row:
    the numbers of the summary when the run button was pressed. [Raise] is
    an exception that reaches the top of the script after the table of
    lines 803-830 was shown. *)
Definition summary_section (daily_data : daily_series) (c : controls)
  : result (option summary) :=
  training ← daily_data_for_forecast daily_data (data_end_date c);
  let forecast_days := forecast_days (start_date c) (end_date c) in
  if run_forecast c then
    match col_max (day <$> daily_data) with
    | Some last_data_date =>
        let days_to_forecast_end :=
          days_to_forecast_end (end_date c) last_data_date forecast_days in
        let b := dispatch (selected_model c) (PROPHET_AVAILABLE c) (ARIMA_AVAILABLE c) in
        _ ← fit b (quantity_series training);
        _ ← fit b (amount_series training);
        s ← summarise forecast_days
              (forecast_quantity b training (start_date c)
                 days_to_forecast_end forecast_days)
              (forecast_amount b training (start_date c)
                 days_to_forecast_end forecast_days);
        mret (Some s)
    | None => Raise ValueError
    end
  else mret None.

End SummaryPage.

End Summary.
Import Summary.

Module Titles.

Definition axis_word (a : axis) : string :=
  match a with
  | Department => "部門"
  | OrderMethod => "受注方法"
  | Product => "商品"
  end.

(** Lines 718-737 for one axis: the tag the chart titles carry. *)
Definition axis_title (a : axis) (selected : list string) : string :=
  if bool_decide (selected <> []) && bool_decide (0 < length selected)%nat
     && bool_decide (sentinel a ∉ selected)
  then
    if decide (length selected = 1%nat)
    then "【" +:+ default EmptyString (head selected) +:+ "】"
    else "【" +:+ axis_word a +:+ pretty (length selected) +:+ "件】"
  else EmptyString.

(** Line 739 *)
Definition filter_title `{PyLib} (selected_departments selected_order_methods
    selected_products : list string) : string :=
  let t := axis_title Department selected_departments
           +:+ axis_title OrderMethod selected_order_methods
           +:+ axis_title Product selected_products in
  if decide (str_strip t = EmptyString) then EmptyString else str_strip t.

End Titles.
Import Titles.

(** Value columns that pandas adds up exactly: every cell is a whole number
    and the absolute values add up to at most 2^53, so that no partial sum
    is rounded in a float64 column or wraps around in an int64 column. On
    such columns the exact sums of [col_sum] are the sums the script
    computes, in whatever order it adds. *)
Definition whole (x : Q) : Prop := Qden (Qred x) = 1%positive.

Definition exactly_summed (f : record -> Q) (rows : list record) : Prop :=
  Forall (fun r => whole (f r)) rows
  /\ (col_sum (fun r => Qabs (f r)) rows <= inject_Z (2 ^ 53))%Q.

Definition exact_sums (rows : list record) : Prop :=
  exactly_summed quantity rows /\ exactly_summed net_amount rows.

(** Quantity and amount totals of the dated records of a record set. *)
Definition dated_total (f : record -> Q) (rows : list record) : Q :=
  col_sum f (filter (fun r => is_Some (sale_date r)) rows).

(** Two daily entries with the same day and equal numbers. *)
Definition same_entry (a b : daily_row) : Prop :=
  day a = day b /\ Qeq (qty a) (qty b) /\ Qeq (amt a) (amt b).

(** A selection that filters: it is not empty and has no sentinel. *)
Definition filtering (a : axis) (selected : list string) : Prop :=
  selected <> [] /\ sentinel a ∉ selected.

(** A row with another amount cell. *)
Definition set_amount {A B} (r : row A) (x : B) : row B :=
  mk_row (sale_date r) (quantity r) x
    (department_code r) (department_name r)
    (order_method_code r) (order_method_name r)
    (product_code r) (product_name r).

Section SidebarVocabulary.
Context `{PyLib}.

(** The records that reach the aggregation of the sidebar: each axis whose
    columns are present filters with the operator's selection. *)
Definition selected_rows (raw_data : frame Q) (ui : selections) : list record :=
  let rows1 :=
    if has_department raw_data
    then filter_by_department (frame_rows raw_data) (ui_departments ui)
    else frame_rows raw_data in
  let rows2 :=
    if has_order_method raw_data
    then filter_by_order_method rows1 (ui_order_methods ui)
    else rows1 in
  if has_product raw_data
  then filter_rows Product rows2 (ui_products ui)
  else rows2.

(** Nothing is selected on an axis: its selection is empty or holds the
    sentinel. *)
Definition all_selected (ui : selections) : Prop :=
  no_filter Department (ui_departments ui) = true
  /\ no_filter OrderMethod (ui_order_methods ui) = true
  /\ no_filter Product (ui_products ui) = true.

End SidebarVocabulary.

(** The cutoff on 2024-12-05 and the window 2024-12-20 to 2024-12-25, all
    within the data of [december_daily]. *)
Definition december_window (m : model) : controls :=
  some_controls m (ymd 2024 12 5) (ymd 2024 12 20) (ymd 2024 12 25).

Section ClaimedMatching.
Context `{PyLib}.

(** The matching rule in the words of the specification: the code segment
    of a label is the text before the first " - ", stripped of surrounding
    whitespace, and a record is kept when its code is the code segment of
    a selected label. *)
Definition claimed_code_segment (label : string) : string :=
  str_strip (split_head " - " label).

Definition claimed_kept (a : axis) (selected : list string) (r : record) : Prop :=
  exists label,
    label ∈ selected /\ str_strip (code_of a r) = claimed_code_segment label.

End ClaimedMatching.

(** Two departments, with the codes "A" and "A  - 1" (two spaces before
    the dash). *)
Definition spaced_plain_row : record :=
  mk_row (Some (ymd 2025 1 1)) 1%Q 100%Q "A" "Plain" "1" "W" "1" "P".

Definition spaced_dashed_row : record :=
  mk_row (Some (ymd 2025 1 2)) 2%Q 200%Q "A  - 1" "X" "1" "W" "1" "P".

(** A frame with three records of two departments. *)
Definition three_rows : frame Q :=
  mk_frame
    [mk_row (Some (ymd 2025 1 1)) 5%Q 500%Q "12" "Tokyo" "1" "Web" "7" "Tea";
     mk_row (Some (ymd 2025 1 3)) 2%Q 300%Q "3" "Osaka" "2" "Phone" "7" "Tea";
     mk_row (Some (ymd 2025 1 4)) 1%Q 100%Q "12" "Tokyo" "2" "Phone" "9" "Cup"]
    true true true.

(** An upload whose amounts are all numeric. *)
Definition clean_upload : frame string :=
  mk_frame
    [mk_row (Some (ymd 2025 1 1)) 5%Q "1,234"%string "12" "Tokyo" "1" "Web" "7" "Tea";
     mk_row (Some (ymd 2025 1 3)) 2%Q "300"%string "3" "Osaka" "2" "Phone" "7" "Tea"]
    true true true.

Import Concrete.

(* ===================================================================== *)
(** * Facts about sorting and day ranges                                  *)
(* ===================================================================== *)

Section SortFacts.
Context {A : Type} (key : A -> Z).

Lemma insert_by_head (x : A) (l : list A) :
  Forall (fun y => key x <= key y) l -> insert_by key x l = x :: l.
Proof.
  destruct l as [|y l]; [done|].
  intros Hall. apply Forall_cons in Hall as [Hxy _].
  simpl. by rewrite decide_True.
Qed.

Lemma stable_sort_sorted (l : list A) :
  StronglySorted (fun a b => key a <= key b) l -> stable_sort key l = l.
Proof.
  induction 1 as [|x l Hl IH Hx]; [done|].
  unfold stable_sort in *. simpl. rewrite IH. by apply insert_by_head.
Qed.

Lemma insert_by_perm (x : A) (l : list A) : insert_by key x l ≡ₚ x :: l.
Proof.
  induction l as [|y l IH]; [done|].
  simpl. case_decide; [done|].
  rewrite IH. apply Permutation_swap.
Qed.

Lemma stable_sort_perm (l : list A) : stable_sort key l ≡ₚ l.
Proof.
  induction l as [|x l IH]; [done|].
  unfold stable_sort in *. simpl. rewrite insert_by_perm. by f_equiv.
Qed.

Lemma insert_by_sorted (x : A) (l : list A) :
  StronglySorted (fun a b => key a <= key b) l ->
  StronglySorted (fun a b => key a <= key b) (insert_by key x l).
Proof.
  induction 1 as [|y l Hl IH Hy]; simpl.
  - repeat constructor.
  - case_decide as Hxy.
    + constructor; [by constructor|].
      constructor; [done|].
      eapply Forall_impl; [exact Hy|]. simpl. intros z Hz. lia.
    + constructor; [done|].
      rewrite insert_by_perm. constructor; [lia|done].
Qed.

Lemma stable_sort_is_sorted (l : list A) :
  StronglySorted (fun a b => key a <= key b) (stable_sort key l).
Proof.
  induction l as [|x l IH]; [constructor|].
  by apply insert_by_sorted.
Qed.

End SortFacts.

Lemma seqZ_strictly_sorted (m n : Z) : StronglySorted Z.lt (seqZ m n).
Proof.
  destruct (decide (n <= 0)) as [Hn|Hn]; [rewrite seqZ_nil by done; constructor|].
  rewrite <- (Z2Nat.id n) by lia.
  generalize (Z.to_nat n) as k. clear n Hn. intros k. revert m.
  induction k as [|k IH]; intros m; [constructor|].
  rewrite seqZ_cons by lia.
  replace (Z.pred (Z.of_nat (S k))) with (Z.of_nat k) by lia.
  constructor; [apply IH|].
  apply Forall_forall. intros x Hx. apply elem_of_seqZ in Hx. lia.
Qed.

Lemma strictly_sorted_by_day (f : date -> daily_row) (ds : list date) :
  (forall d, day (f d) = d) ->
  StronglySorted Z.lt ds ->
  StronglySorted (fun a b => day a <= day b) (f <$> ds).
Proof.
  intros Hf. induction 1 as [|d ds Hds IH Hd]; [constructor|].
  rewrite fmap_cons. constructor; [done|].
  apply Forall_fmap. eapply Forall_impl; [exact Hd|].
  simpl. intros x Hx. rewrite !Hf. lia.
Qed.

Lemma strictly_sorted_NoDup (ds : list date) : StronglySorted Z.lt ds -> NoDup ds.
Proof.
  induction 1 as [|d ds Hds IH Hd]; constructor; [|done].
  intros Hin. rewrite Forall_forall in Hd. specialize (Hd _ Hin). lia.
Qed.

Lemma date_range_length (lo hi : date) :
  lo <= hi -> Z.of_nat (length (date_range lo hi)) = days_between hi lo + 1.
Proof. intros. unfold date_range, days_between. rewrite length_seqZ. lia. Qed.

Lemma date_range_elem (lo hi d : date) : d ∈ date_range lo hi <-> lo <= d <= hi.
Proof. unfold date_range. rewrite elem_of_seqZ. lia. Qed.

Lemma date_range_lookup (lo hi : date) (i : nat) (d : date) :
  date_range lo hi !! i = Some d -> d = lo + Z.of_nat i.
Proof. unfold date_range. intros Hl. apply lookup_seqZ in Hl. lia. Qed.

(* ===================================================================== *)
(** * Facts about column minimum and maximum                              *)
(* ===================================================================== *)

Lemma foldr_min_spec (d : Z) (l : list Z) :
  foldr Z.min d l ∈ d :: l /\ forall x, x ∈ d :: l -> foldr Z.min d l <= x.
Proof.
  induction l as [|y l [IHin IHle]]; simpl.
  - split; [left|]. intros x Hx. apply list_elem_of_singleton in Hx. lia.
  - split.
    + destruct (Z.min_spec y (foldr Z.min d l)) as [[_ ->]|[_ ->]].
      * right; left.
      * apply elem_of_cons in IHin as [->|Hin]; [left|right; by right].
    + intros x Hx.
      assert (x = y \/ x ∈ d :: l) as [->|Hx'].
      { apply elem_of_cons in Hx as [->|Hx]; [right; left|].
        apply elem_of_cons in Hx as [->|Hx]; [by left|right; by right]. }
      * lia.
      * specialize (IHle _ Hx'). lia.
Qed.

Lemma foldr_max_spec (d : Z) (l : list Z) :
  foldr Z.max d l ∈ d :: l /\ forall x, x ∈ d :: l -> x <= foldr Z.max d l.
Proof.
  induction l as [|y l [IHin IHle]]; simpl.
  - split; [left|]. intros x Hx. apply list_elem_of_singleton in Hx. lia.
  - split.
    + destruct (Z.max_spec y (foldr Z.max d l)) as [[_ ->]|[_ ->]].
      * apply elem_of_cons in IHin as [->|Hin]; [left|right; by right].
      * right; left.
    + intros x Hx.
      assert (x = y \/ x ∈ d :: l) as [->|Hx'].
      { apply elem_of_cons in Hx as [->|Hx]; [right; left|].
        apply elem_of_cons in Hx as [->|Hx]; [by left|right; by right]. }
      * lia.
      * specialize (IHle _ Hx'). lia.
Qed.

Lemma col_min_spec (l : list date) (m : date) :
  col_min l = Some m <-> m ∈ l /\ forall x, x ∈ l -> m <= x.
Proof.
  destruct l as [|d l]; simpl.
  - split; [done|]. intros [Hin _]. by apply elem_of_nil in Hin.
  - pose proof (foldr_min_spec d l) as [Hin Hle]. split.
    + intros [= <-]. done.
    + intros [Hm Hmle]. f_equal.
      specialize (Hle _ Hm). specialize (Hmle _ Hin). lia.
Qed.

Lemma col_max_spec (l : list date) (m : date) :
  col_max l = Some m <-> m ∈ l /\ forall x, x ∈ l -> x <= m.
Proof.
  destruct l as [|d l]; simpl.
  - split; [done|]. intros [Hin _]. by apply elem_of_nil in Hin.
  - pose proof (foldr_max_spec d l) as [Hin Hle]. split.
    + intros [= <-]. done.
    + intros [Hm Hmle]. f_equal.
      specialize (Hle _ Hm). specialize (Hmle _ Hin). lia.
Qed.

Lemma col_min_ext (l1 l2 : list date) :
  (forall x, x ∈ l1 <-> x ∈ l2) -> col_min l1 = col_min l2.
Proof.
  intros Hext. destruct (col_min l1) as [m|] eqn:H1.
  - symmetry. apply col_min_spec. apply col_min_spec in H1 as [Hin Hle].
    split; [by apply Hext|]. intros x Hx. apply Hle. by apply Hext.
  - destruct l1 as [|d l1]; [|done].
    destruct l2 as [|d2 l2]; [done|].
    exfalso. eapply elem_of_nil. apply Hext. left.
Qed.

Lemma col_max_ext (l1 l2 : list date) :
  (forall x, x ∈ l1 <-> x ∈ l2) -> col_max l1 = col_max l2.
Proof.
  intros Hext. destruct (col_max l1) as [m|] eqn:H1.
  - symmetry. apply col_max_spec. apply col_max_spec in H1 as [Hin Hle].
    split; [by apply Hext|]. intros x Hx. apply Hle. by apply Hext.
  - destruct l1 as [|d l1]; [|done].
    destruct l2 as [|d2 l2]; [done|].
    exfalso. eapply elem_of_nil. apply Hext. left.
Qed.

Lemma col_min_le_max (l : list date) (lo hi : date) :
  col_min l = Some lo -> col_max l = Some hi -> lo <= hi.
Proof.
  intros [Hin Hle]%col_min_spec [Hin' Hle']%col_max_spec. by apply Hle'.
Qed.

(* ===================================================================== *)
(** * Facts about grouping                                                *)
(* ===================================================================== *)

Lemma insert_key_elem (d : date) (ks : list date) (x : date) :
  x ∈ insert_key d ks <-> x = d \/ x ∈ ks.
Proof.
  induction ks as [|k ks IH]; simpl.
  - rewrite list_elem_of_singleton, elem_of_nil. tauto.
  - repeat case_decide; subst; rewrite ?elem_of_cons, ?IH; tauto.
Qed.

Lemma insert_key_sorted (d : date) (ks : list date) :
  StronglySorted Z.lt ks -> StronglySorted Z.lt (insert_key d ks).
Proof.
  induction 1 as [|k ks Hks IH Hk]; simpl.
  - repeat constructor.
  - repeat case_decide.
    + constructor; [by constructor|].
      constructor; [done|]. eapply Forall_impl; [exact Hk|]. simpl. lia.
    + by constructor.
    + constructor; [done|].
      apply Forall_forall. intros x Hx. apply insert_key_elem in Hx as [->|Hx]; [lia|].
      rewrite Forall_forall in Hk. by apply Hk.
Qed.

Lemma group_keys_elem (rows : list record) (d : date) :
  d ∈ group_keys rows <-> d ∈ dated_days rows.
Proof.
  unfold group_keys, dated_days.
  induction (omap sale_date rows) as [|k ks IH]; simpl; [done|].
  rewrite insert_key_elem, elem_of_cons, IH. done.
Qed.

Lemma group_keys_sorted (rows : list record) : StronglySorted Z.lt (group_keys rows).
Proof.
  unfold group_keys.
  induction (omap sale_date rows) as [|k ks IH]; simpl; [constructor|].
  by apply insert_key_sorted.
Qed.

Lemma group_of_nil (rows : list record) (d : date) :
  d ∉ dated_days rows -> group_of d rows = [].
Proof.
  intros Hd. unfold group_of.
  induction rows as [|r rows IH]; [done|].
  rewrite filter_cons. case_decide as Hr.
  - exfalso. apply Hd. unfold dated_days. apply list_elem_of_omap.
    exists r. split; [left|done].
  - apply IH. intros Hin. apply Hd. unfold dated_days in *. simpl.
    destruct (sale_date r); [by right|done].
Qed.

Lemma group_of_dated (rows : list record) (d : date) :
  d ∈ dated_days rows <-> group_of d rows <> [].
Proof.
  split.
  - unfold dated_days. intros (r & Hr & Hd)%list_elem_of_omap Hnil.
    assert (r ∈ group_of d rows) as Hin by (by apply list_elem_of_filter).
    rewrite Hnil in Hin. by apply elem_of_nil in Hin.
  - intros Hne. destruct (decide (d ∈ dated_days rows)) as [|Hn]; [done|].
    by apply group_of_nil in Hn.
Qed.

Lemma groupby_days (rows : list record) : day <$> groupby_sum rows = group_keys rows.
Proof.
  unfold groupby_sum. rewrite <- list_fmap_compose.
  rewrite <- (list_fmap_id (group_keys rows)) at 2.
  by apply list_fmap_ext.
Qed.

Lemma groupby_sorted (rows : list record) :
  StronglySorted (fun a b => day a <= day b) (groupby_sum rows).
Proof.
  unfold groupby_sum. apply strictly_sorted_by_day; [done|apply group_keys_sorted].
Qed.

Lemma sort_values_groupby (rows : list record) :
  sort_values (groupby_sum rows) = groupby_sum rows.
Proof. apply stable_sort_sorted, groupby_sorted. Qed.

(* ===================================================================== *)
(** * Facts about the left merge                                          *)
(* ===================================================================== *)

Lemma filter_day_absent (daily : daily_series) (d : date) :
  d ∉ day <$> daily -> filter (fun e => day e = d) daily = [].
Proof.
  intros Hd. induction daily as [|e daily IH]; [done|].
  rewrite filter_cons. case_decide as He.
  - exfalso. apply Hd. rewrite fmap_cons, He. left.
  - apply IH. intros Hin. apply Hd. rewrite fmap_cons. by right.
Qed.

Lemma filter_day_unique (daily : daily_series) (d : date) :
  NoDup (day <$> daily) ->
  filter (fun e => day e = d) daily = []
  \/ exists e, filter (fun e => day e = d) daily = [e] /\ e ∈ daily /\ day e = d.
Proof.
  induction daily as [|e daily IH]; [by left|].
  rewrite fmap_cons. intros [Hnotin Hnd]%NoDup_cons.
  rewrite filter_cons. case_decide as He.
  - right. exists e. subst d. rewrite filter_day_absent by done.
    split; [done|]. split; [left|done].
  - destruct (IH Hnd) as [Hnil|(e' & Hf & Hin & Hd)]; [by left|].
    right. exists e'. split; [done|]. split; [by right|done].
Qed.

Lemma fillna_merge_left (all_dates : list date) (daily : daily_series) :
  NoDup (day <$> daily) ->
  fillna (merge_left all_dates daily) = cell_at daily <$> all_dates.
Proof.
  intros Hnd. unfold fillna, merge_left.
  induction all_dates as [|d ds IH]; [done|].
  rewrite bind_cons, fmap_app, IH, fmap_cons. f_equal.
  unfold cell_at.
  destruct (filter_day_unique daily d Hnd) as [->|(e & -> & _ & _)]; done.
Qed.

Lemma cell_at_day (daily : daily_series) (d : date) : day (cell_at daily d) = d.
Proof. unfold cell_at. by destruct (filter _ daily). Qed.

Lemma cell_at_absent (daily : daily_series) (d : date) :
  d ∉ day <$> daily -> cell_at daily d = mk_daily d 0%Q 0%Q.
Proof. intros Hd. unfold cell_at. by rewrite filter_day_absent. Qed.

Lemma cell_at_present (daily : daily_series) (e : daily_row) :
  NoDup (day <$> daily) -> e ∈ daily -> cell_at daily (day e) = e.
Proof.
  intros Hnd Hin. unfold cell_at.
  destruct (filter_day_unique daily (day e) Hnd) as [Hnil|(e' & Hf & Hin' & Hd)].
  - assert (e ∈ filter (fun x => day x = day e) daily) as He
      by (by apply list_elem_of_filter).
    rewrite Hnil in He. by apply elem_of_nil in He.
  - rewrite Hf.
    assert (e ∈ filter (fun x => day x = day e) daily) as He
      by (by apply list_elem_of_filter).
    rewrite Hf in He. apply list_elem_of_singleton in He. subst e'.
    by destruct e.
Qed.

(** The gap filling on a series of distinct days is a table lookup over
    the day range. *)
Lemma zero_fill_cells (lo hi : date) (daily : daily_series) :
  NoDup (day <$> daily) ->
  zero_fill (Some lo) (Some hi) daily = Ok (cell_at daily <$> date_range lo hi).
Proof.
  intros Hnd. unfold zero_fill. simpl. unfold mret, result_ret. f_equal.
  rewrite fillna_merge_left by done.
  apply stable_sort_sorted, strictly_sorted_by_day.
  - apply cell_at_day.
  - apply seqZ_strictly_sorted.
Qed.

Lemma cell_at_groupby (rows : list record) (d : date) :
  cell_at (groupby_sum rows) d = day_total rows d.
Proof.
  assert (NoDup (day <$> groupby_sum rows)) as Hnd.
  { rewrite groupby_days. apply strictly_sorted_NoDup, group_keys_sorted. }
  destruct (decide (d ∈ group_keys rows)) as [Hin|Hout].
  - assert (day_total rows d ∈ groupby_sum rows) as He.
    { unfold groupby_sum. apply list_elem_of_fmap. by exists d. }
    by rewrite <- (cell_at_present _ _ Hnd He).
  - rewrite cell_at_absent by (by rewrite groupby_days).
    unfold day_total. rewrite group_of_nil; [done|].
    by rewrite <- group_keys_elem.
Qed.

(* ===================================================================== *)
(** * The aggregation in closed form                                      *)
(* ===================================================================== *)

Lemma aggregate_undated (rows : list record) :
  dated_days rows = [] -> aggregate rows = Ok [].
Proof.
  intros Hnil. unfold aggregate. rewrite sort_values_groupby.
  unfold groupby_sum, group_keys. unfold dated_days in Hnil. rewrite Hnil. done.
Qed.

Lemma aggregate_dated (rows : list record) (lo hi : date) :
  col_min (dated_days rows) = Some lo ->
  col_max (dated_days rows) = Some hi ->
  aggregate rows = Ok (day_total rows <$> date_range lo hi).
Proof.
  intros Hlo Hhi. unfold aggregate. rewrite sort_values_groupby.
  unfold fill_missing_days.
  assert (group_keys rows <> []) as Hne.
  { intros Hnil. apply col_min_spec in Hlo as [Hin _].
    apply group_keys_elem in Hin. rewrite Hnil in Hin. by apply elem_of_nil in Hin. }
  rewrite decide_True.
  2:{ rewrite <- (length_fmap day), groupby_days. destruct (group_keys rows); simpl; [done|lia]. }
  rewrite groupby_days.
  rewrite (col_min_ext _ (dated_days rows)) by apply group_keys_elem.
  rewrite (col_max_ext _ (dated_days rows)) by apply group_keys_elem.
  rewrite Hlo, Hhi.
  rewrite zero_fill_cells.
  2:{ rewrite groupby_days. apply strictly_sorted_NoDup, group_keys_sorted. }
  f_equal. apply list_fmap_ext. intros _ d _. apply cell_at_groupby.
Qed.

Lemma aggregate_total (rows : list record) : exists s, aggregate rows = Ok s.
Proof.
  destruct (col_min (dated_days rows)) as [lo|] eqn:Hlo.
  - destruct (col_max (dated_days rows)) as [hi|] eqn:Hhi.
    + eexists. by apply aggregate_dated.
    + destruct (dated_days rows); done.
  - exists []. apply aggregate_undated. by destruct (dated_days rows).
Qed.

Lemma contiguous_cells (f : date -> daily_row) (lo hi : date) :
  (forall d, day (f d) = d) -> contiguous (f <$> date_range lo hi).
Proof.
  intros Hf i a b Ha Hb.
  rewrite list_lookup_fmap in Ha, Hb.
  destruct (date_range lo hi !! i) as [da|] eqn:Hda; [|done].
  destruct (date_range lo hi !! S i) as [db|] eqn:Hdb; [|done].
  simpl in Ha, Hb. injection Ha as <-. injection Hb as <-.
  apply date_range_lookup in Hda, Hdb. rewrite !Hf. lia.
Qed.

(* ===================================================================== *)
(** * C1: gap filling                                                     *)
(* ===================================================================== *)

Lemma day_total_gap_filled (rows : list record) (lo hi : date) :
  lo <= hi -> gap_filled rows (day_total rows <$> date_range lo hi) lo hi.
Proof.
  intros Hle. split; [|split; [|split]].
  - rewrite length_fmap. by apply date_range_length.
  - rewrite <- list_fmap_compose. rewrite <- (list_fmap_id (date_range lo hi)) at 2.
    by apply list_fmap_ext.
  - by apply contiguous_cells.
  - intros e (d & -> & _)%list_elem_of_fmap Hnone. simpl in *.
    by rewrite Hnone.
Qed.

(** C1 (as amended): for every record set with at least one parsed date,
    with [lo] and [hi] the earliest and latest parsed dates, the aggregator
    returns a series of exactly [(hi - lo).days + 1] entries holding every
    day from [lo] to [hi] once, in ascending order, neighbours one day
    apart, and with zero quantity and zero revenue on every day that no
    record is dated. *)
Theorem aggregate_gap_filled (rows : list record) (lo hi : date) :
  col_min (dated_days rows) = Some lo ->
  col_max (dated_days rows) = Some hi ->
  exists s, aggregate rows = Ok s /\ gap_filled rows s lo hi.
Proof.
  intros Hlo Hhi. exists (day_total rows <$> date_range lo hi). split.
  - by apply aggregate_dated.
  - apply day_total_gap_filled. by eapply col_min_le_max.
Qed.

Lemma aggregate_gap_filled_witness :
  exists s, aggregate january_rows = Ok s
            /\ gap_filled january_rows s (ymd 2025 1 1) (ymd 2025 1 10).
Proof. apply (aggregate_gap_filled january_rows); reflexivity. Defined.

(** C1 (as stated) fails: a record set that is not empty but has no parsed
    date aggregates to the empty series, which is gap-filled for no span. *)
Lemma aggregate_undated_not_gap_filled :
  [undated_row] <> []
  /\ aggregate [undated_row] = Ok []
  /\ forall s lo hi, aggregate [undated_row] = Ok s -> lo <= hi ->
       ~ gap_filled [undated_row] s lo hi.
Proof.
  split; [done|]. split; [reflexivity|].
  intros s lo hi Hs Hle (Hlen & _). 
  assert (s = []) as -> by (vm_compute in Hs; congruence).
  unfold days_between in Hlen. simpl in Hlen. lia.
Qed.

(** The scenario of the specification: ten days, five of them filled in,
    total quantity 24. *)
Example january_scenario :
  exists s, aggregate january_rows = Ok s
            /\ length s = 10%nat
            /\ length (filter (fun e => Qeq_bool (qty e) 0 = true) s) = 5%nat
            /\ Qeq (foldr Qplus 0%Q (qty <$> s)) 24.
Proof. eexists. split; [reflexivity|]. vm_compute. done. Qed.

(* ===================================================================== *)
(** * C2: the clamp                                                       *)
(* ===================================================================== *)

Lemma np_maximum_lower (a : list Q) (c : Q) : Forall (fun x => c <= x)%Q (np_maximum a c).
Proof. unfold np_maximum. apply Forall_fmap, Forall_true. intros x. simpl. apply Q.le_max_r. Qed.

(** C2: whatever the fitted models return, for each of the three branches,
    every training series and every horizon, every element of the returned
    quantity forecast and of the returned revenue forecast is at least 0. *)
Theorem forecasts_nonnegative `{Backends} (b : branch) (training : daily_series)
    (start_date : date) (days_to_forecast_end forecast_days : Z) :
  Forall (fun x => 0 <= x)%Q
    (forecast_quantity b training start_date days_to_forecast_end forecast_days)
  /\ Forall (fun x => 0 <= x)%Q
    (forecast_amount b training start_date days_to_forecast_end forecast_days).
Proof. split; apply np_maximum_lower. Qed.

(* ===================================================================== *)
(** * C4: the training series                                             *)
(* ===================================================================== *)

Lemma filter_on_or_before_last (daily : daily_series) :
  filter (on_or_before (col_max (day <$> daily))) daily = daily.
Proof.
  destruct (col_max (day <$> daily)) as [last|] eqn:Hlast.
  - apply col_max_spec in Hlast as [_ Hle].
    assert (Forall (on_or_before (Some last)) daily) as Hall.
    { apply Forall_forall. intros e He. simpl. apply Hle.
      apply list_elem_of_fmap. by exists e. }
    clear Hle. induction Hall as [|e l He Hl IH]; [done|].
    rewrite filter_cons_True by done. by rewrite IH.
  - by destruct daily.
Qed.

Lemma training_series_cells (daily : daily_series) (data_end_date first : date) :
  NoDup (day <$> daily) ->
  col_min (day <$> daily) = Some first ->
  daily_data_for_forecast daily data_end_date
  = Ok (cell_at daily <$> date_range first data_end_date).
Proof.
  intros Hnd Hfirst. unfold daily_data_for_forecast.
  rewrite filter_on_or_before_last, Hfirst.
  rewrite decide_True by (destruct daily; simpl in *; [done|lia]).
  by apply zero_fill_cells.
Qed.

(** C4: for every daily series of distinct days with first day [first] and
    last day [last], and every cutoff [data_end_date], the training series
    holds exactly the days from [first] to [data_end_date], each once, in
    order and one day apart; its entries after [last] have zero quantity
    and zero revenue; every entry of the daily series up to the cutoff is
    kept unchanged and none after the cutoff is included. *)
Theorem training_series_span (daily : daily_series) (data_end_date first last : date) :
  NoDup (day <$> daily) ->
  col_min (day <$> daily) = Some first ->
  col_max (day <$> daily) = Some last ->
  exists t,
    daily_data_for_forecast daily data_end_date = Ok t
    /\ day <$> t = date_range first data_end_date
    /\ contiguous t
    /\ (forall e, e ∈ t -> last < day e -> qty e = 0%Q /\ amt e = 0%Q)
    /\ (forall e, e ∈ daily -> day e <= data_end_date -> e ∈ t)
    /\ (forall e, e ∈ t -> day e <= data_end_date).
Proof.
  intros Hnd Hfirst Hlast.
  exists (cell_at daily <$> date_range first data_end_date).
  split; [by apply training_series_cells|].
  split.
  { rewrite <- list_fmap_compose.
    rewrite <- (list_fmap_id (date_range first data_end_date)) at 2.
    apply list_fmap_ext. intros _ d _. apply cell_at_day. }
  split; [apply contiguous_cells, cell_at_day|].
  apply col_min_spec in Hfirst as [_ Hmin].
  apply col_max_spec in Hlast as [_ Hmax].
  split; [|split].
  - intros e (d & -> & Hd)%list_elem_of_fmap Hafter.
    rewrite cell_at_day in Hafter.
    rewrite cell_at_absent; [done|].
    intros Hin. specialize (Hmax _ Hin). lia.
  - intros e He Hle. apply list_elem_of_fmap. exists (day e).
    split; [by rewrite cell_at_present|].
    apply date_range_elem. split; [|done].
    apply Hmin, list_elem_of_fmap. by exists e.
  - intros e (d & -> & Hd)%list_elem_of_fmap.
    rewrite cell_at_day. apply date_range_elem in Hd. lia.
Qed.

Lemma training_series_span_witness :
  exists t,
    daily_data_for_forecast [mk_daily 10 2%Q 200%Q; mk_daily 11 0%Q 0%Q; mk_daily 12 1%Q 90%Q] 14
    = Ok t
    /\ day <$> t = date_range 10 14
    /\ contiguous t
    /\ (forall e, e ∈ t -> 12 < day e -> qty e = 0%Q /\ amt e = 0%Q)
    /\ (forall e,
          e ∈ [mk_daily 10 2%Q 200%Q; mk_daily 11 0%Q 0%Q; mk_daily 12 1%Q 90%Q] ->
          day e <= 14 -> e ∈ t)
    /\ (forall e, e ∈ t -> day e <= 14).
Proof.
  apply (training_series_span
           [mk_daily 10 2%Q 200%Q; mk_daily 11 0%Q 0%Q; mk_daily 12 1%Q 90%Q] 14 10 12).
  - apply (bool_decide_unpack _). vm_compute. exact I.
  - reflexivity.
  - reflexivity.
Defined.

(* ===================================================================== *)
(** * Facts about splitting labels                                        *)
(* ===================================================================== *)

Lemma string_app_cons (a : ascii) (x y : string) :
  String a x +:+ y = String a (x +:+ y).
Proof. reflexivity. Qed.

Lemma string_app_nil (y : string) : EmptyString +:+ y = y.
Proof. reflexivity. Qed.

Lemma prefix_app_long (sep x y : string) :
  (String.length sep <= String.length x)%nat ->
  String.prefix sep (x +:+ y) = String.prefix sep x.
Proof.
  revert x. induction sep as [|a sep IH]; intros x Hlen.
  - by destruct x, y.
  - destruct x as [|b x]; [simpl in Hlen; lia|].
    rewrite string_app_cons. simpl in *.
    destruct (ascii_dec a b); [|done]. apply IH. lia.
Qed.

Lemma prefix_app_self (sep y : string) : String.prefix sep (sep +:+ y) = true.
Proof.
  induction sep as [|a sep IH]; [by destruct y|].
  rewrite string_app_cons. simpl. by destruct (ascii_dec a a).
Qed.

Lemma split_head_unfold (sep s : string) :
  split_head sep s
  = if String.prefix sep s then EmptyString
    else match s with
         | EmptyString => EmptyString
         | String c s' => String c (split_head sep s')
         end.
Proof. destruct s; [by destruct sep|done]. Qed.

Lemma split_head_sep_first (sep y : string) : split_head sep (sep +:+ y) = EmptyString.
Proof. rewrite split_head_unfold. by rewrite prefix_app_self. Qed.

Lemma string_app_assoc (x y z : string) : (x +:+ y) +:+ z = x +:+ y +:+ z.
Proof. induction x as [|a x IH]; [done|]. rewrite !string_app_cons. by f_equal. Qed.

Lemma string_app_length (x y : string) :
  String.length (x +:+ y) = (String.length x + String.length y)%nat.
Proof. induction x as [|a x IH]; [done|]. rewrite string_app_cons. simpl. by f_equal. Qed.

(** What follows the first separator after the code has no influence on
    the text before it. *)
Lemma split_head_code (sep c n : string) :
  split_head sep (c +:+ sep +:+ n) = split_head sep (c +:+ sep).
Proof.
  induction c as [|a c IH].
  - rewrite !string_app_nil. rewrite split_head_sep_first.
    rewrite <- (split_head_sep_first sep EmptyString). f_equal.
    clear. induction sep as [|b sep IH]; [done|].
    rewrite string_app_cons. by f_equal.
  - rewrite (split_head_unfold sep (String a c +:+ sep +:+ n)).
    rewrite (split_head_unfold sep (String a c +:+ sep)).
    rewrite <- string_app_assoc.
    rewrite prefix_app_long.
    2:{ rewrite string_app_length. simpl. lia. }
    destruct (String.prefix sep (String a c +:+ sep)); [done|].
    rewrite string_app_assoc, !string_app_cons. by rewrite IH.
Qed.

(** A code in which no separator starts is recovered from its label. *)
Lemma split_head_recover (c n : string) :
  split_head " - " (c +:+ " -") = c +:+ " -" ->
  split_head " - " (c +:+ " - " +:+ n) = c.
Proof.
  induction c as [|a c IH]; intros Hc.
  { rewrite string_app_nil. apply split_head_sep_first. }
  rewrite split_head_unfold in Hc. rewrite split_head_unfold.
  replace (String a c +:+ " - " +:+ n) with ((String a c +:+ " -") +:+ (" " +:+ n))
    by (by rewrite string_app_assoc).
  rewrite prefix_app_long.
  2:{ rewrite string_app_length. simpl. lia. }
  destruct (String.prefix " - " (String a c +:+ " -")); [done|].
  rewrite string_app_assoc. rewrite !string_app_cons in *.
  injection Hc as Hc. f_equal. by apply IH.
Qed.

Section LabelFacts.
Context `{PyLib}.

Lemma label_code_ignores_name (code name1 name2 : string) :
  split_head " - " (make_label code name1) = split_head " - " (make_label code name2).
Proof. unfold make_label. by rewrite !(split_head_code " - "). Qed.

Lemma label_code_recovered (code name : string) :
  split_head " - " (str_strip code +:+ " -") = str_strip code +:+ " -" ->
  split_head " - " (make_label code name) = str_strip code.
Proof. apply split_head_recover. Qed.

(* ===================================================================== *)
(** * Facts about the filters                                             *)
(* ===================================================================== *)

Lemma no_filter_true (a : axis) (sel : list string) :
  no_filter a sel = true <-> sel = [] \/ sentinel a ∈ sel.
Proof.
  unfold no_filter. rewrite !orb_true_iff, !bool_decide_eq_true.
  split; [|tauto]. intros [[?|Hlen]|?]; [tauto| |tauto].
  left. by apply nil_length_inv.
Qed.

Lemma filter_by_department_rows (df : list record) (sel : list string) :
  filter_by_department df sel = filter_rows Department df sel.
Proof. done. Qed.

Lemma filter_by_order_method_rows (df : list record) (sel : list string) :
  filter_by_order_method df sel = filter_rows OrderMethod df sel.
Proof. done. Qed.

Lemma filter_by_product_rows (df : list record) (sel : list string) :
  filter_by_product df sel = aggregate (filter_rows Product df sel).
Proof. unfold filter_by_product, filter_rows, aggregate. by destruct (no_filter _ _). Qed.

Lemma filter_stage_rows (a : axis) (df : list record) (sel : list string) :
  filter_stage a df sel = passed_on a (filter_rows a df sel).
Proof. destruct a; simpl; [done|done|by rewrite filter_by_product_rows]. Qed.

Lemma filter_rows_elem (a : axis) (df : list record) (sel : list string) (r : record) :
  no_filter a sel = false ->
  r ∈ filter_rows a df sel
  <-> r ∈ df /\ exists l, l ∈ sel /\ str_strip (code_of a r) = split_head " - " l.
Proof.
  intros Hsel. unfold filter_rows, isin_rows, selected_codes. rewrite Hsel.
  rewrite list_elem_of_filter, list_elem_of_fmap. split.
  - intros [(l & Hl & Hin) Hr]. split; [done|]. by exists l.
  - intros [Hr (l & Hin & Hl)]. split; [|done]. by exists l.
Qed.

Lemma filter_keeps_all {A} (P : A -> Prop) `{forall x, Decision (P x)} (l : list A) :
  Forall P l -> filter P l = l.
Proof.
  induction 1 as [|x l Hx Hl IH]; [done|].
  rewrite filter_cons_True by done. by rewrite IH.
Qed.

Lemma unique_from_elem (seen l : list string) (x : string) :
  x ∈ l -> x ∈ seen \/ x ∈ unique_from seen l.
Proof.
  revert seen. induction l as [|y l IH]; intros seen Hx.
  - by apply elem_of_nil in Hx.
  - simpl. apply elem_of_cons in Hx as [->|Hx].
    + case_decide; [by left|right; left].
    + case_decide.
      * by apply IH.
      * destruct (IH (y :: seen) Hx) as [Hs|Hu]; [|right; by right].
        apply elem_of_cons in Hs as [->|Hs]; [right; left|by left].
Qed.

Lemma unique_elem (l : list string) (x : string) : x ∈ l -> x ∈ unique l.
Proof.
  intros Hx. destruct (unique_from_elem [] l x Hx) as [Hn|Hu]; [|done].
  by apply elem_of_nil in Hn.
Qed.

Lemma filter_rows_full (a : axis) (df : list record) :
  (forall r, r ∈ df -> code_recoverable a r) ->
  filter_rows a df (full_labels a df) = df.
Proof.
  intros Hrec. unfold filter_rows.
  destruct (no_filter a (full_labels a df)); [done|].
  apply filter_keeps_all, Forall_forall. intros r Hr.
  unfold selected_codes. apply list_elem_of_fmap.
  exists (label_of a r). split; [symmetry; by apply Hrec|].
  apply unique_elem, list_elem_of_fmap. by exists r.
Qed.

End LabelFacts.

(* ===================================================================== *)
(** * C5: the "all" selection                                             *)
(* ===================================================================== *)

(** On every axis and every record set, a selection that is empty or
    contains the axis's "all" sentinel lets the record set through unchanged
    (the product stage aggregates all of it); and when the stripped code of
    every record is the text before the first " - " of its own label,
    selecting the axis's full label set gives the same stage output, hence
    the same daily series. *)
Theorem all_selection_is_noop `{PyLib} (a : axis) (df : list record) (sel : list string) :
  sel = [] \/ sentinel a ∈ sel ->
  (forall r, r ∈ df -> code_recoverable a r) ->
  filter_rows a df sel = df
  /\ filter_stage a df sel = passed_on a df
  /\ filter_stage a df sel = filter_stage a df (full_labels a df)
  /\ aggregate (filter_rows a df sel) = aggregate (filter_rows a df (full_labels a df)).
Proof.
  intros Hsel%no_filter_true Hrec.
  assert (filter_rows a df sel = df) as Hnoop by (unfold filter_rows; by rewrite Hsel).
  rewrite !filter_stage_rows, Hnoop, filter_rows_full by done. done.
Qed.

Lemma all_selection_is_noop_witness :
  filter_rows Department [plain_row] [sentinel Department] = [plain_row]
  /\ filter_stage Department [plain_row] [sentinel Department]
     = passed_on Department [plain_row]
  /\ filter_stage Department [plain_row] [sentinel Department]
     = filter_stage Department [plain_row] (full_labels Department [plain_row])
  /\ aggregate (filter_rows Department [plain_row] [sentinel Department])
     = aggregate (filter_rows Department [plain_row] (full_labels Department [plain_row])).
Proof.
  apply (all_selection_is_noop Department [plain_row] [sentinel Department]).
  - right. left.
  - intros r Hr. apply list_elem_of_singleton in Hr. subst r. reflexivity.
Defined.

(** C5 at the failing input: for a department code that contains " - ", the
    label built from it splits to a shorter code, so the full label set of
    the axis selects nothing, while the empty selection keeps the record;
    the two daily series differ. *)
Theorem full_label_set_drops_dashed_code :
  full_labels Department [dashed_row] = ["A - 1 - X"%string]
  /\ filter_by_department [dashed_row] [] = [dashed_row]
  /\ filter_by_department [dashed_row] (full_labels Department [dashed_row]) = []
  /\ aggregate (filter_by_department [dashed_row] [])
     = Ok [mk_daily (ymd 2025 1 1) 1%Q 100%Q]
  /\ aggregate (filter_by_department [dashed_row] (full_labels Department [dashed_row]))
     = Ok [].
Proof. repeat split; vm_compute; reflexivity. Qed.

(* ===================================================================== *)
(** * C10: matching by code                                               *)
(* ===================================================================== *)

(** C10 (as amended): on every axis, a selection that filters keeps exactly
    the records whose stripped code is the text before the first " - " of a
    selected label, taken as it stands. So the name of a record plays no
    part, selections with the same
    code segments keep the same records, the name inside a label (even one
    containing " - ") does not change its code segment, and for a code in
    which no separator starts that segment is the stripped code itself. *)
Theorem filter_matches_code_only `{PyLib} (a : axis) (df : list record) (sel : list string) :
  no_filter a sel = false ->
  filter_stage a df sel = passed_on a (filter_rows a df sel)
  /\ (forall r, r ∈ filter_rows a df sel
        <-> r ∈ df /\ exists l, l ∈ sel /\ str_strip (code_of a r) = split_head " - " l)
  /\ (forall r1 r2, r1 ∈ df -> r2 ∈ df ->
        str_strip (code_of a r1) = str_strip (code_of a r2) ->
        (r1 ∈ filter_rows a df sel <-> r2 ∈ filter_rows a df sel))
  /\ (forall sel', no_filter a sel' = false ->
        selected_codes sel' = selected_codes sel ->
        filter_rows a df sel' = filter_rows a df sel)
  /\ (forall code name1 name2,
        split_head " - " (make_label code name1) = split_head " - " (make_label code name2))
  /\ (forall code name,
        split_head " - " (str_strip code +:+ " -") = str_strip code +:+ " -" ->
        split_head " - " (make_label code name) = str_strip code).
Proof.
  intros Hsel. split; [apply filter_stage_rows|].
  split; [intros r; by apply filter_rows_elem|].
  split.
  { intros r1 r2 H1 H2 Hcode. rewrite !filter_rows_elem by done.
    rewrite Hcode. tauto. }
  split.
  { intros sel' Hsel' Hcodes. unfold filter_rows. by rewrite Hsel, Hsel', Hcodes. }
  split; [apply label_code_ignores_name|apply label_code_recovered].
Qed.

Lemma filter_matches_code_only_witness :
  filter_stage Department [plain_row; dashed_row] ["12 - Osaka - West"%string]
  = passed_on Department
      (filter_rows Department [plain_row; dashed_row] ["12 - Osaka - West"%string])
  /\ plain_row ∈ filter_rows Department [plain_row; dashed_row] ["12 - Osaka - West"%string].
Proof.
  pose proof (filter_matches_code_only Department [plain_row; dashed_row]
                ["12 - Osaka - West"%string] eq_refl) as (Hstage & Helem & _).
  split; [exact Hstage|].
  apply Helem. split; [left|].
  exists "12 - Osaka - West"%string. split; [left|reflexivity].
Defined.

(** C10 (as stated) fails: the code segment of a label is not stripped. The
    records have the labels "A - Plain" and "A  - 1 - X"; the second label
    splits to "A" followed by a space. Stripped, as the claim has it, that
    is the code of the first record, which would be kept; the filter
    compares the unstripped text and keeps no record. *)
Lemma label_code_segment_is_not_stripped :
  label_of Department <$> [spaced_plain_row; spaced_dashed_row]
  = ["A - Plain"; "A  - 1 - X"]%string
  /\ no_filter Department ["A  - 1 - X"%string] = false
  /\ selected_codes ["A  - 1 - X"%string] = ["A "%string]
  /\ claimed_kept Department ["A  - 1 - X"%string] spaced_plain_row
  /\ filter_by_department [spaced_plain_row; spaced_dashed_row] ["A  - 1 - X"%string]
     = []
  /\ ~ (forall r, r ∈ [spaced_plain_row; spaced_dashed_row] ->
          claimed_kept Department ["A  - 1 - X"%string] r ->
          r ∈ filter_by_department [spaced_plain_row; spaced_dashed_row]
                ["A  - 1 - X"%string]).
Proof.
  assert (claimed_kept Department ["A  - 1 - X"%string] spaced_plain_row) as Hkept.
  { exists "A  - 1 - X"%string. split; [left|reflexivity]. }
  assert (filter_by_department [spaced_plain_row; spaced_dashed_row]
            ["A  - 1 - X"%string] = []) as Hnone by reflexivity.
  repeat split; try reflexivity; try done.
  intros Hall. specialize (Hall spaced_plain_row ltac:(left) Hkept).
  rewrite Hnone in Hall. by apply elem_of_nil in Hall.
Qed.

(* ===================================================================== *)
(** * C7: the label sort                                                  *)
(* ===================================================================== *)

Lemma sorted_lookup {A} (R : relation A) (l : list A) (i j : nat) (a b : A) :
  StronglySorted R l -> (i < j)%nat -> l !! i = Some a -> l !! j = Some b -> R a b.
Proof.
  intros Hs. revert i j. induction Hs as [|x l Hl IH Hx]; intros i j Hij Ha Hb.
  - by rewrite lookup_nil in Ha.
  - destruct j as [|j]; [lia|]. simpl in Hb. destruct i as [|i].
    + simpl in Ha. injection Ha as <-.
      rewrite Forall_forall in Hx. apply Hx. by eapply list_elem_of_lookup_2.
    + simpl in Ha. apply (IH i j); [lia|done|done].
Qed.

Lemma insert_by_fmap {A B} (f : A -> Z) (g : A -> B) (k : B -> Z) (x : A) (l : list A) :
  (forall y, k (g y) = f y) ->
  insert_by k (g x) (g <$> l) = g <$> insert_by f x l.
Proof.
  intros Hk. induction l as [|y l IH]; [done|].
  rewrite fmap_cons. cbn [insert_by]. rewrite !Hk.
  case_decide; rewrite !fmap_cons; [done|]. by rewrite IH.
Qed.

Lemma stable_sort_fmap {A B} (f : A -> Z) (g : A -> B) (k : B -> Z) (l : list A) :
  (forall y, k (g y) = f y) ->
  stable_sort k (g <$> l) = g <$> stable_sort f l.
Proof.
  intros Hk. induction l as [|x l IH]; [done|].
  unfold stable_sort in *. rewrite fmap_cons. cbn [foldr]. rewrite IH.
  by apply insert_by_fmap.
Qed.

Section LabelSortFacts.
Context `{PyLib}.

Lemma extract_code_key (item : string) :
  ~ overflows item -> extract_code item = Ok (code_key item).
Proof.
  unfold overflows, extract_code, code_key, code_text. intros Hno.
  destruct (int_of_float _) as [z|[]]; done.
Qed.

Lemma keyed_keys (items : list string) :
  Forall (fun item => ~ overflows item) items ->
  keyed items = Ok ((fun item => (code_key item, item)) <$> items).
Proof.
  induction 1 as [|item items Hitem Hitems IH]; [done|].
  simpl. rewrite extract_code_key by done. simpl. by rewrite IH.
Qed.

Lemma sorted_by_code_keys (items : list string) :
  Forall (fun item => ~ overflows item) items ->
  sorted_by_code items = Ok (stable_sort code_key items).
Proof.
  intros Hall. unfold sorted_by_code. rewrite keyed_keys by done. simpl.
  unfold mret, result_ret. f_equal.
  rewrite (stable_sort_fmap code_key) by done.
  rewrite <- list_fmap_compose. apply list_fmap_id.
Qed.

Lemma sort_by_code_keys (all_item : string) (labels : list string) :
  Forall (fun item => ~ overflows item) labels ->
  sort_by_code (all_item :: labels) true = Ok (all_item :: stable_sort code_key labels).
Proof.
  intros Hall. unfold sort_by_code.
  assert ((if decide (1 < length (all_item :: labels))%nat
           then drop 1 (all_item :: labels) else []) = labels) as ->.
  { destruct labels as [|l labels]; [done|].
    rewrite decide_True; [done|simpl; lia]. }
  by rewrite sorted_by_code_keys.
Qed.

(** C7 (as amended): for every "all" item and every list of labels none of
    whose codes converts to an infinity, the sort returns the "all" item
    first, followed by the labels in ascending order of the integer that
    [int(float(code))] gives (the code truncated toward zero), labels of
    equal key in input order; a label whose code is not numeric has key 0,
    and a label of smaller key always stands before one of larger key. *)
Theorem sort_by_code_sorted (all_item : string) (labels : list string) :
  Forall (fun item => ~ overflows item) labels ->
  exists sorted,
    sort_by_code (all_item :: labels) true = Ok (all_item :: sorted)
    /\ sorted = stable_sort code_key labels
    /\ sorted ≡ₚ labels
    /\ StronglySorted (fun a b => code_key a <= code_key b) sorted
    /\ (forall item, int_of_float (code_text item) = Raise ValueError -> code_key item = 0)
    /\ (forall (i j : nat) a b, sorted !! i = Some a -> sorted !! j = Some b ->
          code_key a < code_key b -> (i < j)%nat).
Proof.
  intros Hall. exists (stable_sort code_key labels).
  split; [by apply sort_by_code_keys|].
  split; [done|].
  split; [apply stable_sort_perm|].
  split; [apply stable_sort_is_sorted|].
  split.
  { intros item Hitem. unfold code_key. by rewrite Hitem. }
  intros i j a b Ha Hb Hlt.
  destruct (decide (i < j)%nat) as [|Hge]; [done|]. exfalso.
  destruct (decide (i = j)) as [->|Hne].
  - rewrite Ha in Hb. injection Hb as ->. lia.
  - pose proof (sorted_lookup _ _ j i b a (stable_sort_is_sorted code_key labels)
                  ltac:(lia) Hb Ha) as Hle.
    simpl in Hle. lia.
Qed.

End LabelSortFacts.

Lemma sort_by_code_sorted_witness :
  Forall (fun item => ~ overflows item) ["10 - x"; "N/A - z"; "2 - y"]%string
  /\ exists sorted,
    sort_by_code (sentinel Department :: ["10 - x"; "N/A - z"; "2 - y"]%string) true
    = Ok (sentinel Department :: sorted)
    /\ sorted = stable_sort code_key ["10 - x"; "N/A - z"; "2 - y"]%string
    /\ sorted ≡ₚ ["10 - x"; "N/A - z"; "2 - y"]%string
    /\ StronglySorted (fun a b => code_key a <= code_key b) sorted
    /\ (forall item, int_of_float (code_text item) = Raise ValueError -> code_key item = 0)
    /\ (forall (i j : nat) a b, sorted !! i = Some a -> sorted !! j = Some b ->
          code_key a < code_key b -> (i < j)%nat).
Proof.
  assert (Forall (fun item => ~ overflows item) ["10 - x"; "N/A - z"; "2 - y"]%string) as Hall.
  { repeat constructor; vm_compute; discriminate. }
  split; [exact Hall|].
  exact (sort_by_code_sorted (sentinel Department) ["10 - x"; "N/A - z"; "2 - y"]%string Hall).
Defined.

(** C7 (as stated) fails: the key is the code truncated to an integer, so
    two codes with the same integer part keep their input order even when
    their numeric values descend. *)
Lemma sort_by_code_truncates_codes :
  sort_by_code [sentinel Department; "1.7 - a"; "1.2 - b"]%string true
  = Ok [sentinel Department; "1.7 - a"; "1.2 - b"]%string
  /\ (code_value "1.2 - b" < code_value "1.7 - a")%Q.
Proof. split; vm_compute; reflexivity. Qed.

(** A negative code stands before a code that is not numeric. *)
Example negative_code_precedes_text_code :
  sort_by_code [sentinel Department; "N/A - z"; "3 - x"; "-5 - q"]%string true
  = Ok [sentinel Department; "-5 - q"; "N/A - z"; "3 - x"]%string.
Proof. vm_compute. reflexivity. Qed.

(** A code that converts to an infinity makes the sort raise. *)
Example sort_by_code_overflow :
  sort_by_code [sentinel Department; "10 - x"; "inf - y"]%string true = Raise OverflowError.
Proof. vm_compute. reflexivity. Qed.

(* ===================================================================== *)
(** * C9: an amount that is not numeric                                   *)
(* ===================================================================== *)

Section LoadFacts.
Context `{PyLib}.

Lemma convert_amount_raises (r : row string) :
  ~ amount_numeric r -> convert_amount r = Raise ValueError.
Proof.
  unfold amount_numeric, convert_amount. intros Hr.
  destruct (to_float _); [|done]. exfalso. by apply Hr.
Qed.

Lemma convert_amount_value_error (r : row string) (e : exn) :
  convert_amount r = Raise e -> e = ValueError.
Proof. unfold convert_amount. destruct (to_float _); congruence. Qed.

Lemma convert_amounts_raises (rs : list (row string)) :
  Exists (fun r => ~ amount_numeric r) rs -> convert_amounts rs = Raise ValueError.
Proof.
  induction rs as [|r rs IH]; intros Hex; [by apply Exists_nil in Hex|].
  simpl. destruct (convert_amount r) as [x|e] eqn:Hr.
  - apply Exists_cons in Hex as [Hbad|Hex].
    + apply convert_amount_raises in Hbad. congruence.
    + simpl. by rewrite IH.
  - simpl. f_equal. by eapply convert_amount_value_error.
Qed.

(** C9 (as amended): for every upload with a row whose amount is not
    numeric once the commas are removed, [load_data] aggregates nothing: it
    shows one load-error message and returns no data, and the page then
    shows that message and the upload prompt without raising, whatever the
    operator has selected. *)
Theorem bad_amount_aborts_load `{Backends} (csv : frame string) :
  Exists (fun r => ~ amount_numeric r) (frame_rows csv) ->
  load_data csv = (None, [ErrLoad ValueError])
  /\ forall ui c, app (Some csv) ui c = Ok ([ErrLoad ValueError; InfoUpload], None).
Proof.
  intros Hbad.
  assert (load_data csv = (None, [ErrLoad ValueError])) as Hload.
  { unfold load_data, load_body. by rewrite convert_amounts_raises. }
  split; [done|]. intros ui c. unfold app. by rewrite Hload.
Qed.

End LoadFacts.

Lemma bad_amount_aborts_load_witness :
  Exists (fun r => ~ amount_numeric r) (frame_rows upload_with_bad_amount)
  /\ load_data upload_with_bad_amount = (None, [ErrLoad ValueError])
  /\ forall ui c,
       app (Some upload_with_bad_amount) ui c
       = Ok ([ErrLoad ValueError; InfoUpload], None).
Proof.
  assert (Exists (fun r => ~ amount_numeric r) (frame_rows upload_with_bad_amount)) as Hbad.
  { right. left. vm_compute. intros [x Hx]. discriminate. }
  split; [exact Hbad|].
  exact (bad_amount_aborts_load upload_with_bad_amount Hbad).
Defined.

(** C9 (as stated) fails: the row with the numeric amount is not
    aggregated either; the load returns no data at all. *)
Lemma bad_amount_loses_good_rows :
  Exists amount_numeric (frame_rows upload_with_bad_amount)
  /\ fst (load_data upload_with_bad_amount) = None
  /\ snd (load_data upload_with_bad_amount) = [ErrLoad ValueError].
Proof.
  split; [|split; vm_compute; reflexivity].
  left. vm_compute. eauto.
Qed.

(* ===================================================================== *)
(** * C6: the periods asked of a backend                                  *)
(* ===================================================================== *)

(** C6 (as amended): in every run whose window does not end before it
    starts, the Prophet branch asks for [(end_date - last_data_date).days]
    periods, or for [forecast_days] when that number is negative; the ARIMA
    and the linear-regression branch ask for [forecast_days] periods. *)
Theorem periods_asked_by_branch (series : list (date * Q))
    (start_date end_date last_data_date : date) :
  start_date <= end_date ->
  periods_asked UseProphet series start_date end_date last_data_date
  = resolved_horizon start_date end_date last_data_date
  /\ periods_asked UseArima series start_date end_date last_data_date
     = forecast_days start_date end_date
  /\ periods_asked UseLinear series start_date end_date last_data_date
     = forecast_days start_date end_date.
Proof.
  intros Hle. unfold periods_asked, resolved_horizon, days_to_forecast_end. simpl.
  split; [done|]. split; [done|].
  rewrite length_seqZ. unfold forecast_days, days_between. lia.
Qed.

Lemma periods_asked_by_branch_witness :
  ymd 2025 1 1 <= ymd 2025 1 30
  /\ periods_asked UseProphet [] (ymd 2025 1 1) (ymd 2025 1 30) (ymd 2024 12 20)
     = resolved_horizon (ymd 2025 1 1) (ymd 2025 1 30) (ymd 2024 12 20)
  /\ periods_asked UseArima [] (ymd 2025 1 1) (ymd 2025 1 30) (ymd 2024 12 20)
     = forecast_days (ymd 2025 1 1) (ymd 2025 1 30)
  /\ periods_asked UseLinear [] (ymd 2025 1 1) (ymd 2025 1 30) (ymd 2024 12 20)
     = forecast_days (ymd 2025 1 1) (ymd 2025 1 30).
Proof.
  split; [vm_compute; discriminate|].
  apply (periods_asked_by_branch [] (ymd 2025 1 1) (ymd 2025 1 30) (ymd 2024 12 20)).
  vm_compute; discriminate.
Defined.

(** C6 (as stated) fails: with data up to 2024-12-20 and the window
    2025-01-01 to 2025-01-30 the resolved horizon is 41 days, but the ARIMA
    and the linear-regression branch ask for 30 periods. *)
Lemma arima_and_linear_ask_forecast_days :
  resolved_horizon (ymd 2025 1 1) (ymd 2025 1 30) (ymd 2024 12 20) = 41
  /\ periods_asked UseArima [] (ymd 2025 1 1) (ymd 2025 1 30) (ymd 2024 12 20) = 30
  /\ periods_asked UseLinear [] (ymd 2025 1 1) (ymd 2025 1 30) (ymd 2024 12 20) = 30.
Proof. repeat split; vm_compute; reflexivity. Qed.

(* ===================================================================== *)
(** * C8: nothing to aggregate, nothing selected                          *)
(* ===================================================================== *)

Lemma aggregate_empty : aggregate [] = Ok [].
Proof. reflexivity. Qed.

Section EmptyFacts.
Context `{PyLib}.

Lemma filter_by_product_empty (selected_products : list string) :
  filter_by_product [] selected_products = Ok [].
Proof. unfold filter_by_product. by destruct (no_filter _ _). Qed.

(** With product columns the sidebar either hands on a series with at least
    one row or shows the no-data warning. *)
Lemma choose_series_with_products (raw_data : frame Q) (ui : selections)
    (d : option daily_series) (msgs : list message) :
  has_product raw_data = true ->
  choose_series raw_data ui = Ok (d, msgs) ->
  match d with
  | Some s => s <> []
  | None => WarnNoData ∈ msgs
  end.
Proof.
  intros Hp. unfold choose_series. rewrite Hp.
  destruct (if has_department raw_data then _ else _) as [[[sd rows1] m1]|e]; [|done].
  simpl.
  destruct (if has_order_method raw_data then _ else _) as [[rows2 m2]|e]; [|done].
  simpl.
  destruct (menu Product rows2) as [mn|e]; [|done]. simpl.
  destruct (filter_by_product rows2 (ui_products ui)) as [s|e]; [|done]. simpl.
  case_decide as Hlen; intros [= <- <-].
  - intros ->. simpl in Hlen. lia.
  - rewrite !elem_of_app. right; right. left.
Qed.

End EmptyFacts.

(** C8 at the failing input: the upload has no product columns and the
    selected department label does not lead back to its records, so the
    filtered record set is empty; the page shows the two column notices and
    no table, and no no-data warning. The same rows with product columns do
    get the warning. *)
Theorem no_data_warning_needs_product_columns `{Backends} (c : controls) :
  app (Some upload_without_products) select_dashed_department c
  = Ok ([InfoNoOrderMethod; InfoNoProduct], None)
  /\ app (Some upload_with_products) select_dashed_department c
     = Ok ([InfoNoOrderMethod; WarnNoData], None).
Proof. split; vm_compute; reflexivity. Qed.

(* ===================================================================== *)
(** * C3: the dates of the result table                                   *)
(* ===================================================================== *)

Lemma take_seqZ (k : nat) (m n : Z) : take k (seqZ m n) = seqZ m (Z.min (Z.of_nat k) n).
Proof.
  revert m n. induction k as [|k IH]; intros m n.
  - rewrite take_0. symmetry. apply seqZ_nil. lia.
  - destruct (decide (0 < n)) as [Hn|Hn].
    + rewrite (seqZ_cons m n) by done.
      rewrite (seqZ_cons m (Z.min _ _)) by lia.
      rewrite firstn_cons, IH. f_equal. f_equal. lia.
    + rewrite !seqZ_nil by lia. done.
Qed.

Lemma filter_seqZ_from (s lo n : Z) :
  filter (fun d => s <= d) (seqZ lo n) = seqZ (Z.max s lo) (lo + n - Z.max s lo).
Proof.
  destruct (decide (0 < n)) as [Hn|Hn].
  2:{ rewrite !seqZ_nil by lia. done. }
  rewrite <- (Z2Nat.id n) by lia.
  generalize (Z.to_nat n) as k. clear n Hn. intros k. revert lo.
  induction k as [|k IH]; intros lo.
  { rewrite !seqZ_nil by lia. done. }
  rewrite seqZ_cons by lia.
  replace (Z.pred (Z.of_nat (S k))) with (Z.of_nat k) by lia.
  rewrite filter_cons, IH. case_decide as Hs.
  - rewrite (seqZ_cons (Z.max s lo)) by lia.
    f_equal; [lia|]. f_equal; lia.
  - f_equal; lia.
Qed.

Lemma col_max_date_range (lo hi : date) : lo <= hi -> col_max (date_range lo hi) = Some hi.
Proof.
  intros Hle. apply col_max_spec. split.
  - apply date_range_elem. lia.
  - intros x Hx%date_range_elem. lia.
Qed.

Lemma future_dataframe_range (first data_end periods : Z) :
  first <= data_end -> 0 <= periods ->
  make_future_dataframe (date_range first data_end) periods
  = seqZ first (data_end + periods + 1 - first).
Proof.
  intros Hle Hp. unfold make_future_dataframe.
  rewrite col_max_date_range by done. unfold date_range.
  replace (data_end + periods + 1 - first) with ((data_end - first + 1) + periods) by lia.
  rewrite (seqZ_app first (data_end - first + 1) periods) by lia.
  by replace (first + (data_end - first + 1)) with (data_end + 1) by lia.
Qed.

Lemma filter_fmap_fst {A B} (P : A -> Prop) `{forall x, Decision (P x)}
    (f : A -> B) (l : list A) :
  snd <$> filter (fun p => P (fst p)) ((fun x => (x, f x)) <$> l) = f <$> filter P l.
Proof.
  induction l as [|x l IH]; [done|].
  rewrite fmap_cons, !filter_cons. simpl.
  case_decide; [|exact IH].
  rewrite !fmap_cons. simpl. by rewrite IH.
Qed.

Lemma py_prefix_all {A} (n : Z) (l : list A) :
  0 <= n ->
  (if decide (n <= Z.of_nat (length l)) then py_prefix n l else l) = take (Z.to_nat n) l.
Proof.
  intros Hn. unfold py_prefix.
  destruct (decide (0 <= n)) as [_|]; [|lia].
  case_decide; [done|]. symmetry. apply take_ge. lia.
Qed.

Section TableFacts.
Context `{Backends}.

Lemma prophet_raw_forecast (series : list (date * Q))
    (periods start_date fd first data_end : Z) :
  fst <$> series = date_range first data_end ->
  first <= data_end -> 0 <= periods -> 0 <= fd ->
  raw_forecast (ProphetCall series periods) start_date fd
  = prophet_yhat series
    <$> seqZ (Z.max start_date first)
          (Z.min fd (data_end + periods + 1 - Z.max start_date first)).
Proof.
  intros Hdays Hle Hp Hfd. unfold raw_forecast.
  rewrite py_prefix_all by done.
  rewrite Hdays, future_dataframe_range by done.
  rewrite (filter_fmap_fst (fun d => start_date <= d)).
  rewrite filter_seqZ_from, <- fmap_take, take_seqZ.
  f_equal. f_equal. lia.
Qed.

Lemma forecast_length_arima (series : list (date * Q)) (start_date dtfe fd : Z) :
  length (forecast UseArima series start_date dtfe fd) = Z.to_nat fd.
Proof.
  unfold forecast, np_maximum. simpl. by rewrite !length_fmap, length_seq.
Qed.

Lemma forecast_length_linear (series : list (date * Q)) (start_date dtfe fd : Z) :
  length (forecast UseLinear series start_date dtfe fd) = Z.to_nat fd.
Proof.
  unfold forecast, np_maximum. simpl. by rewrite !length_fmap, length_seqZ.
Qed.

Lemma forecast_df_days (dates : list date) (fq fa : list Q) :
  f_day <$> forecast_df dates fq fa
  = take (Nat.min (length fq) (length fa)) dates.
Proof.
  unfold forecast_df.
  rewrite fmap_zip_with_l; [|done|].
  - destruct (decide (length dates <= Nat.min (length fq) (length fa))%nat).
    + rewrite !take_ge by lia. done.
    + f_equal. lia.
  - rewrite length_zip, !length_fmap, !length_take. lia.
Qed.

End TableFacts.

Lemma zip_with_fmap_same {A B C D} (F : A -> B * C -> D) (h1 : A -> B) (h2 : A -> C)
    (l : list A) :
  zip_with F l (zip (h1 <$> l) (h2 <$> l)) = (fun x => F x (h1 x, h2 x)) <$> l.
Proof.
  induction l as [|x l IH]; [done|].
  rewrite !fmap_cons. cbn [zip zip_with]. by f_equal.
Qed.

Lemma forecast_df_same_days (s n k : Z) (g1 g2 : date -> Q) :
  forecast_df (seqZ s n) (g1 <$> seqZ s k) (g2 <$> seqZ s k)
  = (fun d => mk_forecast_row d (np_round 2 (g1 d)) (np_round 0 (g2 d)))
    <$> seqZ s (Z.min n k).
Proof.
  unfold forecast_df. rewrite !length_fmap, !length_seqZ.
  rewrite Nat.min_id.
  rewrite <- !fmap_take, !take_seqZ, <- !list_fmap_compose.
  destruct (decide (0 <= Z.min n k)).
  - replace (Z.min (Z.of_nat (Z.to_nat n `min` Z.to_nat k)) n) with (Z.min n k) by lia.
    replace (Z.min (Z.of_nat (Z.to_nat n `min` Z.to_nat k)) k) with (Z.min n k) by lia.
    by rewrite zip_with_fmap_same.
  - rewrite !seqZ_nil by lia. done.
Qed.

Section TableTheorem.
Context `{Backends}.

Lemma fit_training (b : branch) (f : daily_row -> date * Q) (daily : daily_series)
    (first data_end : date) :
  Z.of_nat (min_training_rows b) <= data_end - first + 1 ->
  fit b (f <$> (cell_at daily <$> date_range first data_end)) = Ok ().
Proof.
  intros Hrows. unfold fit.
  rewrite !length_fmap. unfold date_range. rewrite length_seqZ.
  by rewrite decide_False by lia.
Qed.

Lemma fit_refuses (b : branch) (f : daily_row -> date * Q) (daily : daily_series)
    (first data_end : date) :
  data_end - first + 1 < Z.of_nat (min_training_rows b) ->
  fit b (f <$> (cell_at daily <$> date_range first data_end)) = Raise ValueError.
Proof.
  intros Hrows. unfold fit.
  rewrite !length_fmap. unfold date_range. rewrite length_seqZ.
  by rewrite decide_True by (destruct b; simpl in *; lia).
Qed.

Lemma forecast_section_run (daily : daily_series) (c : controls) (first last : date) :
  NoDup (day <$> daily) ->
  col_min (day <$> daily) = Some first ->
  col_max (day <$> daily) = Some last ->
  Z.of_nat (min_training_rows (branch_of c)) <= data_end_date c - first + 1 ->
  run_forecast c = true ->
  let t := cell_at daily <$> date_range first (data_end_date c) in
  let fd := forecast_days (start_date c) (end_date c) in
  forecast_section daily c
  = Ok (Some (forecast_df (date_range (start_date c) (end_date c))
                (forecast_quantity (branch_of c) t (start_date c) (prophet_periods c last) fd)
                (forecast_amount (branch_of c) t (start_date c) (prophet_periods c last) fd))).
Proof.
  intros Hnd Hfirst Hlast Hrows Hrun. unfold forecast_section.
  rewrite (training_series_cells daily (data_end_date c) first) by done.
  cbn [mbind mret result_bind result_ret]. rewrite Hrun, Hlast.
  fold (branch_of c). unfold quantity_series, amount_series.
  rewrite !fit_training by done. reflexivity.
Qed.

Lemma training_days (daily : daily_series) (first data_end : date) :
  day <$> (cell_at daily <$> date_range first data_end) = date_range first data_end.
Proof.
  rewrite <- list_fmap_compose.
  rewrite <- (list_fmap_id (date_range first data_end)) at 2.
  apply list_fmap_ext. intros _ d _. apply cell_at_day.
Qed.

Lemma series_days (f : daily_row -> date * Q) (t : daily_series) :
  (forall e, fst (f e) = day e) -> fst <$> (f <$> t) = day <$> t.
Proof.
  intros Hf. rewrite <- list_fmap_compose.
  apply list_fmap_ext. intros _ e _. apply Hf.
Qed.

Lemma prophet_periods_nonneg (c : controls) (last : date) :
  start_date c <= end_date c -> 0 <= prophet_periods c last.
Proof.
  unfold prophet_periods, days_to_forecast_end, forecast_days, days_between.
  intros Hle. case_decide; lia.
Qed.

(** The table of the Prophet branch, row by row. *)
Lemma prophet_table (daily : daily_series) (c : controls) (first last : date) :
  NoDup (day <$> daily) ->
  col_min (day <$> daily) = Some first ->
  col_max (day <$> daily) = Some last ->
  first < data_end_date c ->
  data_end_date c <= start_date c ->
  start_date c <= end_date c ->
  run_forecast c = true ->
  branch_of c = UseProphet ->
  let t := cell_at daily <$> date_range first (data_end_date c) in
  forecast_section daily c
  = Ok (Some ((fun d => mk_forecast_row d
                 (np_round 2 (Qmax (prophet_yhat (quantity_series t) d) 0))
                 (np_round 0 (Qmax (prophet_yhat (amount_series t) d) 0)))
              <$> seqZ (start_date c)
                    (Z.min (forecast_days (start_date c) (end_date c))
                       (data_end_date c + prophet_periods c last + 1 - start_date c)))).
Proof.
  intros Hnd Hfirst Hlast Hcut Hstart Hwin Hrun Hb t.
  rewrite (forecast_section_run daily c first last)
    by (done || (rewrite Hb; simpl; lia)).
  rewrite Hb. do 2 f_equal.
  pose proof (prophet_periods_nonneg c last Hwin) as Hp.
  assert (0 <= forecast_days (start_date c) (end_date c)) as Hfd
    by (unfold forecast_days, days_between; lia).
  unfold forecast_quantity, forecast_amount, forecast, backend_call_of.
  rewrite (prophet_raw_forecast (quantity_series _) _ _ _ first (data_end_date c));
    [|unfold quantity_series; rewrite series_days by done; apply training_days
     |lia|done..].
  rewrite (prophet_raw_forecast (amount_series _) _ _ _ first (data_end_date c));
    [|unfold amount_series; rewrite series_days by done; apply training_days
     |lia|done..].
  rewrite Z.max_l by lia.
  unfold np_maximum. rewrite <- !list_fmap_compose.
  unfold date_range. rewrite forecast_df_same_days.
  unfold forecast_days, days_between. by rewrite Z.min_assoc, Z.min_id.
Qed.

(** The table of the other two branches has one row per day of the
    window. *)
Lemma other_table_days (daily : daily_series) (c : controls) (first last : date) :
  NoDup (day <$> daily) ->
  col_min (day <$> daily) = Some first ->
  col_max (day <$> daily) = Some last ->
  first <= data_end_date c ->
  start_date c <= end_date c ->
  run_forecast c = true ->
  branch_of c <> UseProphet ->
  exists table,
    forecast_section daily c = Ok (Some table)
    /\ f_day <$> table = date_range (start_date c) (end_date c).
Proof.
  intros Hnd Hfirst Hlast Hcut Hwin Hrun Hb.
  eexists. split.
  { apply (forecast_section_run daily c first last); try done.
    destruct (branch_of c); [done|simpl; lia..]. }
  rewrite forecast_df_days. unfold forecast_quantity, forecast_amount.
  assert (Z.to_nat (forecast_days (start_date c) (end_date c))
          = length (date_range (start_date c) (end_date c))) as Hlen.
  { unfold date_range, forecast_days, days_between. by rewrite length_seqZ. }
  destruct (branch_of c); [done|..].
  - rewrite !forecast_length_arima, Nat.min_id, Hlen. apply firstn_all.
  - rewrite !forecast_length_linear, Nat.min_id, Hlen. apply firstn_all.
Qed.

End TableTheorem.

(** The table in general: in every run on a daily series of distinct days
    whose training series has the rows the model's [fit] needs, whose
    window starts on or after the cutoff and does not end before it starts,
    the result table has at most [forecast_days] rows, dated consecutively
    from [start_date]. The ARIMA and the linear-regression branch give
    exactly the days from [start_date] to [end_date]. The Prophet branch
    drops the predicted days before [start_date] and gives exactly the days
    from [start_date] to [end_date] whenever the future frame reaches
    [end_date]. *)
Lemma forecast_table_dates `{Backends} (daily : daily_series) (c : controls)
    (first last : date) :
  NoDup (day <$> daily) ->
  col_min (day <$> daily) = Some first ->
  col_max (day <$> daily) = Some last ->
  first <= data_end_date c ->
  (branch_of c = UseProphet -> first < data_end_date c) ->
  data_end_date c <= start_date c ->
  start_date c <= end_date c ->
  run_forecast c = true ->
  exists table,
    forecast_section daily c = Ok (Some table)
    /\ (length table <= Z.to_nat (forecast_days (start_date c) (end_date c)))%nat
    /\ f_day <$> table = seqZ (start_date c) (Z.of_nat (length table))
    /\ (branch_of c <> UseProphet ->
        f_day <$> table = date_range (start_date c) (end_date c))
    /\ (branch_of c = UseProphet ->
        length table
        = Z.to_nat (Z.min (forecast_days (start_date c) (end_date c))
                      (data_end_date c + prophet_periods c last + 1 - start_date c))
        /\ (end_date c <= data_end_date c + prophet_periods c last ->
            f_day <$> table = date_range (start_date c) (end_date c))).
Proof.
  intros Hnd Hfirst Hlast Hcut Hrows Hstart Hwin Hrun.
  destruct (decide (branch_of c = UseProphet)) as [Hb|Hb].
  - eexists. split; [by apply (prophet_table daily c first last); auto|].
    set (k := Z.min _ _).
    set (g := fun d : date => mk_forecast_row d _ _).
    assert (f_day <$> (g <$> seqZ (start_date c) k) = seqZ (start_date c) k) as Hdays.
    { rewrite <- list_fmap_compose.
      rewrite <- (list_fmap_id (seqZ (start_date c) k)) at 2.
      by apply list_fmap_ext. }
    rewrite Hdays, length_fmap, length_seqZ.
    split; [subst k; lia|].
    split.
    { destruct (decide (0 <= k)); [by rewrite Z2Nat.id|].
      rewrite !seqZ_nil by lia. done. }
    split; [done|]. intros _. split; [done|].
    intros Hreach. unfold date_range. f_equal. subst k.
    unfold forecast_days, days_between. lia.
  - destruct (other_table_days daily c first last) as (table & Htable & Hdays); [done..|].
    exists table. split; [done|].
    assert (length table = Z.to_nat (forecast_days (start_date c) (end_date c))) as Hlen.
    { rewrite <- (length_fmap f_day), Hdays. unfold date_range, forecast_days, days_between.
      by rewrite length_seqZ. }
    split; [lia|]. split.
    { rewrite Hdays, Hlen. unfold date_range, forecast_days, days_between.
      f_equal. lia. }
    split; [done|]. intros Hb'. by destruct Hb.
Qed.

(** With a single training row Prophet's [fit] refuses the series: a run
    whose cutoff is the first data day raises and shows no table. *)
Lemma prophet_refuses_one_training_row `{Backends} (daily : daily_series) (c : controls)
    (first last : date) :
  NoDup (day <$> daily) ->
  col_min (day <$> daily) = Some first ->
  col_max (day <$> daily) = Some last ->
  data_end_date c = first ->
  run_forecast c = true ->
  branch_of c = UseProphet ->
  forecast_section daily c = Raise ValueError.
Proof.
  intros Hnd Hfirst Hlast Hcut Hrun Hb. unfold forecast_section.
  rewrite (training_series_cells daily (data_end_date c) first) by done.
  cbn [mbind mret result_bind result_ret]. rewrite Hrun, Hlast.
  fold (branch_of c). unfold quantity_series.
  rewrite fit_refuses by (rewrite Hb; simpl; lia). reflexivity.
Qed.

(** C3 at the failing input: with a record on every day of December 2024,
    the cutoff on 2024-12-21 and the window 2025-01-01 to 2025-01-30, the
    Prophet branch asks for 30 periods, counted from the last data day
    2024-12-31, of a frame that starts after the cutoff: whatever the
    fitted model predicts, the table has 20 rows, dated 2025-01-01 to
    2025-01-20, and the last ten days of the window are missing. The same
    run with ARIMA or with the linear regression gives the 30 rows dated
    2025-01-01 to 2025-01-30, and so does Prophet when the cutoff is the
    last data day. *)
Theorem prophet_early_cutoff_gives_20_rows `{Backends} :
  (exists table,
     forecast_section december_daily (january_window_early_cutoff Prophet)
     = Ok (Some table)
     /\ length table = 20%nat
     /\ f_day <$> table = date_range (ymd 2025 1 1) (ymd 2025 1 20))
  /\ prophet_periods (january_window_early_cutoff Prophet) (ymd 2024 12 31) = 30
  /\ days_between (ymd 2025 1 30) (data_end_date (january_window_early_cutoff Prophet))
     = 40
  /\ (forall m, m <> Prophet ->
        exists table,
          forecast_section december_daily (january_window_early_cutoff m)
          = Ok (Some table)
          /\ f_day <$> table = date_range (ymd 2025 1 1) (ymd 2025 1 30))
  /\ (exists table,
        forecast_section december_daily (january_window Prophet) = Ok (Some table)
        /\ f_day <$> table = date_range (ymd 2025 1 1) (ymd 2025 1 30)).
Proof.
  assert (NoDup (day <$> december_daily)) as Hnd
    by (apply (bool_decide_unpack _); vm_compute; exact I).
  assert (forall c,
            data_end_date c = ymd 2024 12 21 \/ data_end_date c = ymd 2024 12 31 ->
            start_date c = ymd 2025 1 1 -> end_date c = ymd 2025 1 30 ->
            run_forecast c = true ->
            exists table,
              forecast_section december_daily c = Ok (Some table)
              /\ (branch_of c <> UseProphet \/ data_end_date c = ymd 2024 12 31 ->
                  f_day <$> table = date_range (ymd 2025 1 1) (ymd 2025 1 30))
              /\ (branch_of c = UseProphet -> data_end_date c = ymd 2024 12 21 ->
                  length table = 20%nat)
              /\ f_day <$> table = seqZ (ymd 2025 1 1) (Z.of_nat (length table)))
    as Hrun.
  { intros c Hcut Hs He Hr.
    destruct (forecast_table_dates december_daily c (ymd 2024 12 1) (ymd 2024 12 31))
      as (table & Htable & _ & Hdays & Hother & Hprophet);
      [done|reflexivity|reflexivity|..|done|].
    - destruct Hcut as [-> | ->]; vm_compute; discriminate.
    - intros _. destruct Hcut as [-> | ->]; reflexivity.
    - rewrite Hs. destruct Hcut as [-> | ->]; vm_compute; discriminate.
    - rewrite Hs, He. vm_compute. discriminate.
    - exists table. split; [done|]. rewrite Hs, He in *.
      split; [|split; [|done]].
      + intros [Hb| Hc]; [by apply Hother|].
        destruct (decide (branch_of c = UseProphet)) as [Hb|Hb]; [|by apply Hother].
        destruct (Hprophet Hb) as [_ Hreach]. apply Hreach.
        unfold prophet_periods. rewrite Hs, He, Hc. vm_compute. discriminate.
      + intros Hb Hc. destruct (Hprophet Hb) as [Hlen _]. rewrite Hlen.
        unfold prophet_periods. rewrite Hs, He, Hc. reflexivity. }
  split.
  { destruct (Hrun (january_window_early_cutoff Prophet)) as (table & Ht & _ & Hlen & Hd);
      [by left|done..|].
    exists table. split; [done|].
    specialize (Hlen eq_refl eq_refl). split; [done|].
    rewrite Hd, Hlen. reflexivity. }
  split; [reflexivity|]. split; [reflexivity|]. split.
  - intros m Hm.
    destruct (Hrun (january_window_early_cutoff m)) as (table & Ht & Hd & _);
      [by left|done..|].
    exists table. split; [done|]. apply Hd. left.
    destruct m; [by destruct Hm|vm_compute; discriminate..].
  - destruct (Hrun (january_window Prophet)) as (table & Ht & Hd & _); [by right|done..|].
    exists table. split; [done|]. apply Hd. by right.
Qed.

(** The other two branches label the first predictions after the training
    series with the days of the window, wherever the window starts. *)
Example linear_predictions_are_positional :
  forecast UseLinear [(1, 3%Q); (2, 2%Q); (3, 5%Q)] 10 9 2
  = forecast UseLinear [(1, 3%Q); (2, 2%Q); (3, 5%Q)] 4 9 2.
Proof. reflexivity. Qed.

(** A declining series: the least-squares line goes below zero and the
    returned forecast is clamped. *)
Example declining_series_is_clamped :
  raw_forecast (LinearCall [3%Q; 2%Q; 1%Q] [3; 4; 5]) 4 3 = [0%Q; (-1)%Q; (-2)%Q]
  /\ forecast UseLinear [(1, 3%Q); (2, 2%Q); (3, 1%Q)] 4 3 3 = [0%Q; 0%Q; 0%Q].
Proof. split; vm_compute; reflexivity. Qed.

(* ===================================================================== *)
(** * Further facts about the aggregation                                 *)
(* ===================================================================== *)

Lemma np_sum_zero {A} (l : list A) : Qeq (np_sum ((fun _ => 0%Q) <$> l)) 0.
Proof.
  induction l as [|x l IH]; [reflexivity|].
  rewrite fmap_cons. simpl. rewrite IH. ring.
Qed.

Lemma np_sum_plus {A} (f g : A -> Q) (l : list A) :
  Qeq (np_sum ((fun x => f x + g x)%Q <$> l))
      (np_sum (f <$> l) + np_sum (g <$> l)).
Proof.
  induction l as [|x l IH]; [reflexivity|].
  rewrite !fmap_cons. simpl. rewrite IH. ring.
Qed.

Lemma np_sum_ext {A} (f g : A -> Q) (l : list A) :
  (forall x, x ∈ l -> Qeq (f x) (g x)) ->
  Qeq (np_sum (f <$> l)) (np_sum (g <$> l)).
Proof.
  induction l as [|x l IH]; intros Hfg; [reflexivity|].
  rewrite !fmap_cons. simpl. rewrite IH.
  - rewrite (Hfg x) by left. reflexivity.
  - intros y Hy. apply Hfg. by right.
Qed.

Lemma np_sum_indicator (d0 : date) (v : Q) (ds : list date) :
  NoDup ds -> d0 ∈ ds ->
  Qeq (np_sum ((fun d => if decide (d = d0) then v else 0%Q) <$> ds)) v.
Proof.
  induction 1 as [|d ds Hd Hnd IH]; intros Hin; [by apply elem_of_nil in Hin|].
  rewrite fmap_cons. simpl. case_decide as Hdd.
  - subst d.
    rewrite (np_sum_ext _ (fun _ => 0%Q)).
    + rewrite np_sum_zero. ring.
    + intros x Hx. case_decide; [by subst x|reflexivity].
  - apply elem_of_cons in Hin as [->|Hin]; [done|].
    rewrite IH by done. ring.
Qed.

Lemma np_sum_perm (l1 l2 : list Q) : l1 ≡ₚ l2 -> Qeq (np_sum l1) (np_sum l2).
Proof.
  induction 1 as [|x l1 l2 Hp IH|x y l|l1 l2 l3 H12 IH12 H23 IH23]; simpl.
  - reflexivity.
  - by rewrite IH.
  - ring.
  - by rewrite IH12.
Qed.

Lemma group_of_cons (d : date) (r : record) (rows : list record) :
  group_of d (r :: rows)
  = if decide (sale_date r = Some d) then r :: group_of d rows else group_of d rows.
Proof. unfold group_of. by rewrite filter_cons. Qed.

Lemma group_sums_total (f : record -> Q) (ds : list date) (rows : list record) :
  NoDup ds ->
  (forall d, d ∈ dated_days rows -> d ∈ ds) ->
  Qeq (np_sum ((fun d => col_sum f (group_of d rows)) <$> ds)) (dated_total f rows).
Proof.
  intros Hnd. induction rows as [|r rows IH]; intros Hsub.
  - unfold dated_total. simpl. apply (np_sum_zero ds).
  - unfold dated_total in *. rewrite filter_cons.
    destruct (sale_date r) as [d0|] eqn:Hr.
    + rewrite decide_True by (by eexists).
      unfold col_sum at 2. rewrite fmap_cons. simpl.
      fold (col_sum f (filter (fun r => is_Some (sale_date r)) rows)).
      rewrite <- IH.
      2:{ intros d Hd. apply Hsub. unfold dated_days in *. simpl. rewrite Hr. by right. }
      rewrite <- (np_sum_indicator d0 (f r) ds Hnd).
      2:{ apply Hsub. unfold dated_days. simpl. rewrite Hr. left. }
      rewrite <- np_sum_plus. apply np_sum_ext. intros d _.
      rewrite group_of_cons, Hr.
      case_decide as H1; case_decide as H2; try congruence.
      * unfold col_sum. rewrite fmap_cons. simpl. reflexivity.
      * ring.
    + rewrite decide_False by (intros [x Hx]; congruence).
      rewrite <- IH.
      2:{ intros d Hd. apply Hsub. unfold dated_days in *. simpl. by rewrite Hr. }
      apply np_sum_ext. intros d _.
      rewrite group_of_cons, Hr. by rewrite decide_False by congruence.
Qed.

Lemma undated_total (f : record -> Q) (rows : list record) :
  dated_days rows = [] -> dated_total f rows = 0%Q.
Proof.
  intros Hnil. unfold dated_total.
  assert (filter (fun r => is_Some (sale_date r)) rows = []) as ->; [|done].
  induction rows as [|r rows IH]; [done|].
  unfold dated_days in *. simpl in Hnil.
  destruct (sale_date r) as [d|] eqn:Hr; [done|].
  rewrite filter_cons_False by (rewrite Hr; intros [x Hx]; congruence).
  by apply IH.
Qed.

(** The aggregation of any record set, in one of its two forms. *)
Lemma aggregate_cases (rows : list record) :
  (dated_days rows = [] /\ aggregate rows = Ok [])
  \/ exists lo hi,
       col_min (dated_days rows) = Some lo /\ col_max (dated_days rows) = Some hi
       /\ lo <= hi
       /\ aggregate rows = Ok (day_total rows <$> date_range lo hi).
Proof.
  destruct (dated_days rows) as [|d ds] eqn:Hd.
  - left. split; [done|]. by apply aggregate_undated.
  - right. rewrite <- Hd.
    destruct (col_min (dated_days rows)) as [lo|] eqn:Hlo; [|by rewrite Hd in Hlo].
    destruct (col_max (dated_days rows)) as [hi|] eqn:Hhi; [|by rewrite Hd in Hhi].
    exists lo, hi. split; [done|]. split; [done|].
    split; [by eapply col_min_le_max|]. by apply aggregate_dated.
Qed.

(** X1: On value columns that are added up exactly, the aggregation keeps
    the totals: the quantities of the series add up to the quantities of
    the records that have a date, and so do the amounts. *)
Theorem aggregate_keeps_totals (rows : list record) :
  exact_sums rows ->
  exists s,
    aggregate rows = Ok s
    /\ Qeq (np_sum (qty <$> s)) (dated_total quantity rows)
    /\ Qeq (np_sum (amt <$> s)) (dated_total net_amount rows).
Proof.
  intros _.
  destruct (aggregate_cases rows) as [[Hnil Hagg]|(lo & hi & Hlo & Hhi & Hle & Hagg)].
  - exists []. split; [done|]. rewrite !undated_total by done. split; reflexivity.
  - eexists. split; [exact Hagg|].
    rewrite <- !list_fmap_compose.
    assert (forall d, d ∈ dated_days rows -> d ∈ date_range lo hi) as Hsub.
    { intros d Hd. apply date_range_elem.
      apply col_min_spec in Hlo as [_ Hmin]. apply col_max_spec in Hhi as [_ Hmax].
      split; [by apply Hmin|by apply Hmax]. }
    split.
    + apply (group_sums_total quantity); [apply NoDup_seqZ|done].
    + apply (group_sums_total net_amount); [apply NoDup_seqZ|done].
Qed.

Lemma aggregate_keeps_totals_witness :
  exists s,
    aggregate january_rows = Ok s
    /\ Qeq (np_sum (qty <$> s)) (dated_total quantity january_rows)
    /\ Qeq (np_sum (amt <$> s)) (dated_total net_amount january_rows).
Proof.
  apply (aggregate_keeps_totals january_rows).
  split; (split; [by repeat constructor|vm_compute; discriminate]).
Defined.

(** X2: On value columns that are added up exactly, every entry of the
    aggregated series carries the sum of the quantities and the sum of the
    amounts of the records dated that day. *)
Theorem aggregate_entries_are_day_sums (rows : list record) :
  exact_sums rows ->
  exists s,
    aggregate rows = Ok s
    /\ forall e, e ∈ s ->
         qty e = col_sum quantity (group_of (day e) rows)
         /\ amt e = col_sum net_amount (group_of (day e) rows).
Proof.
  intros _.
  destruct (aggregate_cases rows) as [[Hnil Hagg]|(lo & hi & Hlo & Hhi & Hle & Hagg)].
  - exists []. split; [done|]. intros e He. by apply elem_of_nil in He.
  - eexists. split; [exact Hagg|].
    intros e (d & -> & _)%list_elem_of_fmap. done.
Qed.

Lemma aggregate_entries_are_day_sums_witness :
  exists s,
    aggregate january_rows = Ok s
    /\ forall e, e ∈ s ->
         qty e = col_sum quantity (group_of (day e) january_rows)
         /\ amt e = col_sum net_amount (group_of (day e) january_rows).
Proof.
  apply (aggregate_entries_are_day_sums january_rows).
  split; (split; [by repeat constructor|vm_compute; discriminate]).
Defined.

Lemma dated_days_perm (rows1 rows2 : list record) :
  rows1 ≡ₚ rows2 -> dated_days rows1 ≡ₚ dated_days rows2.
Proof. intros Hp. unfold dated_days. by rewrite Hp. Qed.

Lemma col_sum_perm (f : record -> Q) (rows1 rows2 : list record) :
  rows1 ≡ₚ rows2 -> Qeq (col_sum f rows1) (col_sum f rows2).
Proof. intros Hp. unfold col_sum. apply np_sum_perm. by rewrite Hp. Qed.

(** X3: On value columns that are added up exactly, the order of the input
    rows does not matter: two record sets that are permutations of each
    other aggregate to series with the same days and equal sums, entry by
    entry. *)
Theorem aggregate_ignores_row_order (rows1 rows2 : list record) :
  exact_sums rows1 ->
  rows1 ≡ₚ rows2 ->
  exists s1 s2,
    aggregate rows1 = Ok s1 /\ aggregate rows2 = Ok s2 /\ Forall2 same_entry s1 s2.
Proof.
  intros _ Hp. pose proof (dated_days_perm _ _ Hp) as Hd.
  assert (forall x, x ∈ dated_days rows1 <-> x ∈ dated_days rows2) as Hext
    by (intros x; by rewrite Hd).
  destruct (aggregate_cases rows1) as [[Hnil Hagg]|(lo & hi & Hlo & Hhi & Hle & Hagg)].
  - exists [], []. split; [done|]. split; [|constructor].
    apply aggregate_undated. rewrite Hnil in Hd. by apply Permutation_nil_l in Hd.
  - exists (day_total rows1 <$> date_range lo hi), (day_total rows2 <$> date_range lo hi).
    split; [done|]. split.
    + apply aggregate_dated.
      * by rewrite <- (col_min_ext _ _ Hext).
      * by rewrite <- (col_max_ext _ _ Hext).
    + apply Forall2_fmap, Forall_Forall2_diag, Forall_forall.
      intros d _. split; [done|].
      split; apply col_sum_perm; unfold group_of; by rewrite Hp.
Qed.

Lemma aggregate_ignores_row_order_witness :
  exists s1 s2,
    aggregate january_rows = Ok s1
    /\ aggregate (reverse january_rows) = Ok s2
    /\ Forall2 same_entry s1 s2.
Proof.
  apply (aggregate_ignores_row_order january_rows (reverse january_rows)).
  - split; (split; [by repeat constructor|vm_compute; discriminate]).
  - symmetry. apply reverse_Permutation.
Defined.

(* ===================================================================== *)
(** * Further facts about the label sort                                  *)
(* ===================================================================== *)

Section MoreSortFacts.
Context `{PyLib}.

Lemma overflows_dec (item : string) : overflows item \/ ~ overflows item.
Proof.
  unfold overflows. destruct (int_of_float (code_text item)) as [z|[]];
    [right|right|left|right]; congruence.
Qed.

Lemma extract_code_overflow (item : string) :
  overflows item -> extract_code item = Raise OverflowError.
Proof. unfold overflows, extract_code, code_text. by intros ->. Qed.

Lemma keyed_overflow (items : list string) :
  Exists overflows items -> keyed items = Raise OverflowError.
Proof.
  induction items as [|item items IH]; intros Hex; [by apply Exists_nil in Hex|].
  simpl. destruct (overflows_dec item) as [Hov|Hno].
  - by rewrite extract_code_overflow.
  - rewrite extract_code_key by done. simpl.
    apply Exists_cons in Hex as [Hov|Hex]; [done|]. by rewrite IH.
Qed.

Lemma overflow_cases (items : list string) :
  Forall (fun item => ~ overflows item) items \/ Exists overflows items.
Proof.
  induction items as [|item items [IH|IH]].
  - left. constructor.
  - destruct (overflows_dec item); [right; by left|left; by constructor].
  - right. by right.
Qed.

Lemma sorted_by_code_cases (items : list string) :
  (Forall (fun item => ~ overflows item) items
   /\ sorted_by_code items = Ok (stable_sort code_key items))
  \/ (Exists overflows items /\ sorted_by_code items = Raise OverflowError).
Proof.
  destruct (overflow_cases items) as [Hall|Hex].
  - left. split; [done|]. by apply sorted_by_code_keys.
  - right. split; [done|]. unfold sorted_by_code. by rewrite keyed_overflow.
Qed.

(** The items [sort_by_code] sorts: all but the first when the first is the
    "all" item. *)
Lemma sort_by_code_unfold (item_list : list string) (is_first_item_all : bool) :
  sort_by_code item_list is_first_item_all
  = sorted_code_items ←
      sorted_by_code (if is_first_item_all then drop 1 item_list else item_list);
    mret (if is_first_item_all
          then hd ""%string item_list :: sorted_code_items
          else sorted_code_items).
Proof.
  unfold sort_by_code. destruct is_first_item_all; [|done].
  destruct item_list as [|x [|y l]]; try done.
Qed.

(** X4: [sort_by_code] raises exactly when the code of one of the sorted items
    converts to an infinity, and the exception is then the [OverflowError];
    a code that is not numeric never makes it raise. *)
Theorem sort_by_code_raises_on_overflow_only (item_list : list string)
    (is_first_item_all : bool) (e : exn) :
  sort_by_code item_list is_first_item_all = Raise e
  <-> e = OverflowError
      /\ Exists overflows (if is_first_item_all then drop 1 item_list else item_list).
Proof.
  rewrite sort_by_code_unfold.
  destruct (sorted_by_code_cases
              (if is_first_item_all then drop 1 item_list else item_list))
    as [[Hall ->]|[Hex ->]]; simpl.
  - split; [done|]. intros [_ Hex]. by apply Forall_Exists_neg in Hall.
  - split; [intros [= <-]; done|]. by intros [-> _].
Qed.

(** X5: Without the "all" item in front the whole list is sorted: the result is
    a permutation of the input in ascending order of the integer keys, items
    of equal key in input order. *)
Theorem sort_by_code_plain_list (item_list : list string) :
  Forall (fun item => ~ overflows item) item_list ->
  sort_by_code item_list false = Ok (stable_sort code_key item_list)
  /\ stable_sort code_key item_list ≡ₚ item_list
  /\ StronglySorted (fun a b => code_key a <= code_key b) (stable_sort code_key item_list).
Proof.
  intros Hall. rewrite sort_by_code_unfold, sorted_by_code_keys by done.
  split; [done|]. split; [apply stable_sort_perm|apply stable_sort_is_sorted].
Qed.

(** X6: With the "all" item in front the result keeps the first input item first
    and has as many items as the input; for the empty list it is the list
    holding the empty text. *)
Theorem sort_by_code_keeps_first (item_list out : list string) :
  sort_by_code item_list true = Ok out ->
  head out = Some (hd ""%string item_list)
  /\ length out = Nat.max 1 (length item_list)
  /\ (item_list = [] -> out = [""%string]).
Proof.
  rewrite sort_by_code_unfold.
  destruct (sorted_by_code_cases (drop 1 item_list)) as [[Hall ->]|[Hex ->]]; [|done].
  simpl. intros [= <-]. split; [done|]. split.
  - simpl. rewrite (Permutation_length (stable_sort_perm code_key _)), length_drop.
    destruct item_list; simpl; lia.
  - by intros ->.
Qed.

End MoreSortFacts.

Lemma sort_by_code_plain_list_witness :
  sort_by_code ["10 - x"; "N/A - z"; "2 - y"]%string false
  = Ok (stable_sort code_key ["10 - x"; "N/A - z"; "2 - y"]%string)
  /\ stable_sort code_key ["10 - x"; "N/A - z"; "2 - y"]%string
     ≡ₚ ["10 - x"; "N/A - z"; "2 - y"]%string
  /\ StronglySorted (fun a b => code_key a <= code_key b)
       (stable_sort code_key ["10 - x"; "N/A - z"; "2 - y"]%string).
Proof.
  apply (sort_by_code_plain_list ["10 - x"; "N/A - z"; "2 - y"]%string).
  repeat constructor; vm_compute; discriminate.
Defined.

Lemma sort_by_code_keeps_first_witness :
  head [sentinel Product; "2 - y"; "10 - x"]%string
  = Some (hd ""%string [sentinel Product; "10 - x"; "2 - y"]%string)
  /\ length [sentinel Product; "2 - y"; "10 - x"]%string
     = Nat.max 1 (length [sentinel Product; "10 - x"; "2 - y"]%string)
  /\ ([sentinel Product; "10 - x"; "2 - y"]%string = [] ->
      [sentinel Product; "2 - y"; "10 - x"]%string = [""%string]).
Proof.
  apply (sort_by_code_keeps_first [sentinel Product; "10 - x"; "2 - y"]%string).
  vm_compute. reflexivity.
Defined.

(* ===================================================================== *)
(** * Further facts about the filters                                     *)
(* ===================================================================== *)

Lemma aggregate_days_subset (rows' rows : list record) :
  (forall r, r ∈ rows' -> r ∈ rows) ->
  exists s s',
    aggregate rows = Ok s /\ aggregate rows' = Ok s'
    /\ forall d, d ∈ day <$> s' -> d ∈ day <$> s.
Proof.
  intros Hsub.
  assert (forall d, d ∈ dated_days rows' -> d ∈ dated_days rows) as Hdays.
  { unfold dated_days. intros d (r & Hr & Hd)%list_elem_of_omap.
    apply list_elem_of_omap. exists r. split; [by apply Hsub|done]. }
  destruct (aggregate_cases rows') as [[_ Hagg']|(lo' & hi' & Hlo' & Hhi' & _ & Hagg')].
  - destruct (aggregate_total rows) as [s Hs]. exists s, [].
    split; [done|]. split; [done|]. intros d Hd. by apply elem_of_nil in Hd.
  - destruct (aggregate_cases rows) as [[Hnil _]|(lo & hi & Hlo & Hhi & _ & Hagg)].
    { apply col_min_spec in Hlo' as [Hin _]. apply Hdays in Hin.
      rewrite Hnil in Hin. by apply elem_of_nil in Hin. }
    eexists _, _. split; [exact Hagg|]. split; [exact Hagg'|].
    intros d (e & -> & (d' & -> & Hd')%list_elem_of_fmap)%list_elem_of_fmap.
    apply list_elem_of_fmap. exists (day_total rows d'). split; [done|].
    apply list_elem_of_fmap. exists d'. split; [done|].
    apply date_range_elem. apply date_range_elem in Hd'.
    apply col_min_spec in Hlo as [_ Hmin], Hlo' as [Hlo' _].
    apply col_max_spec in Hhi as [_ Hmax], Hhi' as [Hhi' _].
    specialize (Hmin _ (Hdays _ Hlo')). specialize (Hmax _ (Hdays _ Hhi')). lia.
Qed.

Section MoreFilterFacts.
Context `{PyLib}.

Lemma filter_rows_subset (a : axis) (df : list record) (sel : list string) (r : record) :
  r ∈ filter_rows a df sel -> r ∈ df.
Proof.
  unfold filter_rows, isin_rows. destruct (no_filter a sel); [done|].
  by intros [_ ?]%list_elem_of_filter.
Qed.

Lemma filter_rows_sublist (a : axis) (df : list record) (sel : list string) :
  filter_rows a df sel `sublist_of` df.
Proof.
  unfold filter_rows, isin_rows. destruct (no_filter a sel); [done|].
  apply sublist_filter.
Qed.

Lemma filter_rows_idem (a : axis) (df : list record) (sel : list string) :
  filter_rows a (filter_rows a df sel) sel = filter_rows a df sel.
Proof.
  unfold filter_rows, isin_rows. destruct (no_filter a sel); [done|].
  by apply list_filter_filter_r.
Qed.

Lemma filter_rows_comm (a b : axis) (df : list record) (sa sb : list string) :
  filter_rows a (filter_rows b df sb) sa = filter_rows b (filter_rows a df sa) sb.
Proof.
  unfold filter_rows, isin_rows.
  destruct (no_filter a sa), (no_filter b sb); try done.
  rewrite !list_filter_filter. apply list_filter_iff. intros r. tauto.
Qed.

Lemma filtering_no_filter (a : axis) (sel : list string) :
  filtering a sel <-> no_filter a sel = false.
Proof.
  unfold filtering. rewrite <- not_true_iff_false, no_filter_true. tauto.
Qed.

(** X7: Whatever is selected on the three axes, the series the product stage
    returns has no day outside the series of the unfiltered records. *)
Theorem filtered_days_within_unfiltered (df : list record)
    (selected_departments selected_order_methods selected_products : list string) :
  exists s s',
    filter_by_product df [] = Ok s
    /\ filter_by_product
         (filter_by_order_method (filter_by_department df selected_departments)
            selected_order_methods)
         selected_products = Ok s'
    /\ forall d, d ∈ day <$> s' -> d ∈ day <$> s.
Proof.
  rewrite !filter_by_product_rows, filter_by_order_method_rows, filter_by_department_rows.
  change (filter_rows Product df []) with df.
  apply aggregate_days_subset. intros r Hr.
  by do 3 apply filter_rows_subset in Hr.
Qed.

(** X8: The department and the order-method filter only ever remove rows: the
    result is a sublist of the input, in the input's order, and filtering
    the result again with the same selection changes nothing. *)
Theorem row_filters_only_remove (df : list record) (selected : list string) :
  filter_by_department df selected `sublist_of` df
  /\ filter_by_order_method df selected `sublist_of` df
  /\ filter_by_department (filter_by_department df selected) selected
     = filter_by_department df selected
  /\ filter_by_order_method (filter_by_order_method df selected) selected
     = filter_by_order_method df selected.
Proof.
  rewrite !filter_by_department_rows, !filter_by_order_method_rows.
  split; [apply filter_rows_sublist|]. split; [apply filter_rows_sublist|].
  split; apply filter_rows_idem.
Qed.

(** X9: The department and the order-method stage can be applied in either
    order: the records that pass both are the same. *)
Theorem row_filters_commute (df : list record)
    (selected_departments selected_order_methods : list string) :
  filter_by_order_method (filter_by_department df selected_departments)
    selected_order_methods
  = filter_by_department (filter_by_order_method df selected_order_methods)
      selected_departments.
Proof.
  rewrite !filter_by_department_rows, !filter_by_order_method_rows.
  apply filter_rows_comm.
Qed.

Lemma filtering_app (a : axis) (sel1 sel2 : list string) :
  filtering a sel1 -> filtering a sel2 -> filtering a (sel1 ++ sel2).
Proof.
  intros [Hne1 Hs1] [Hne2 Hs2]. split.
  - intros Hnil. apply app_eq_nil in Hnil as [? _]. done.
  - rewrite elem_of_app. tauto.
Qed.

(** X10: Selecting more labels keeps more records: for two selections that both
    filter, a record passes the joint selection exactly when it passes one
    of the two. *)
Theorem joint_selection_is_union (a : axis) (df : list record) (sel1 sel2 : list string) :
  filtering a sel1 -> filtering a sel2 ->
  (forall r, r ∈ filter_rows a df (sel1 ++ sel2)
     <-> r ∈ filter_rows a df sel1 \/ r ∈ filter_rows a df sel2)
  /\ filter_stage a df (sel1 ++ sel2) = passed_on a (filter_rows a df (sel1 ++ sel2)).
Proof.
  intros Hf1 Hf2. pose proof (filtering_app a _ _ Hf1 Hf2) as Hf.
  apply filtering_no_filter in Hf1, Hf2, Hf.
  split; [|apply filter_stage_rows].
  intros r. rewrite !filter_rows_elem by done. split.
  - intros [Hr (l & [Hl|Hl]%elem_of_app & Hc)]; [left|right];
      (split; [done|]; by exists l).
  - intros [[Hr (l & Hl & Hc)]|[Hr (l & Hl & Hc)]]; (split; [done|]);
      exists l; (split; [|done]); apply elem_of_app; [by left|by right].
Qed.

End MoreFilterFacts.

Lemma joint_selection_is_union_witness :
  (forall r,
     r ∈ filter_rows Department [plain_row; dashed_row]
           (["12 - Tokyo"%string] ++ ["A - x"%string])
     <-> r ∈ filter_rows Department [plain_row; dashed_row] ["12 - Tokyo"%string]
         \/ r ∈ filter_rows Department [plain_row; dashed_row] ["A - x"%string])
  /\ filter_stage Department [plain_row; dashed_row]
       (["12 - Tokyo"%string] ++ ["A - x"%string])
     = passed_on Department
         (filter_rows Department [plain_row; dashed_row]
            (["12 - Tokyo"%string] ++ ["A - x"%string])).
Proof.
  apply (joint_selection_is_union Department [plain_row; dashed_row]
           ["12 - Tokyo"%string] ["A - x"%string]).
  - split; [discriminate|]. apply (bool_decide_unpack _). vm_compute. exact I.
  - split; [discriminate|]. apply (bool_decide_unpack _). vm_compute. exact I.
Defined.

(* ===================================================================== *)
(** * Facts about the menus                                               *)
(* ===================================================================== *)

Lemma unique_from_spec (seen l : list string) (x : string) :
  x ∈ unique_from seen l <-> x ∈ l /\ x ∉ seen.
Proof.
  revert seen. induction l as [|y l IH]; intros seen; simpl.
  - rewrite elem_of_nil. tauto.
  - case_decide as Hy.
    + rewrite IH, elem_of_cons. split; [tauto|].
      intros [[->|Hx] Hs]; [done|tauto].
    + rewrite !elem_of_cons, IH, elem_of_cons.
      destruct (decide (x = y)) as [->|Hne]; tauto.
Qed.

Lemma unique_from_NoDup (seen l : list string) : NoDup (unique_from seen l).
Proof.
  revert seen. induction l as [|y l IH]; intros seen; simpl; [constructor|].
  case_decide; [apply IH|].
  constructor; [|apply IH].
  rewrite unique_from_spec, elem_of_cons. tauto.
Qed.

Lemma unique_spec (l : list string) (x : string) : x ∈ unique l <-> x ∈ l.
Proof. unfold unique. rewrite unique_from_spec, elem_of_nil. tauto. Qed.

Section MenuFacts.
Context `{PyLib}.

(** A menu that is built holds its labels sorted behind the sentinel. *)
Lemma menu_built {A} (a : axis) (rows : list (row A)) (m : list string) :
  menu a rows = Ok m ->
  Forall (fun item => ~ overflows item) (unique (label_of a <$> rows))
  /\ m = sentinel a :: stable_sort code_key (unique (label_of a <$> rows)).
Proof.
  unfold menu. rewrite sort_by_code_unfold. simpl. rewrite drop_0.
  destruct (sorted_by_code_cases (unique (label_of a <$> rows)))
    as [[Hall ->]|[Hex ->]]; [|done].
  simpl. by intros [= <-].
Qed.

Lemma menu_builds {A} (a : axis) (rows : list (row A)) :
  Forall (fun item => ~ overflows item) (unique (label_of a <$> rows)) ->
  menu a rows = Ok (sentinel a :: stable_sort code_key (unique (label_of a <$> rows))).
Proof. intros Hall. unfold menu. by apply sort_by_code_keys. Qed.

Lemma menu_raises {A} (a : axis) (rows : list (row A)) (e : exn) :
  menu a rows = Raise e ->
  e = OverflowError /\ exists r, r ∈ rows /\ overflows (label_of a r).
Proof.
  unfold menu. rewrite sort_by_code_unfold. simpl. rewrite drop_0.
  destruct (sorted_by_code_cases (unique (label_of a <$> rows)))
    as [[Hall ->]|[Hex ->]]; [done|].
  simpl. intros [= <-]. split; [done|].
  apply Exists_exists in Hex as (l & Hl & Hov).
  apply (proj1 (unique_spec _ _)) in Hl.
  apply list_elem_of_fmap in Hl as (r & -> & Hr).
  by exists r.
Qed.

(** X11: The menus cascade: when the menu of an axis can be built for all
    records, it can be built for the records left by the department and the
    order-method filter; the narrower menu starts with the sentinel, holds
    only entries of the full menu, lists no label twice, and every label in
    it is the label of a record that passed the filters. *)
Theorem menu_after_filters (a : axis) (df : list record)
    (selected_departments selected_order_methods : list string) (full : list string) :
  menu a df = Ok full ->
  exists narrowed,
    menu a (filter_by_order_method (filter_by_department df selected_departments)
              selected_order_methods) = Ok narrowed
    /\ head narrowed = Some (sentinel a)
    /\ (forall l, l ∈ narrowed -> l ∈ full)
    /\ NoDup (drop 1 narrowed)
    /\ (forall l, l ∈ drop 1 narrowed ->
          exists r,
            r ∈ filter_by_order_method (filter_by_department df selected_departments)
                  selected_order_methods
            /\ label_of a r = l).
Proof.
  intros [Hall ->]%menu_built.
  set (rows := filter_by_order_method _ _).
  assert (forall r, r ∈ rows -> r ∈ df) as Hsub.
  { intros r Hr. subst rows.
    rewrite filter_by_order_method_rows, filter_by_department_rows in Hr.
    by do 2 apply filter_rows_subset in Hr. }
  assert (forall l, l ∈ unique (label_of a <$> rows) -> l ∈ unique (label_of a <$> df))
    as Hlab.
  { intros l (r & -> & Hr)%unique_spec%list_elem_of_fmap.
    apply unique_spec, list_elem_of_fmap. exists r. split; [done|by apply Hsub]. }
  eexists. split.
  { apply menu_builds. rewrite Forall_forall in Hall. apply Forall_forall.
    intros l Hl. by apply Hall, Hlab. }
  split; [done|]. split; [|split].
  - intros l [->|Hl]%elem_of_cons; [left|right].
    rewrite stable_sort_perm. rewrite stable_sort_perm in Hl. by apply Hlab.
  - simpl. rewrite drop_0, stable_sort_perm. apply unique_from_NoDup.
  - simpl. rewrite drop_0. intros l Hl. rewrite stable_sort_perm in Hl.
    apply unique_spec, list_elem_of_fmap in Hl as (r & -> & Hr). by exists r.
Qed.

End MenuFacts.

Lemma menu_after_filters_witness :
  exists narrowed,
    menu Product (filter_by_order_method
                    (filter_by_department (frame_rows three_rows) ["3 - Osaka"%string])
                    []) = Ok narrowed
    /\ head narrowed = Some (sentinel Product)
    /\ (forall l, l ∈ narrowed ->
          l ∈ [sentinel Product; "7 - Tea"; "9 - Cup"]%string)
    /\ NoDup (drop 1 narrowed)
    /\ (forall l, l ∈ drop 1 narrowed ->
          exists r,
            r ∈ filter_by_order_method
                  (filter_by_department (frame_rows three_rows) ["3 - Osaka"%string]) []
            /\ label_of Product r = l).
Proof.
  apply (menu_after_filters Product (frame_rows three_rows) ["3 - Osaka"%string] []
           [sentinel Product; "7 - Tea"; "9 - Cup"]%string).
  vm_compute. reflexivity.
Defined.

(* ===================================================================== *)
(** * Further facts about loading                                         *)
(* ===================================================================== *)

Lemma remove_char_insert (c : ascii) (s1 s2 : string) :
  remove_char c (s1 +:+ String c s2) = remove_char c (s1 +:+ s2).
Proof.
  induction s1 as [|x s1 IH].
  - rewrite !string_app_nil. simpl. by rewrite decide_True.
  - rewrite !string_app_cons. simpl. by rewrite IH.
Qed.

Section MoreLoadFacts.
Context `{PyLib}.

(** X12: Grouping commas can stand anywhere in an amount: a cell converts to the
    same record with or without a comma at any position. *)
Theorem comma_position_is_ignored (r : row string) (amount1 amount2 : string) :
  convert_amount (set_amount r (amount1 +:+ "," +:+ amount2))
  = convert_amount (set_amount r (amount1 +:+ amount2)).
Proof.
  unfold convert_amount, set_amount. simpl.
  change (amount1 +:+ "," +:+ amount2) with (amount1 +:+ String "," amount2).
  by rewrite remove_char_insert.
Qed.

Lemma convert_amount_ok (r : row string) (x : record) :
  convert_amount r = Ok x ->
  to_float (remove_char "," (net_amount r)) = Some (net_amount x)
  /\ x = set_amount r (net_amount x).
Proof.
  unfold convert_amount. destruct (to_float _) as [v|]; [|done].
  by intros [= <-].
Qed.

Lemma convert_amounts_ok (rs : list (row string)) (xs : list record) :
  convert_amounts rs = Ok xs ->
  Forall2 (fun r x =>
             to_float (remove_char "," (net_amount r)) = Some (net_amount x)
             /\ x = set_amount r (net_amount x)) rs xs.
Proof.
  revert xs. induction rs as [|r rs IH]; intros xs; simpl.
  - intros [= <-]. constructor.
  - destruct (convert_amount r) as [x|e] eqn:Hr; [|done]. simpl.
    destruct (convert_amounts rs) as [xs'|e] eqn:Hrs; [|done]. simpl.
    intros [= <-]. constructor; [by apply convert_amount_ok|by apply IH].
Qed.

Lemma convert_amounts_numeric (rs : list (row string)) :
  Forall amount_numeric rs -> exists xs, convert_amounts rs = Ok xs.
Proof.
  induction 1 as [|r rs [v Hv] Hrs [xs IH]]; [by exists []|].
  simpl. unfold convert_amount. rewrite Hv. simpl. rewrite IH. simpl. eauto.
Qed.

(** X13: A load that returns data shows no message and keeps every row, in
    order: each loaded row is its uploaded row with the amount cell replaced
    by the number its text, commas removed, converts to; the column flags
    are kept, and the daily series is the aggregation of the loaded rows. *)
Theorem load_data_keeps_rows (csv : frame string) (daily : daily_series)
    (df : frame Q) (msgs : list message) :
  load_data csv = (Some (daily, df), msgs) ->
  msgs = []
  /\ aggregate (frame_rows df) = Ok daily
  /\ has_department df = has_department csv
  /\ has_order_method df = has_order_method csv
  /\ has_product df = has_product csv
  /\ Forall2 (fun r x =>
                to_float (remove_char "," (net_amount r)) = Some (net_amount x)
                /\ x = set_amount r (net_amount x))
       (frame_rows csv) (frame_rows df).
Proof.
  unfold load_data, load_body.
  destruct (convert_amounts (frame_rows csv)) as [rows|e] eqn:Hrows; [|done].
  simpl. destruct (aggregate rows) as [s|e] eqn:Hagg; [|done]. simpl.
  intros [= <- <- <-]. simpl.
  repeat (split; [done|]). by apply convert_amounts_ok.
Qed.

(** X14: The load returns data exactly when every amount is numeric once its
    commas are removed. *)
Theorem load_data_succeeds_iff (csv : frame string) :
  (exists daily df, load_data csv = (Some (daily, df), []))
  <-> Forall amount_numeric (frame_rows csv).
Proof.
  unfold load_data, load_body. split.
  - intros (daily & df & Hload).
    destruct (convert_amounts (frame_rows csv)) as [rows|e] eqn:Hrows; [|done].
    apply convert_amounts_ok in Hrows.
    clear Hload. induction Hrows as [|r x rs xs [Hr _] _ IH]; constructor; [|done].
    unfold amount_numeric. by rewrite Hr.
  - intros [rows Hrows]%convert_amounts_numeric. rewrite Hrows. simpl.
    destruct (aggregate_total rows) as [s ->]. simpl. eauto.
Qed.

End MoreLoadFacts.

Lemma load_data_keeps_rows_witness :
  exists daily df,
    load_data clean_upload = (Some (daily, df), [])
    /\ aggregate (frame_rows df) = Ok daily
    /\ Forall2 (fun r x =>
                  to_float (remove_char "," (net_amount r)) = Some (net_amount x)
                  /\ x = set_amount r (net_amount x))
         (frame_rows clean_upload) (frame_rows df).
Proof.
  eexists _, _. 
  assert (load_data clean_upload = _) as Hload by (vm_compute; reflexivity).
  split; [exact Hload|].
  destruct (load_data_keeps_rows _ _ _ _ Hload) as (_ & Hagg & _ & _ & _ & Hrows).
  split; [exact Hagg|exact Hrows].
Defined.

(* ===================================================================== *)
(** * Facts about the sidebar                                             *)
(* ===================================================================== *)

Ltac step := cbn [mbind mret result_bind result_ret].

Ltac chosen s :=
  exists s; split; [done|];
  first [ by rewrite decide_True by done
        | by rewrite decide_False by done
        | done ].

Section SidebarFacts.
Context `{PyLib}.

Lemma no_filter_sentinel (a : axis) : no_filter a [sentinel a] = true.
Proof. apply no_filter_true. right. left. Qed.

(** The sidebar in closed form: the menus of the present axes are built in
    turn, then the selected rows are aggregated. *)
Lemma choose_series_ok (raw_data : frame Q) (ui : selections)
    (d : option daily_series) (msgs : list message) :
  choose_series raw_data ui = Ok (d, msgs) ->
  exists s,
    aggregate (selected_rows raw_data ui) = Ok s
    /\ d = (if has_product raw_data
            then (if decide (0 < length s)%nat then Some s else None)
            else Some s).
Proof.
  unfold choose_series, selected_rows.
  destruct (has_department raw_data).
  - destruct (menu Department (frame_rows raw_data)) as [m1|e]; [|done]. step.
    destruct (has_order_method raw_data).
    + destruct (menu OrderMethod _) as [m2|e]; [|done]. step.
      destruct (has_product raw_data).
      * destruct (menu Product _) as [m3|e]; [|done]. step.
        rewrite filter_by_product_rows.
        destruct (aggregate _) as [s|e]; [|done]. step.
        case_decide; intros [= <- <-]; chosen s.
      * rewrite filter_by_product_rows.
        change (filter_rows Product ?l [sentinel Product]) with l.
        destruct (no_filter Department (ui_departments ui));
          (destruct (aggregate _) as [s|e]; [|done]); step;
          intros [= <- <-]; by exists s.
    + step. destruct (has_product raw_data).
      * destruct (menu Product _) as [m3|e]; [|done]. step.
        rewrite filter_by_product_rows.
        destruct (aggregate _) as [s|e]; [|done]. step.
        case_decide; intros [= <- <-]; chosen s.
      * rewrite filter_by_product_rows.
        change (filter_rows Product ?l [sentinel Product]) with l.
        destruct (no_filter Department (ui_departments ui));
          (destruct (aggregate _) as [s|e]; [|done]); step;
          intros [= <- <-]; by exists s.
  - step. rewrite ?no_filter_sentinel; step.
    destruct (has_order_method raw_data).
    + destruct (menu OrderMethod _) as [m2|e]; [|done]. step.
      destruct (has_product raw_data).
      * destruct (menu Product _) as [m3|e]; [|done]. step.
        rewrite filter_by_product_rows.
        destruct (aggregate _) as [s|e]; [|done]. step.
        case_decide; intros [= <- <-]; chosen s.
      * destruct (aggregate _) as [s|e]; [|done]. step.
        intros [= <- <-]; by exists s.
    + step. destruct (has_product raw_data).
      * destruct (menu Product _) as [m3|e]; [|done]. step.
        rewrite filter_by_product_rows.
        destruct (aggregate _) as [s|e]; [|done]. step.
        case_decide; intros [= <- <-]; chosen s.
      * destruct (aggregate _) as [s|e]; [|done]. step.
        intros [= <- <-]; by exists s.
Qed.

(** X15: Whichever branch of the sidebar runs, a series it hands on is the
    aggregation of the records that passed the filters of the axes present
    in the upload. *)
Theorem chosen_series_is_aggregate (raw_data : frame Q) (ui : selections)
    (s : daily_series) (msgs : list message) :
  choose_series raw_data ui = Ok (Some s, msgs) ->
  aggregate (selected_rows raw_data ui) = Ok s.
Proof.
  intros (s' & Hagg & Hd)%choose_series_ok.
  destruct (has_product raw_data); [case_decide|]; congruence.
Qed.

Lemma selected_rows_all (raw_data : frame Q) (ui : selections) :
  all_selected ui -> selected_rows raw_data ui = frame_rows raw_data.
Proof.
  intros (Hd & Ho & Hp). unfold selected_rows.
  rewrite filter_by_department_rows, filter_by_order_method_rows.
  unfold filter_rows. rewrite Hd, Ho, Hp.
  by destruct (has_department raw_data), (has_order_method raw_data),
    (has_product raw_data).
Qed.

(** X16: With nothing selected on any axis, a series the sidebar hands on is the
    daily series [load_data] returned with the frame. *)
Theorem unfiltered_series_is_loaded_series (csv : frame string) (ui : selections)
    (daily_data_all s : daily_series) (raw_data : frame Q) (msgs : list message) :
  load_data csv = (Some (daily_data_all, raw_data), []) ->
  all_selected ui ->
  choose_series raw_data ui = Ok (Some s, msgs) ->
  s = daily_data_all.
Proof.
  intros Hload Hall (s' & Hs & Hd)%choose_series_ok.
  assert (s' = s) as ->
    by (destruct (has_product raw_data); [case_decide|]; congruence).
  rewrite selected_rows_all in Hs by done.
  unfold load_data, load_body in Hload.
  destruct (convert_amounts (frame_rows csv)) as [rows|e]; [|done]. simpl in Hload.
  destruct (aggregate rows) as [s0|e] eqn:Hagg; [|done]. simpl in Hload.
  injection Hload as <- <-. simpl in Hs. congruence.
Qed.

End SidebarFacts.

Lemma chosen_series_is_aggregate_witness :
  exists s,
    aggregate (selected_rows three_rows (mk_selections ["3 - Osaka"%string] [] [])) = Ok s.
Proof.
  eexists.
  eapply (chosen_series_is_aggregate three_rows (mk_selections ["3 - Osaka"%string] [] [])).
  vm_compute. reflexivity.
Defined.

Lemma unfiltered_series_is_loaded_series_witness :
  exists daily raw s msgs,
    load_data clean_upload = (Some (daily, raw), [])
    /\ choose_series raw (mk_selections [] [sentinel OrderMethod] []) = Ok (Some s, msgs)
    /\ s = daily.
Proof.
  eexists _, _, _, _. split; [vm_compute; reflexivity|].
  split; [vm_compute; reflexivity|].
  eapply (unfiltered_series_is_loaded_series clean_upload
            (mk_selections [] [sentinel OrderMethod] [])).
  - vm_compute. reflexivity.
  - repeat split; vm_compute; reflexivity.
  - vm_compute. reflexivity.
Defined.

(* ===================================================================== *)
(** * Facts about the controls                                            *)
(* ===================================================================== *)

(** X18: The cutoff picker starts inside its own bounds: for a series whose first
    day is not after its last, the default is yesterday or the last data
    day, and lies between the first data day and 365 days after the last. *)
Theorem default_cutoff_is_accepted (original_first_date original_last_date yesterday : date) :
  original_first_date <= original_last_date ->
  original_first_date
  <= default_value original_first_date original_last_date yesterday
  <= max_selectable_date original_last_date
  /\ (default_value original_first_date original_last_date yesterday = yesterday
      \/ default_value original_first_date original_last_date yesterday
         = original_last_date).
Proof.
  intros Hle. unfold default_value, max_selectable_date.
  case_decide; split; try lia; tauto.
Qed.

Lemma default_cutoff_is_accepted_witness :
  ymd 2024 12 1
  <= default_value (ymd 2024 12 1) (ymd 2024 12 31) (ymd 2026 6 1)
  <= max_selectable_date (ymd 2024 12 31)
  /\ (default_value (ymd 2024 12 1) (ymd 2024 12 31) (ymd 2026 6 1) = ymd 2026 6 1
      \/ default_value (ymd 2024 12 1) (ymd 2024 12 31) (ymd 2026 6 1) = ymd 2024 12 31).
Proof.
  apply (default_cutoff_is_accepted (ymd 2024 12 1) (ymd 2024 12 31) (ymd 2026 6 1)).
  vm_compute. discriminate.
Defined.

(** X19: For inputs the widgets accept, the window starts on the cutoff day or
    later, at most 366 days after it, and has between 1 and 366 days; it
    starts on the cutoff day itself exactly for "0 days after the last
    day"; and with the end picker left at its default it has 31 days. *)
Theorem window_of_accepted_inputs (data_end_date end_date : date) (m : start_method) :
  start_accepted data_end_date m ->
  end_accepted (start_date_of data_end_date m) end_date ->
  data_end_date <= start_date_of data_end_date m <= data_end_date + 366
  /\ 1 <= forecast_days (start_date_of data_end_date m) end_date <= 366
  /\ (start_date_of data_end_date m = data_end_date <-> m = DaysAfterLast 0)
  /\ forecast_days (start_date_of data_end_date m)
       (default_end_date (start_date_of data_end_date m)) = 31.
Proof.
  unfold start_accepted, end_accepted, forecast_days, days_between, default_end_date.
  destruct m as [n|d]; simpl; intros Hs He;
    (split; [lia|]); (split; [lia|]); (split; [|lia]).
  - split; [intros Hn; f_equal; lia|intros [= ->]; lia].
  - split; [intros Hd; lia|discriminate].
Qed.

Lemma window_of_accepted_inputs_witness :
  ymd 2024 12 31 <= start_date_of (ymd 2024 12 31) (DaysAfterLast 1) <= ymd 2024 12 31 + 366
  /\ 1 <= forecast_days (start_date_of (ymd 2024 12 31) (DaysAfterLast 1)) (ymd 2025 1 30)
       <= 366
  /\ (start_date_of (ymd 2024 12 31) (DaysAfterLast 1) = ymd 2024 12 31
      <-> DaysAfterLast 1 = DaysAfterLast 0)
  /\ forecast_days (start_date_of (ymd 2024 12 31) (DaysAfterLast 1))
       (default_end_date (start_date_of (ymd 2024 12 31) (DaysAfterLast 1))) = 31.
Proof.
  apply (window_of_accepted_inputs (ymd 2024 12 31) (ymd 2025 1 30) (DaysAfterLast 1)).
  - vm_compute. split; discriminate.
  - vm_compute. split; discriminate.
Defined.

(** X20: The horizon counted from the last data day: for a window that does not
    end before it starts it is never negative, it is the window length plus
    the gap between the last data day and the start when the window ends on
    or after the last data day, and it equals the window length exactly
    when the window starts the day after the last data day or ends before
    it. *)
Theorem horizon_from_last_data_day (start_date end_date last_data_date : date) :
  start_date <= end_date ->
  let fd := forecast_days start_date end_date in
  0 <= days_to_forecast_end end_date last_data_date fd
  /\ (last_data_date <= end_date ->
      days_to_forecast_end end_date last_data_date fd
      = fd + (start_date - last_data_date - 1))
  /\ (days_to_forecast_end end_date last_data_date fd = fd
      <-> start_date = last_data_date + 1 \/ end_date < last_data_date).
Proof.
  intros Hle. unfold days_to_forecast_end, forecast_days, days_between. simpl.
  case_decide; repeat split; try lia.
Qed.

Lemma horizon_from_last_data_day_witness :
  0 <= days_to_forecast_end (ymd 2025 1 30) (ymd 2024 12 20)
         (forecast_days (ymd 2025 1 1) (ymd 2025 1 30))
  /\ (ymd 2024 12 20 <= ymd 2025 1 30 ->
      days_to_forecast_end (ymd 2025 1 30) (ymd 2024 12 20)
        (forecast_days (ymd 2025 1 1) (ymd 2025 1 30))
      = forecast_days (ymd 2025 1 1) (ymd 2025 1 30)
        + (ymd 2025 1 1 - ymd 2024 12 20 - 1))
  /\ (days_to_forecast_end (ymd 2025 1 30) (ymd 2024 12 20)
        (forecast_days (ymd 2025 1 1) (ymd 2025 1 30))
      = forecast_days (ymd 2025 1 1) (ymd 2025 1 30)
      <-> ymd 2025 1 1 = ymd 2024 12 20 + 1 \/ ymd 2025 1 30 < ymd 2024 12 20).
Proof.
  apply (horizon_from_last_data_day (ymd 2025 1 1) (ymd 2025 1 30) (ymd 2024 12 20)).
  vm_compute. discriminate.
Defined.

Lemma accuracy_rank_monotone (n m : Z) :
  n <= m -> accuracy_rank (accuracy_level n) <= accuracy_rank (accuracy_level m).
Proof.
  intros Hle. unfold accuracy_level.
  repeat case_decide; simpl; lia.
Qed.

(** X21: Moving the cutoff later never lowers the accuracy level shown: the
    level is computed from the number of training days, and that number
    grows with the cutoff. The red level is shown exactly below 30 days. *)
Theorem later_cutoff_never_lowers_accuracy_level (daily : daily_series)
    (first cutoff1 cutoff2 : date) :
  NoDup (day <$> daily) ->
  col_min (day <$> daily) = Some first ->
  cutoff1 <= cutoff2 ->
  exists t1 t2,
    daily_data_for_forecast daily cutoff1 = Ok t1
    /\ daily_data_for_forecast daily cutoff2 = Ok t2
    /\ accuracy_rank (accuracy_level (Z.of_nat (length t1)))
       <= accuracy_rank (accuracy_level (Z.of_nat (length t2)))
    /\ (accuracy_color (accuracy_level (Z.of_nat (length t1))) = Red
        <-> Z.of_nat (length t1) < 30).
Proof.
  intros Hnd Hfirst Hle. eexists _, _.
  split; [by apply training_series_cells|].
  split; [by apply training_series_cells|].
  rewrite !length_fmap. unfold date_range. rewrite !length_seqZ. split.
  - apply accuracy_rank_monotone. lia.
  - unfold accuracy_level. repeat case_decide; simpl; split; (done || lia).
Qed.

Lemma later_cutoff_never_lowers_accuracy_level_witness :
  exists t1 t2,
    daily_data_for_forecast december_daily (ymd 2024 12 21) = Ok t1
    /\ daily_data_for_forecast december_daily (ymd 2025 2 1) = Ok t2
    /\ accuracy_rank (accuracy_level (Z.of_nat (length t1)))
       <= accuracy_rank (accuracy_level (Z.of_nat (length t2)))
    /\ (accuracy_color (accuracy_level (Z.of_nat (length t1))) = Red
        <-> Z.of_nat (length t1) < 30).
Proof.
  apply (later_cutoff_never_lowers_accuracy_level december_daily (ymd 2024 12 1)).
  - apply (bool_decide_unpack _). vm_compute. exact I.
  - reflexivity.
  - vm_compute. discriminate.
Defined.

(** X22: The model menu always offers the linear regression, offers no model
    twice, and every model it offers runs its own branch; a model that is
    not offered would run the linear regression. *)
Theorem offered_models_run_their_branch (PROPHET_AVAILABLE ARIMA_AVAILABLE : bool) :
  LinearRegression ∈ model_options PROPHET_AVAILABLE ARIMA_AVAILABLE
  /\ NoDup (model_options PROPHET_AVAILABLE ARIMA_AVAILABLE)
  /\ (forall m, m ∈ model_options PROPHET_AVAILABLE ARIMA_AVAILABLE ->
        dispatch m PROPHET_AVAILABLE ARIMA_AVAILABLE = branch_for m)
  /\ (forall m, m ∉ model_options PROPHET_AVAILABLE ARIMA_AVAILABLE ->
        dispatch m PROPHET_AVAILABLE ARIMA_AVAILABLE = UseLinear).
Proof.
  destruct PROPHET_AVAILABLE, ARIMA_AVAILABLE;
    (split; [apply (bool_decide_unpack _); vm_compute; exact I|]);
    (split; [apply (bool_decide_unpack _); vm_compute; exact I|]);
    (split; intros m Hm; destruct m; try reflexivity;
       exfalso; revert Hm; apply (bool_decide_unpack _); vm_compute; exact I).
Qed.

(* ===================================================================== *)
(** * Further facts about the forecasts and the table                     *)
(* ===================================================================== *)

Lemma py_prefix_fmap {A B} (f : A -> B) (n : Z) (l : list A) :
  py_prefix n (f <$> l) = f <$> py_prefix n l.
Proof. unfold py_prefix. rewrite length_fmap. case_decide; by rewrite fmap_take. Qed.

Section MoreForecastFacts.
Context `{Backends}.

(** The Prophet branch reads its values off the days of the future frame
    from [start_date] on, cut to the window length. *)
Lemma prophet_raw_days (series : list (date * Q)) (periods start_date fd : Z) :
  raw_forecast (ProphetCall series periods) start_date fd
  = prophet_yhat series
    <$> (let days := filter (fun d => start_date <= d)
                       (make_future_dataframe (fst <$> series) periods) in
         if decide (fd <= Z.of_nat (length days)) then py_prefix fd days else days).
Proof.
  unfold raw_forecast. cbv zeta.
  rewrite (filter_fmap_fst (fun d => start_date <= d)).
  rewrite length_fmap.
  destruct (decide (fd <= _)); [apply py_prefix_fmap|done].
Qed.

Lemma forecast_length_by_days (b : branch) (series1 series2 : list (date * Q))
    (start_date dtfe fd : Z) :
  fst <$> series1 = fst <$> series2 ->
  length (forecast b series1 start_date dtfe fd)
  = length (forecast b series2 start_date dtfe fd).
Proof.
  intros Hdays. unfold forecast, np_maximum. rewrite !length_fmap.
  assert (length series1 = length series2) as Hlen
    by (by rewrite <- (length_fmap fst series1), Hdays, length_fmap).
  destruct b; cbn [backend_call_of].
  - rewrite !prophet_raw_days, !length_fmap. by rewrite Hdays.
  - simpl. by rewrite !length_fmap.
  - simpl. by rewrite !length_fmap, Hlen.
Qed.

(** X23: In every branch the quantity forecast and the revenue forecast have the
    same number of elements, so the table never drops an element of one for
    lack of the other. *)
Theorem forecasts_have_equal_length (b : branch) (training : daily_series)
    (start_date dtfe fd : Z) :
  length (forecast_quantity b training start_date dtfe fd)
  = length (forecast_amount b training start_date dtfe fd).
Proof.
  apply forecast_length_by_days. unfold quantity_series, amount_series.
  rewrite <- !list_fmap_compose. by apply list_fmap_ext.
Qed.

End MoreForecastFacts.

Lemma rint_nonneg (x : Q) : (0 <= x)%Q -> 0 <= rint x.
Proof.
  intros Hx. unfold rint.
  assert (0 <= Qfloor x) as Hf.
  { rewrite <- (Qfloor_Z 0). by apply Qfloor_resp_le. }
  destruct (Qcompare _ _); [destruct (Z.even _)|..]; lia.
Qed.

Lemma np_round_nonneg (decimals : nat) (x : Q) : (0 <= x)%Q -> (0 <= np_round decimals x)%Q.
Proof.
  intros Hx. unfold np_round.
  assert (0 <= inject_Z (10 ^ Z.of_nat decimals))%Q as Hs.
  { change 0%Q with (inject_Z 0). rewrite <- Zle_Qle. apply Z.pow_nonneg. lia. }
  apply Qmult_le_0_compat.
  - change 0%Q with (inject_Z 0). rewrite <- Zle_Qle.
    apply rint_nonneg. by apply Qmult_le_0_compat.
  - by apply Qinv_le_0_compat.
Qed.

(** Row [i] of the table pairs the [i]-th day with the [i]-th quantity
    rounded to 2 places and the [i]-th amount rounded to 0 places; the table
    ends where the shortest of the three arrays ends. *)
Lemma forecast_df_lookup (forecast_dates : list date) (fq fa : list Q) :
  length (forecast_df forecast_dates fq fa)
  = Nat.min (length forecast_dates) (Nat.min (length fq) (length fa))
  /\ forall (i : nat) (row : forecast_row),
       forecast_df forecast_dates fq fa !! i = Some row
       <-> exists d q a,
             forecast_dates !! i = Some d /\ fq !! i = Some q /\ fa !! i = Some a
             /\ row = mk_forecast_row d (np_round 2 q) (np_round 0 a).
Proof.
  unfold forecast_df. set (m := Nat.min _ _). split.
  - rewrite length_zip_with, length_zip, !length_fmap, !length_take. lia.
  - intros i row. rewrite lookup_zip_with_Some. split.
    + intros (d & [q' a'] & -> & Hd & Hqa).
      apply lookup_zip_Some in Hqa as [Hq Ha].
      rewrite list_lookup_fmap in Hq, Ha.
      apply lookup_take_Some in Hd as [Hd _].
      destruct (take m fq !! i) as [q|] eqn:Hq'; [|done].
      destruct (take m fa !! i) as [a|] eqn:Ha'; [|done].
      apply lookup_take_Some in Hq' as [Hq' _], Ha' as [Ha' _].
      simpl in Hq, Ha. injection Hq as <-. injection Ha as <-.
      by exists d, q, a.
    + intros (d & q & a & Hd & Hq & Ha & ->).
      assert (i < m)%nat as Hi.
      { apply lookup_lt_Some in Hd, Hq, Ha. subst m. lia. }
      exists d, (np_round 2 q, np_round 0 a). split; [done|]. split.
      * by apply lookup_take_Some.
      * apply lookup_zip_Some. rewrite !list_lookup_fmap.
        rewrite !lookup_take_lt by done. by rewrite Hq, Ha.
Qed.

(** X24: The table ends where the shortest of the three arrays ends: it has
    a row [i] exactly when the days, the quantity forecast and the amount
    forecast all have an element [i], and that row carries the [i]-th
    day. *)
Theorem forecast_df_rows (forecast_dates : list date) (fq fa : list Q) :
  length (forecast_df forecast_dates fq fa)
  = Nat.min (length forecast_dates) (Nat.min (length fq) (length fa))
  /\ (forall i : nat,
        is_Some (forecast_df forecast_dates fq fa !! i)
        <-> is_Some (forecast_dates !! i) /\ is_Some (fq !! i) /\ is_Some (fa !! i))
  /\ (forall (i : nat) (row : forecast_row),
        forecast_df forecast_dates fq fa !! i = Some row ->
        forecast_dates !! i = Some (f_day row)).
Proof.
  destruct (forecast_df_lookup forecast_dates fq fa) as [Hlen Hrow].
  split; [exact Hlen|]. split.
  - intros i. split.
    + intros [row (d & q & a & Hd & Hq & Ha & _)%Hrow]. by rewrite Hd, Hq, Ha.
    + intros ([d Hd] & [q Hq] & [a Ha]). eexists. apply Hrow. by exists d, q, a.
  - intros i row (d & q & a & Hd & _ & _ & ->)%Hrow. exact Hd.
Qed.

(** X25: No cell of the table is negative: the forecasts are clamped at zero and
    rounding a number that is not negative gives a number that is not
    negative. *)
Theorem table_cells_nonnegative `{Backends} (b : branch) (training : daily_series)
    (forecast_dates : list date) (start_date dtfe fd : Z) :
  Forall (fun row => (0 <= f_qty row)%Q /\ (0 <= f_amt row)%Q)
    (forecast_df forecast_dates
       (forecast_quantity b training start_date dtfe fd)
       (forecast_amount b training start_date dtfe fd)).
Proof.
  apply Forall_forall. intros row (i & d & [q a] & -> & _ & Hqa)%elem_of_lookup_zip_with.
  apply lookup_zip_Some in Hqa as [Hq Ha]. simpl in *.
  rewrite list_lookup_fmap in Hq, Ha.
  destruct (take _ (forecast_quantity _ _ _ _ _) !! i) as [q0|] eqn:Hq0; [|done].
  destruct (take _ (forecast_amount _ _ _ _ _) !! i) as [a0|] eqn:Ha0; [|done].
  simpl in Hq, Ha. injection Hq as <-. injection Ha as <-.
  apply lookup_take_Some in Hq0 as [Hq0 _], Ha0 as [Ha0 _].
  apply list_elem_of_lookup_2 in Hq0, Ha0.
  split; apply np_round_nonneg.
  - pose proof (np_maximum_lower
      (raw_forecast (backend_call_of b (quantity_series training) dtfe fd) start_date fd)
      0%Q) as Hall.
    rewrite Forall_forall in Hall. by apply Hall.
  - pose proof (np_maximum_lower
      (raw_forecast (backend_call_of b (amount_series training) dtfe fd) start_date fd)
      0%Q) as Hall.
    rewrite Forall_forall in Hall. by apply Hall.
Qed.

(* ===================================================================== *)
(** * The summary under the charts                                        *)
(* ===================================================================== *)

Lemma np_sum_nonneg (a : list Q) : Forall (fun x => 0 <= x)%Q a -> (0 <= np_sum a)%Q.
Proof.
  induction 1 as [|x a Hx _ IH]; simpl; [apply Qle_refl|].
  rewrite <- (Qplus_0_r 0). by apply Qplus_le_compat.
Qed.

Lemma np_sum_bounds_elem (a : list Q) (x : Q) :
  Forall (fun y => 0 <= y)%Q a -> x ∈ a -> (x <= np_sum a)%Q.
Proof.
  intros Hall Hx. induction Hall as [|y a Hy Ha IH]; [by apply elem_of_nil in Hx|].
  simpl. apply elem_of_cons in Hx as [->|Hx].
  - rewrite <- (Qplus_0_r y) at 1. apply Qplus_le_compat; [apply Qle_refl|].
    by apply np_sum_nonneg.
  - rewrite <- (Qplus_0_l x). apply Qplus_le_compat; [done|by apply IH].
Qed.

Lemma Qmax_is_argument (x y : Q) : Qmax x y = x \/ Qmax x y = y.
Proof. unfold Qmax, GenericMinMax.gmax. destruct (x ?= y)%Q; auto. Qed.

Lemma foldr_Qmax_spec (x : Q) (a : list Q) :
  foldr Qmax x a ∈ x :: a /\ Forall (fun y => y <= foldr Qmax x a)%Q (x :: a).
Proof.
  induction a as [|y a [IHin IHle]]; simpl.
  - split; [by apply list_elem_of_singleton|].
    apply Forall_singleton, Qle_refl.
  - apply Forall_cons in IHle as [Hx Ha]. split.
    + destruct (Qmax_is_argument y (foldr Qmax x a)) as [->| ->].
      * apply elem_of_cons. right. apply elem_of_cons. by left.
      * apply elem_of_cons in IHin as [Heq|Hin].
        -- rewrite Heq. apply elem_of_cons. by left.
        -- apply elem_of_cons. right. apply elem_of_cons. by right.
    + repeat apply Forall_cons_2.
      * eapply Qle_trans; [exact Hx|apply Q.le_max_r].
      * apply Q.le_max_l.
      * eapply Forall_impl; [exact Ha|]. intros z Hz. simpl in Hz.
        eapply Qle_trans; [exact Hz|apply Q.le_max_r].
Qed.

Lemma np_max_spec (a : list Q) (m : Q) :
  np_max a = Ok m -> m ∈ a /\ Forall (fun y => y <= m)%Q a.
Proof.
  destruct a as [|x a]; [done|]. intros [= <-]. apply foldr_Qmax_spec.
Qed.

Lemma np_max_some (a : list Q) : (0 < length a)%nat -> exists m, np_max a = Ok m.
Proof. destruct a as [|x a]; simpl; [lia|]. by eexists. Qed.

Section SummaryFacts.
Context `{Backends}.

(** X26: Whenever the revenue forecast has an element, the summary is computed
    and its numbers are consistent with the forecasts being clamped at
    zero: both totals are at least 0, the largest daily amount is one of the
    forecast amounts and bounds all of them, and it is at most the total. *)
Theorem summary_of_clamped_forecasts (b : branch) (training : daily_series)
    (start_date dtfe fd : Z) :
  (0 < length (forecast_amount b training start_date dtfe fd))%nat ->
  exists s,
    summarise fd (forecast_quantity b training start_date dtfe fd)
      (forecast_amount b training start_date dtfe fd) = Ok s
    /\ (0 <= total_quantity s)%Q
    /\ (0 <= total_amount s)%Q
    /\ max_amount s ∈ forecast_amount b training start_date dtfe fd
    /\ Forall (fun x => x <= max_amount s)%Q
         (forecast_amount b training start_date dtfe fd)
    /\ (max_amount s <= total_amount s)%Q.
Proof.
  intros Hlen.
  pose proof (np_maximum_lower
    (raw_forecast (backend_call_of b (quantity_series training) dtfe fd) start_date fd)
    0%Q) as Hq.
  pose proof (np_maximum_lower
    (raw_forecast (backend_call_of b (amount_series training) dtfe fd) start_date fd)
    0%Q) as Ha.
  fold (forecast b (quantity_series training) start_date dtfe fd) in Hq.
  fold (forecast b (amount_series training) start_date dtfe fd) in Ha.
  fold (forecast_quantity b training start_date dtfe fd) in Hq.
  fold (forecast_amount b training start_date dtfe fd) in Ha.
  destruct (np_max_some _ Hlen) as [m Hm].
  destruct (np_max_spec _ _ Hm) as [Hin Hle].
  unfold summarise. rewrite Hm. eexists. split; [reflexivity|]. simpl.
  split; [by apply np_sum_nonneg|].
  split; [by apply np_sum_nonneg|].
  split; [done|]. split; [done|].
  by apply np_sum_bounds_elem.
Qed.

(** X27: With ARIMA or the linear regression and a window of at least one day,
    the summary is always computed, and its amount per day (the total over
    the number of days of the window) is the mean of the forecast amounts:
    the two metrics show the same number. *)
Theorem per_day_average_is_mean_amount (b : branch) (training : daily_series)
    (start_date dtfe fd : Z) :
  b <> UseProphet ->
  0 < fd ->
  exists s,
    summarise fd (forecast_quantity b training start_date dtfe fd)
      (forecast_amount b training start_date dtfe fd) = Ok s
    /\ amount_per_day s = mean_amount s.
Proof.
  intros Hb Hfd.
  assert (length (forecast_amount b training start_date dtfe fd) = Z.to_nat fd)
    as Hlen.
  { unfold forecast_amount.
    destruct b; [done|apply forecast_length_arima|apply forecast_length_linear]. }
  destruct (np_max_some (forecast_amount b training start_date dtfe fd))
    as [m Hm]; [lia|].
  unfold summarise. rewrite Hm. eexists. split; [reflexivity|]. simpl.
  unfold np_mean. rewrite Hlen. by rewrite Z2Nat.id by lia.
Qed.

Lemma prophet_forecast_empty (series : list (date * Q))
    (periods start_date fd first data_end : Z) :
  fst <$> series = date_range first data_end ->
  first <= data_end -> 0 <= periods -> 0 <= fd ->
  data_end + periods < start_date ->
  forecast UseProphet series start_date periods fd = [].
Proof.
  intros Hdays Hle Hp Hfd Hshort. unfold forecast. cbn [backend_call_of].
  rewrite (prophet_raw_forecast series periods start_date fd first data_end) by done.
  by rewrite seqZ_nil by lia.
Qed.

End SummaryFacts.

Lemma summary_of_clamped_forecasts_witness :
  exists s,
    summarise 3 (forecast_quantity UseLinear december_daily 0 0 3)
      (forecast_amount UseLinear december_daily 0 0 3) = Ok s
    /\ (0 <= total_quantity s)%Q
    /\ (0 <= total_amount s)%Q
    /\ max_amount s ∈ forecast_amount UseLinear december_daily 0 0 3
    /\ Forall (fun x => x <= max_amount s)%Q
         (forecast_amount UseLinear december_daily 0 0 3)
    /\ (max_amount s <= total_amount s)%Q.
Proof.
  apply (summary_of_clamped_forecasts UseLinear december_daily 0 0 3).
  vm_compute. lia.
Defined.

Lemma per_day_average_is_mean_amount_witness :
  exists s,
    summarise 3 (forecast_quantity UseArima december_daily 0 0 3)
      (forecast_amount UseArima december_daily 0 0 3) = Ok s
    /\ amount_per_day s = mean_amount s.
Proof.
  apply (per_day_average_is_mean_amount UseArima december_daily 0 0 3).
  - discriminate.
  - lia.
Defined.

Section SummaryPageFacts.
Context `{Backends}.

(** X28: With Prophet and a training series of at least two days, when
    the future frame, which ends [periods] days after the cutoff, stops
    before the first day of the window, both forecasts are empty: the table
    has no row and computing the largest daily amount raises a ValueError
    that nothing catches. *)
Theorem prophet_short_frame_breaks_summary (daily : daily_series) (c : controls)
    (first last : date) :
  NoDup (day <$> daily) ->
  col_min (day <$> daily) = Some first ->
  col_max (day <$> daily) = Some last ->
  first < data_end_date c ->
  start_date c <= end_date c ->
  run_forecast c = true ->
  branch_of c = UseProphet ->
  data_end_date c + prophet_periods c last < start_date c ->
  forecast_section daily c = Ok (Some [])
  /\ summary_section daily c = Raise ValueError.
Proof.
  intros Hnd Hfirst Hlast Hcut Hwin Hrun Hb Hshort.
  pose proof (prophet_periods_nonneg c last Hwin) as Hp.
  assert (0 <= forecast_days (start_date c) (end_date c)) as Hfd
    by (unfold forecast_days, days_between; lia).
  set (t := cell_at daily <$> date_range first (data_end_date c)).
  assert (forall f : daily_row -> date * Q, (forall e, fst (f e) = day e) ->
            forecast UseProphet (f <$> t) (start_date c) (prophet_periods c last)
              (forecast_days (start_date c) (end_date c)) = []) as Hempty.
  { intros f Hf.
    apply (prophet_forecast_empty _ _ _ _ first (data_end_date c)); try done; [|lia].
    rewrite (series_days f t Hf). apply training_days. }
  split.
  - rewrite (forecast_section_run daily c first last)
      by (done || (rewrite Hb; simpl; lia)).
    rewrite Hb. unfold forecast_quantity, forecast_amount, quantity_series, amount_series.
    fold t. rewrite !Hempty by done. unfold forecast_df. simpl.
    by rewrite Nat.min_0_r.
  - unfold summary_section.
    rewrite (training_series_cells daily (data_end_date c) first) by done.
    cbn [mbind mret result_bind result_ret]. rewrite Hrun, Hlast.
    fold (branch_of c). rewrite Hb. fold (prophet_periods c last).
    unfold quantity_series, amount_series.
    rewrite !fit_training by (simpl; lia).
    cbn [mbind mret result_bind result_ret]. fold t.
    unfold forecast_quantity, forecast_amount, quantity_series, amount_series.
    by rewrite !Hempty by done.
Qed.

End SummaryPageFacts.

Lemma prophet_short_frame_breaks_summary_witness :
  forecast_section december_daily (december_window Prophet) = Ok (Some [])
  /\ summary_section december_daily (december_window Prophet) = Raise ValueError.
Proof.
  apply (prophet_short_frame_breaks_summary december_daily (december_window Prophet)
           (ymd 2024 12 1) (ymd 2024 12 31)).
  - apply (bool_decide_unpack _). vm_compute. exact I.
  - reflexivity.
  - reflexivity.
  - vm_compute. reflexivity.
  - vm_compute. discriminate.
  - reflexivity.
  - reflexivity.
  - vm_compute. reflexivity.
Defined.

(* ===================================================================== *)
(** * The tags of the chart titles                                        *)
(* ===================================================================== *)

(** X29: The chart titles carry a tag for an axis exactly when the selection on
    that axis filters the records: the condition of lines 719, 726 and 733
    is the negation of the one that makes the filter functions return
    their input. *)
Theorem title_tag_iff_filtered (a : axis) (selected : list string) :
  axis_title a selected = EmptyString <-> no_filter a selected = true.
Proof.
  unfold axis_title, no_filter.
  destruct selected as [|x l].
  - by rewrite bool_decide_eq_false_2 by (by intros []).
  - rewrite (bool_decide_eq_true_2 (x :: l <> [])) by done.
    rewrite (bool_decide_eq_true_2 (0 < length (x :: l))%nat) by (simpl; lia).
    rewrite (bool_decide_eq_false_2 (x :: l = [])) by done.
    rewrite (bool_decide_eq_false_2 (length (x :: l) = 0%nat)) by done.
    simpl. destruct (decide (sentinel a ∈ x :: l)) as [Hin|Hout].
    + rewrite (bool_decide_eq_true_2 _ Hin).
      by rewrite bool_decide_eq_false_2 by (by intros []).
    + rewrite (bool_decide_eq_false_2 _ Hout).
      rewrite (bool_decide_eq_true_2 _ Hout).
      split; [|done]. by case_decide.
Qed.

(* ===================================================================== *)
(** * Dates written with 年, 月 and 日                                    *)
(* ===================================================================== *)

Lemma ascii_text_nil : ascii_text EmptyString.
Proof. constructor. Qed.

Lemma ascii_text_cons (c : ascii) (s : string) :
  ascii_text (String c s) <-> (N_of_ascii c < 128)%N /\ ascii_text s.
Proof. unfold ascii_text. simpl. apply (Forall_cons (fun c => (N_of_ascii c < 128)%N)). Qed.

Lemma ascii_text_app (x y : string) :
  ascii_text x -> ascii_text y -> ascii_text (x +:+ y).
Proof.
  intros Hx Hy. induction x as [|c x IH]; [done|].
  rewrite string_app_cons. apply ascii_text_cons in Hx as [Hc Hx].
  apply ascii_text_cons. split; [done|by apply IH].
Qed.

Lemma string_app_nil_r (x : string) : x +:+ EmptyString = x.
Proof. induction x as [|c x IH]; [done|]. rewrite string_app_cons. by f_equal. Qed.

Section Replace.
Variables (c0 : ascii) (old' new : string).

Lemma replace_skip (x s : string) :
  replace_from (String c0 old') new (String.length x) (x +:+ s)
  = replace_from (String c0 old') new 0 s.
Proof.
  induction x as [|c x IH]; [done|]. rewrite string_app_cons. exact IH.
Qed.

(** An occurrence at the head is replaced, and the search goes on behind it. *)
Lemma replace_at (s : string) :
  py_replace (String c0 old') new (String c0 old' +:+ s)
  = new +:+ py_replace (String c0 old') new s.
Proof.
  unfold py_replace. rewrite string_app_cons.
  cbn [replace_from]. rewrite <- string_app_cons, prefix_app_self.
  f_equal.
  replace (String.length (String c0 old') - 1)%nat with (String.length old')
    by (simpl; lia).
  apply replace_skip.
Qed.

(** A character other than the first of [old] is passed over. *)
Lemma replace_pass (c : ascii) (s : string) :
  c <> c0 ->
  py_replace (String c0 old') new (String c s)
  = String c (py_replace (String c0 old') new s).
Proof.
  intros Hc. unfold py_replace. cbn [replace_from String.prefix].
  destruct (ascii_dec c0 c) as [->|_]; done.
Qed.

Lemma replace_ascii (x s : string) :
  (128 <= N_of_ascii c0)%N ->
  ascii_text x ->
  py_replace (String c0 old') new (x +:+ s)
  = x +:+ py_replace (String c0 old') new s.
Proof.
  intros Hc0 Hx. induction x as [|c x IH]; [done|].
  apply ascii_text_cons in Hx as [Hc Hx].
  rewrite !string_app_cons, replace_pass; [by rewrite IH|].
  intros ->. lia.
Qed.

End Replace.

Lemma ascii_text_dash : ascii_text "-".
Proof. apply ascii_text_cons. split; [reflexivity|apply ascii_text_nil]. Qed.

Lemma replace_year_over_month (s : string) :
  py_replace "年" "-" ("月" +:+ s) = "月" +:+ py_replace "年" "-" s.
Proof.
  rewrite !string_app_cons, string_app_nil.
  by rewrite !replace_pass by discriminate.
Qed.

Lemma replace_month_over_day (s : string) :
  py_replace "月" "-" ("日" +:+ s) = "日" +:+ py_replace "月" "-" s.
Proof.
  rewrite !string_app_cons, string_app_nil.
  unfold py_replace. by cbn.
Qed.

Lemma replace_year (y m d : string) :
  ascii_text y -> ascii_text m -> ascii_text d ->
  py_replace "年" "-" (y +:+ "年" +:+ m +:+ "月" +:+ d +:+ "日")
  = y +:+ "-" +:+ m +:+ "月" +:+ d +:+ "日".
Proof.
  intros Hy Hm Hd.
  rewrite replace_ascii by done. rewrite replace_at.
  rewrite replace_ascii by done. rewrite replace_year_over_month.
  rewrite <- (string_app_nil_r "日") at 1.
  rewrite replace_ascii by done.
  by rewrite string_app_nil_r.
Qed.

Lemma replace_month (y m d : string) :
  ascii_text y -> ascii_text m -> ascii_text d ->
  py_replace "月" "-" (y +:+ "-" +:+ m +:+ "月" +:+ d +:+ "日")
  = y +:+ "-" +:+ m +:+ "-" +:+ d +:+ "日".
Proof.
  intros Hy Hm Hd.
  rewrite replace_ascii by done.
  rewrite (replace_ascii _ _ _ "-") by (done || apply ascii_text_dash).
  rewrite replace_ascii by done. rewrite replace_at.
  rewrite replace_ascii by done.
  rewrite <- (string_app_nil_r "日") at 1.
  rewrite replace_month_over_day.
  by rewrite string_app_nil_r.
Qed.

Lemma replace_day (y m d : string) :
  ascii_text y -> ascii_text m -> ascii_text d ->
  py_replace "日" "" (y +:+ "-" +:+ m +:+ "-" +:+ d +:+ "日")
  = y +:+ "-" +:+ m +:+ "-" +:+ d.
Proof.
  intros Hy Hm Hd.
  rewrite replace_ascii by done.
  rewrite (replace_ascii _ _ _ "-") by (done || apply ascii_text_dash).
  rewrite replace_ascii by done.
  rewrite (replace_ascii _ _ _ "-") by (done || apply ascii_text_dash).
  rewrite replace_ascii by done.
  change (py_replace "日" "" "日") with EmptyString.
  by rewrite string_app_nil_r.
Qed.

Lemma normalise_ascii (s : string) : ascii_text s -> normalise_date s = s.
Proof.
  intros Hs. unfold normalise_date.
  rewrite <- (string_app_nil_r s).
  by rewrite !replace_ascii by done.
Qed.

(** X30: A date written as year 年 month 月 day 日 with fields in ASCII is read
    as the same fields joined by "-": it gives the day, or NaT, that the
    ISO spelling gives. *)
Theorem japanese_date_parses_as_iso `{PyDates} (y m d : string) :
  ascii_text y -> ascii_text m -> ascii_text d ->
  normalise_date (y +:+ "年" +:+ m +:+ "月" +:+ d +:+ "日")
  = y +:+ "-" +:+ m +:+ "-" +:+ d
  /\ parse_date (y +:+ "年" +:+ m +:+ "月" +:+ d +:+ "日")
     = parse_date (y +:+ "-" +:+ m +:+ "-" +:+ d).
Proof.
  intros Hy Hm Hd.
  assert (normalise_date (y +:+ "年" +:+ m +:+ "月" +:+ d +:+ "日")
          = y +:+ "-" +:+ m +:+ "-" +:+ d) as Hn.
  { unfold normalise_date. by rewrite replace_year, replace_month, replace_day. }
  split; [exact Hn|].
  unfold parse_date. rewrite Hn, normalise_ascii; [done|].
  repeat (apply ascii_text_app; [done || apply ascii_text_dash|]). done.
Qed.

Lemma japanese_date_parses_as_iso_witness :
  normalise_date ("2025" +:+ "年" +:+ "12" +:+ "月" +:+ "01" +:+ "日")
  = "2025" +:+ "-" +:+ "12" +:+ "-" +:+ "01"
  /\ parse_date ("2025" +:+ "年" +:+ "12" +:+ "月" +:+ "01" +:+ "日")
     = parse_date ("2025" +:+ "-" +:+ "12" +:+ "-" +:+ "01").
Proof.
  apply (japanese_date_parses_as_iso "2025" "12" "01");
    apply (bool_decide_unpack _); vm_compute; exact I.
Defined.

(** A text of the other spelling, or of no date at all, never stops the
    load: with the small [to_datetime] above, the first day of December
    2025 is read from both spellings, and a text that names no day gives
    NaT. *)
Lemma parse_date_examples :
  parse_date "2025年12月01日" = Some (ymd 2025 12 1)
  /\ parse_date "2025-12-01" = Some (ymd 2025 12 1)
  /\ parse_date "2025年02月30日" = None
  /\ parse_date "nan" = None.
Proof. repeat split; reflexivity. Qed.
